(** * ckanext-dcat [profiles.py]: a shallow embedding of the RDF profiles

    The embedding follows [ckanext/dcat/profiles.py] function by function.
    An rdflib graph is the sequence of triples its store yields, a CKAN
    dataset dict is an insertion-ordered association list of Python values,
    and a Python exception is the [Raise] outcome of a small error monad.
    Collaborators that live outside the module (the site configuration, the
    license register, [float], [dateutil], [json], [geomet], [munge_tag]) are
    fields of one environment record, never assumed to behave in any
    particular way unless a theorem says so in a hypothesis. *)

From Stdlib Require Import Ascii ZArith Lia.
From Stdlib Require Import Floats.SpecFloat.
From stdpp Require Import base option list strings gmap.

Local Open Scope Z_scope.
Set Warnings "-register-all,-clear-no-such-hyp".

(** ** Python outcomes *)

Inductive exn :=
  | NameError | AssertionError | IndexError | KeyError
  | ValueError | OverflowError | TypeError | AttributeError
  | InvalidGeoJSONException.

Inductive result (A : Type) :=
  | Ok (a : A)
  | Raise (e : exn).
Arguments Ok {A} a.
Arguments Raise {A} e.

Definition bind {A B} (m : result A) (k : A → result B) : result B :=
  match m with
  | Ok a => k a
  | Raise e => Raise e
  end.

Global Instance result_bind : MBind result := λ A B k m, bind m k.
Global Instance result_ret : MRet result := @Ok.

Global Instance exn_eq_dec : EqDecision exn.
Proof. solve_decision. Defined.

(** [try: body except (classes): handler]; an exception of another class
    passes through. *)
Definition try_except {A} (body : result A) (classes : list exn) (handler : result A)
    : result A :=
  match body with
  | Ok a => Ok a
  | Raise e => if bool_decide (e ∈ classes) then handler else Raise e
  end.

(** [for x in xs: st = body(st, x)], stopping at the first exception. *)
Fixpoint for_each {A S} (body : S → A → result S) (xs : list A) (st : S)
    : result S :=
  match xs with
  | [] => Ok st
  | x :: xs' => st' ← body st x; for_each body xs' st'
  end.

(** ** Python [str] methods

    A character is an 8-bit code point; the text methods below are the ones
    the module calls. *)

Module Str.

Definition is_empty (s : string) : bool :=
  match s with EmptyString => true | String _ _ => false end.

(** [bool(s)] *)
Definition truthy (s : string) : bool := negb (is_empty s).

(** [str.isspace] on one code point below 256. *)
Definition isspace (c : ascii) : bool :=
  let n := nat_of_ascii c in
  ((9 <=? n) && (n <=? 13) || (28 <=? n) && (n <=? 32)
   || (n =? 133) || (n =? 160))%nat.

Fixpoint lstrip (s : string) : string :=
  match s with
  | EmptyString => EmptyString
  | String c s' => if isspace c then lstrip s' else s
  end.

Fixpoint rstrip (s : string) : string :=
  match s with
  | EmptyString => EmptyString
  | String c s' =>
      let r := rstrip s' in
      if is_empty r && isspace c then EmptyString else String c r
  end.

(** [s.strip()] *)
Definition strip (s : string) : string := rstrip (lstrip s).

(** [s.startswith(p)] *)
Fixpoint startswith (p s : string) : bool :=
  match p, s with
  | EmptyString, _ => true
  | String a p', String b s' => Ascii.eqb a b && startswith p' s'
  | String _ _, EmptyString => false
  end.

(** [sub in s] *)
Fixpoint contains (sub s : string) : bool :=
  startswith sub s
  || match s with
     | EmptyString => false
     | String _ s' => contains sub s'
     end.

(** [s.replace(old, new)]: leftmost, non-overlapping occurrences.  [skip]
    counts the characters of a matched occurrence still to be dropped. *)
Fixpoint replace_from (old new : string) (skip : nat) (s : string) : string :=
  match s with
  | EmptyString => EmptyString
  | String c s' =>
      match skip with
      | S k => replace_from old new k s'
      | O =>
          if startswith old s
          then new +:+ replace_from old new (Nat.pred (String.length old)) s'
          else String c (replace_from old new O s')
      end
  end.

Definition replace (old new s : string) : string :=
  match old with
  | EmptyString =>
      (* an empty pattern matches before every character and at the end *)
      new +:+ String.concat EmptyString
                (map (fun c => String c new) (String.list_ascii_of_string s))
  | String _ _ => replace_from old new O s
  end.

(** [s.split(sep)] for a one-character separator. *)
Fixpoint split (sep : ascii) (s : string) : list string :=
  match s with
  | EmptyString => [EmptyString]
  | String c s' =>
      if Ascii.eqb c sep then EmptyString :: split sep s'
      else match split sep s' with
           | h :: t => String c h :: t
           | [] => [String c EmptyString]
           end
  end.

(** [sep.join(items)] *)
Definition join (sep : string) (items : list string) : string :=
  String.concat sep items.

(** [sorted(items)] on strings: insertion sort by code point order. *)
Fixpoint insert_sorted (x : string) (l : list string) : list string :=
  match l with
  | [] => [x]
  | y :: l' => if String.leb x y then x :: l else y :: insert_sorted x l'
  end.

Definition sorted (l : list string) : list string :=
  foldr insert_sorted [] l.

End Str.

(** ** [urllib.parse.quote] on a one-character string

    Letters, digits, [_.-~] and the default safe character [/] are kept; any
    other code point is UTF-8 encoded and each byte written [%XY] in upper
    case hexadecimal. *)

Module Quote.

Definition hex_digit (n : nat) : ascii :=
  ascii_of_nat (if (n <? 10)%nat then 48 + n else 55 + n)%nat.

Definition percent_byte (n : nat) : string :=
  String "%" (String (hex_digit (n / 16)) (String (hex_digit (n mod 16)) EmptyString)).

Definition always_safe (c : ascii) : bool :=
  let n := nat_of_ascii c in
  ((65 <=? n) && (n <=? 90) || (97 <=? n) && (n <=? 122)
   || (48 <=? n) && (n <=? 57)
   || (n =? 95) || (n =? 46) || (n =? 45) || (n =? 126) || (n =? 47))%nat.

(** [quote(c)] *)
Definition quote (c : ascii) : string :=
  let n := nat_of_ascii c in
  if always_safe c then String c EmptyString
  else if (n <? 128)%nat then percent_byte n
  else percent_byte (192 + n / 64) +:+ percent_byte (128 + n mod 64).

End Quote.

(** ** rdflib terms and graphs *)

Inductive node :=
  | URIRef (iri : string)
  | BNode (id : string)
  | Literal (lexical : string) (language : option string) (datatype : option string).

Global Instance node_eq_dec : EqDecision node.
Proof. solve_decision. Defined.

(** [str(o)] *)
Definition node_str (o : node) : string :=
  match o with
  | URIRef s | BNode s => s
  | Literal s _ _ => s
  end.

Definition is_Literal (o : node) : bool :=
  match o with Literal _ _ _ => true | _ => false end.
Definition is_URIRef (o : node) : bool :=
  match o with URIRef _ => true | _ => false end.
Definition is_BNode (o : node) : bool :=
  match o with BNode _ => true | _ => false end.

(** [Literal(text)]: a plain literal. *)
Definition plain (s : string) : node := Literal s None None.

(** ** [CleanedURIRef] *)

Module CleanedURIRef.

(** The characters of [quotechars], in the order of the source string:
    space, exclamation mark, double quote, dollar, apostrophe, round
    brackets, asterisk, comma, semicolon, angle, square and curly brackets,
    vertical bar, backslash, caret and backtick. *)
Definition quotechars : list ascii :=
  String.list_ascii_of_string
    (" !" +:+ String (ascii_of_nat 34) "$'()*,;<>[]{|}\^`").

Definition _careful_quote (value : string) : string :=
  fold_left
    (fun value c => Str.replace (String c EmptyString) (Quote.quote c) value)
    quotechars value.

(** [CleanedURIRef(value)] for a text [value]. *)
Definition new (value : string) : node :=
  URIRef (_careful_quote (Str.strip value)).

End CleanedURIRef.

(** ** Graphs

    A graph is the sequence of triples in the order the store yields them;
    [Graph.add] keeps it duplicate free.  Nothing the profiles do depends on
    more than this order. *)

Definition triple : Type := node * node * node.
Definition graph : Type := list triple.

(** [g.objects(subject, predicate)] *)
Definition objects (g : graph) (subject predicate : node) : list node :=
  omap (λ t : triple,
          let '(s, p, o) := t in
          if decide (s = subject ∧ p = predicate) then Some o else None) g.

(** [g.subjects(predicate, object)] *)
Definition subjects (g : graph) (predicate object : node) : list node :=
  omap (λ t : triple,
          let '(s, p, o) := t in
          if decide (p = predicate ∧ o = object) then Some s else None) g.

(** [g.subjects(predicate)]: the object is left open. *)
Definition subjects_of (g : graph) (predicate : node) : list node :=
  omap (λ t : triple,
          let '(s, p, o) := t in
          if decide (p = predicate) then Some s else None) g.

(** [(s, p, o) in g] *)
Definition graph_contains (g : graph) (t : triple) : bool := bool_decide (t ∈ g).

(** [g.add((s, p, o))] *)
Definition graph_add (g : graph) (t : triple) : graph :=
  if decide (t ∈ g) then g else g ++ [t].

(** [g.value(subject, predicate, default=None)]: any one object, the first. *)
Definition graph_value (g : graph) (subject predicate : node) : option node :=
  head (objects g subject predicate).

(** ** Namespaces *)

Definition DCT (name : string) : node := URIRef ("http://purl.org/dc/terms/" +:+ name).
Definition DCAT (name : string) : node := URIRef ("http://www.w3.org/ns/dcat#" +:+ name).
Definition ADMS (name : string) : node := URIRef ("http://www.w3.org/ns/adms#" +:+ name).
Definition VCARD (name : string) : node := URIRef ("http://www.w3.org/2006/vcard/ns#" +:+ name).
Definition FOAF (name : string) : node := URIRef ("http://xmlns.com/foaf/0.1/" +:+ name).
Definition SCHEMA (name : string) : node := URIRef ("http://schema.org/" +:+ name).
Definition TIME (name : string) : node := URIRef ("http://www.w3.org/2006/time" +:+ name).
Definition LOCN (name : string) : node := URIRef ("http://www.w3.org/ns/locn#" +:+ name).
Definition GSP (name : string) : node := URIRef ("http://www.opengis.net/ont/geosparql#" +:+ name).
Definition OWL (name : string) : node := URIRef ("http://www.w3.org/2002/07/owl#" +:+ name).
Definition SPDX (name : string) : node := URIRef ("http://spdx.org/rdf/terms#" +:+ name).
Definition RDF (name : string) : node := URIRef ("http://www.w3.org/1999/02/22-rdf-syntax-ns#" +:+ name).
Definition RDFS (name : string) : node := URIRef ("http://www.w3.org/2000/01/rdf-schema#" +:+ name).
Definition SKOS (name : string) : node := URIRef ("http://www.w3.org/2004/02/skos/core#" +:+ name).
Definition XSD (name : string) : string := "http://www.w3.org/2001/XMLSchema#" +:+ name.

Definition GEOJSON_IMT : string :=
  "https://www.iana.org/assignments/media-types/application/vnd.geo+json".
Definition PREFIX_MAILTO : string := "mailto:".

(** ** Python values and dicts *)

Inductive pyval :=
  | VNone
  | VBool (b : bool)
  | VInt (n : Z)
  | VFloat (f : spec_float)
  | VStr (s : string)
  | VList (items : list pyval)
  | VDict (entries : list (string * pyval)).

(** A dict with text keys, in insertion order. *)
Definition pydict : Type := list (string * pyval).

(** [bool(v)] *)
Definition truthy (v : pyval) : bool :=
  match v with
  | VNone => false
  | VBool b => b
  | VInt n => negb (n =? 0)
  | VFloat f => match f with S754_zero _ => false | _ => true end
  | VStr s => Str.truthy s
  | VList l => match l with [] => false | _ => true end
  | VDict d => match d with [] => false | _ => true end
  end.

(** [d.get(key)] *)
Fixpoint dict_get (d : pydict) (key : string) : option pyval :=
  match d with
  | [] => None
  | (k, v) :: d' => if decide (k = key) then Some v else dict_get d' key
  end.

(** [key in d] *)
Definition dict_has (d : pydict) (key : string) : bool :=
  match dict_get d key with Some _ => true | None => false end.

(** [d[key] = v]: an existing key keeps its place. *)
Fixpoint dict_set (d : pydict) (key : string) (v : pyval) : pydict :=
  match d with
  | [] => [(key, v)]
  | (k, w) :: d' =>
      if decide (k = key) then (k, v) :: d' else (k, w) :: dict_set d' key v
  end.

(** [d[key]] *)
Definition dict_item (d : pydict) (key : string) : result pyval :=
  match dict_get d key with Some v => Ok v | None => Raise KeyError end.

(** [d.get(key)] as a Python value: [None] when the key is missing. *)
Definition dict_get_value (d : pydict) (key : string) : pyval :=
  default VNone (dict_get d key).

(** The text of a value that is one; the empty text otherwise. *)
Definition text_of (v : pyval) : string :=
  match v with VStr s => s | _ => EmptyString end.

(** The extras entry [{'key': key, 'value': value}]. *)
Definition extra (key : string) (value : pyval) : pyval :=
  VDict [("key", VStr key); ("value", value)].

(** ** Dates: [datetime.datetime] and [isoformat] *)

Record datetime := {
  year : nat; month : nat; day : nat;
  hour : nat; minute : nat; second : nat; microsecond : nat;
  utcoffset : option Z  (* seconds east of UTC; [None] for a naive value *)
}.

Module Iso.

Definition digit (n : nat) : ascii := ascii_of_nat (48 + n mod 10).

(** [n] in decimal on exactly [width] digits. *)
Fixpoint pad (width n : nat) : string :=
  match width with
  | O => EmptyString
  | S w => pad w (n / 10) +:+ String (digit n) EmptyString
  end.

Definition offset (o : option Z) : string :=
  match o with
  | None => EmptyString
  | Some z =>
      let a := Z.to_nat (Z.abs z) in
      (if z <? 0 then "-" else "+")
      +:+ pad 2 (a / 3600) +:+ ":" +:+ pad 2 (a mod 3600 / 60)
      +:+ (if (a mod 60 =? 0)%nat then EmptyString else ":" +:+ pad 2 (a mod 60))
  end.

(** [d.isoformat()] *)
Definition isoformat (d : datetime) : string :=
  pad 4 (year d) +:+ "-" +:+ pad 2 (month d) +:+ "-" +:+ pad 2 (day d)
  +:+ "T" +:+ pad 2 (hour d) +:+ ":" +:+ pad 2 (minute d) +:+ ":" +:+ pad 2 (second d)
  +:+ (if (microsecond d =? 0)%nat then EmptyString
       else "." +:+ pad 6 (microsecond d))
  +:+ offset (utcoffset d).

End Iso.

(** [datetime.datetime(1, 1, 1, 0, 0, 0)] *)
Definition default_datetime : datetime :=
  {| year := 1; month := 1; day := 1; hour := 0; minute := 0; second := 0;
     microsecond := 0; utcoffset := None |}.

(** [int(f)] on a binary float: truncation towards zero; infinities and NaN
    have no integer. *)
Definition int_of_float (f : spec_float) : result Z :=
  match f with
  | S754_zero _ => Ok 0
  | S754_infinity _ => Raise OverflowError
  | S754_nan => Raise ValueError
  | S754_finite s m e =>
      let a := if 0 <=? e then Z.pos m * 2 ^ e else Z.pos m / 2 ^ (- e) in
      Ok (if s then - a else a)
  end.

(** ** The environment of a profile

    The site configuration as the profile reads it, and the collaborators the
    module imports.  Each field is what the named call returns. *)

Record environment := {
  (** [config.get('ckan.locale_default', 'en')] *)
  locale_default : string;
  (** [toolkit.asbool(config.get(DCAT_EXPOSE_SUBCATALOGS, False))] *)
  expose_subcatalogs : bool;
  (** [toolkit.asbool(config.get(DCAT_CLEAN_TAGS, False))] *)
  clean_tags : bool;
  (** [toolkit.asbool(config.get('ckanext.dcat.normalize_ckan_format', True))] *)
  normalize_ckan_format : bool;
  (** [toolkit.asbool(config.get(DISTRIBUTION_LICENSE_FALLBACK_CONFIG, False))] *)
  resource_inherit_license : bool;
  (** [LicenseRegister().items()]: identifier, then url and title. *)
  license_register : list (string * (string * string));
  (** [helpers.resource_formats()]: each key with entry [1] of its tuple. *)
  resource_formats : gmap string string;
  (** [ckan.lib.munge.munge_tag] *)
  munge_tag : string → string;
  (** [float(text)]; [None] stands for its [ValueError]. *)
  py_float : string → option spec_float;
  (** [json.dumps] *)
  json_dumps : pyval → string;
  (** [json.loads] *)
  json_loads : string → result pyval;
  (** [json.dumps(wkt.loads(text))] *)
  wkt_to_geojson : string → result string;
  (** [dateutil.parser.parse(value, default=d)] *)
  parse_date : pyval → datetime → result datetime;
  (** [bool(Literal(lexical, datatype=dt))] for a typed literal: rdflib
      converts the lexical form to a Python value and tests that. *)
  typed_literal_truthy : string → string → bool;
  (** [Literal(lexical, datatype=dt).toPython()] when that is a text. *)
  typed_literal_text : string → string → option string;
  (** [Literal(v, datatype=dt)] for a Python value [v] that is not a text. *)
  Literal_of_object : pyval → option string → node;
  (** [URIRef(v)] for a Python value [v] that is not a text. *)
  URIRef_of_object : pyval → node;
  (** [str(v)] for a Python value [v] that is not a text. *)
  str_of_object : pyval → string;
  (** [float(v)] for a Python value [v] that is not a text. *)
  float_of_object : pyval → result spec_float;
  (** [Literal(f, datatype=XSD.decimal)] for a float [f]. *)
  decimal_literal : spec_float → node;
  (** The identifier of the [n]-th blank node [BNode()] creates. *)
  bnode_id : nat → string;
  (** [ckanext.dcat.utils.resource_uri] *)
  resource_uri : pyval → result pyval;
  (** [ckanext.dcat.utils.publisher_uri_organization_fallback] *)
  publisher_uri_organization_fallback : pydict → result pyval;
  (** [wkt.dumps(json.loads(value), decimals=4)] *)
  geojson_to_wkt : pyval → result string
}.

(** [bool(o)] for a term. *)
Definition node_truthy (E : environment) (o : node) : bool :=
  match o with
  | URIRef s | BNode s => Str.truthy s
  | Literal s _ None => Str.truthy s
  | Literal s _ (Some dt) => typed_literal_truthy E s dt
  end.

(** [o.toPython()] as a dict key: the text it equals, if it is a text. *)
Definition toPython (E : environment) (o : node) : option string :=
  match o with
  | URIRef s | BNode s => Some s
  | Literal s _ None => Some s
  | Literal s _ (Some dt) => typed_literal_text E s dt
  end.

(** ** [RDFProfile]: reading the graph *)

Section GraphAccessor.
Context (E : environment) (g : graph).

(** [_distributions] *)
Definition _distributions (dataset : node) : list node :=
  objects g dataset (DCAT "distribution").

(** [_object]: the first object, or [None]. *)
Definition _object (subject predicate : node) : option node :=
  head (objects g subject predicate).

(** [o.language and o.language == default_lang] *)
Definition in_default_language (language : option string) : bool :=
  match language with
  | Some l => Str.truthy l && bool_decide (l = locale_default E)
  | None => false
  end.

(** The loop of [_object_value], [fallback] being its local variable. *)
Fixpoint _object_value_loop (fallback : string) (os : list node) : string :=
  match os with
  | [] => fallback
  | Literal s language _ :: os' =>
      if in_default_language language then s
      else if Str.is_empty fallback then _object_value_loop s os'
      else _object_value_loop fallback os'
  | o :: _ => node_str o
  end.

Definition _object_value (subject predicate : node) : string :=
  _object_value_loop EmptyString (objects g subject predicate).

(** [_object_value_multiple_predicate] *)
Fixpoint _object_value_multiple_predicate_loop
    (object_value : string) (subject : node) (predicates : list node) : string :=
  match predicates with
  | [] => object_value
  | predicate :: rest =>
      let object_value := _object_value subject predicate in
      if Str.truthy object_value then object_value
      else _object_value_multiple_predicate_loop object_value subject rest
  end.

Definition _object_value_multiple_predicate
    (subject : node) (predicates : list node) : string :=
  _object_value_multiple_predicate_loop EmptyString subject predicates.

(** [int(float(text))] *)
Definition int_float (text : string) : result Z :=
  match py_float E text with
  | None => Raise ValueError
  | Some f => int_of_float f
  end.

(** [_object_value_int] *)
Definition _object_value_int (subject predicate : node) : result (option Z) :=
  let object_value := _object_value subject predicate in
  if Str.truthy object_value then
    try_except (n ← int_float object_value; Ok (Some n)) [ValueError] (Ok None)
  else Ok None.

(** [_object_value_int_list] *)
Definition _object_value_int_list (subject predicate : node) : result (list Z) :=
  for_each
    (λ object_values object,
       if node_truthy E object then
         try_except
           (n ← int_float (node_str object); Ok (object_values ++ [n]))
           [ValueError] (Ok object_values)
       else Ok object_values)
    (objects g subject predicate) [].

(** [_object_value_list] *)
Definition _object_value_list (subject predicate : node) : list string :=
  node_str <$> objects g subject predicate.

(** [keywords.remove(keyword)] *)
Fixpoint list_remove (x : string) (l : list string) : result (list string) :=
  match l with
  | [] => Raise ValueError
  | y :: l' =>
      if decide (y = x) then Ok l' else l'' ← list_remove x l'; Ok (y :: l'')
  end.

(** [_keywords] *)
Definition _keywords (dataset_ref : node) : result (list string) :=
  let keywords := _object_value_list dataset_ref (DCAT "keyword") in
  let keywords_with_commas := filter (λ k, Str.contains "," k = true) keywords in
  for_each
    (λ keywords keyword,
       keywords ← list_remove keyword keywords;
       Ok (keywords ++ (Str.strip <$> Str.split "," keyword)))
    keywords_with_commas keywords.

(** [_without_mailto] *)
Definition _without_mailto (mail_addr : string) : string :=
  if Str.truthy mail_addr then Str.replace PREFIX_MAILTO EmptyString mail_addr
  else mail_addr.

(** [_get_vcard_property_value] *)
Definition _get_vcard_property_value
    (subject predicate : node) (predicate_string_property : option node) : string :=
  let result :=
    match predicate_string_property with
    | Some q => if Str.truthy (node_str q) then _object_value subject q else EmptyString
    | None => EmptyString
    end in
  if Str.truthy result then result
  else
    match _object subject predicate with
    | Some (BNode b) => _object_value (BNode b) (VCARD "hasValue")
    | _ => _object_value subject predicate
    end.

(** [str(agent) if isinstance(agent, URIRef) else ''] *)
Definition uri_or_empty (o : node) : string :=
  if is_URIRef o then node_str o else EmptyString.

(** One pass of the loop body of [_publisher]. *)
Definition _publisher_step (publisher : pydict) (agent : node) : pydict :=
  let publisher := dict_set publisher "uri" (VStr (uri_or_empty agent)) in
  let publisher := dict_set publisher "name" (VStr (_object_value agent (FOAF "name"))) in
  let publisher := dict_set publisher "email" (VStr (_object_value agent (FOAF "mbox"))) in
  let publisher := dict_set publisher "url" (VStr (_object_value agent (FOAF "homepage"))) in
  dict_set publisher "type" (VStr (_object_value agent (DCT "type"))).

(** [_publisher] *)
Definition _publisher (subject predicate : node) : pydict :=
  fold_left _publisher_step (objects g subject predicate) [].

(** One pass of the loop body of [_contact_details]. *)
Definition _contact_step (contact : pydict) (agent : node) : pydict :=
  let contact := dict_set contact "uri" (VStr (uri_or_empty agent)) in
  let contact :=
    dict_set contact "name"
      (VStr (_get_vcard_property_value agent (VCARD "hasFN") (Some (VCARD "fn")))) in
  dict_set contact "email"
    (VStr (_without_mailto (_get_vcard_property_value agent (VCARD "hasEmail") None))).

(** [_contact_details] *)
Definition _contact_details (subject predicate : node) : pydict :=
  fold_left _contact_step (objects g subject predicate) [].

(** Start and end of an interval: [None] until a lookup assigns a text. *)
Definition interval : Type := option string * option string.

Definition opt_truthy (v : option string) : bool :=
  match v with Some s => Str.truthy s | None => false end.

(** [start_date or end_date] *)
Definition interval_found (i : interval) : bool :=
  opt_truthy (fst i) || opt_truthy (snd i).

(** The loop shared by [_read_time_interval_schema_org] and
    [_read_time_interval_dcat]; [i] holds [start_date, end_date]. *)
Fixpoint _read_time_interval_pair
    (start_p end_p : node) (i : interval) (intervals : list node) : interval :=
  match intervals with
  | [] => i
  | n :: rest =>
      let i := (Some (_object_value n start_p), Some (_object_value n end_p)) in
      if interval_found i then i
      else _read_time_interval_pair start_p end_p i rest
  end.

Definition _read_time_interval_schema_org (subject predicate : node) : interval :=
  _read_time_interval_pair (SCHEMA "startDate") (SCHEMA "endDate")
    (None, None) (objects g subject predicate).

Definition _read_time_interval_dcat (subject predicate : node) : interval :=
  _read_time_interval_pair (DCAT "startDate") (DCAT "endDate")
    (None, None) (objects g subject predicate).

Definition time_predicates : list node :=
  [TIME "inXSDDateTimeStamp"; TIME "inXSDDateTime"; TIME "inXSDDate"].

Fixpoint _read_time_interval_time_loop (i : interval) (intervals : list node)
    : interval :=
  match intervals with
  | [] => i
  | n :: rest =>
      let start_nodes := objects g n (TIME "hasBeginning") in
      let end_nodes := objects g n (TIME "hasEnd") in
      let start_date :=
        match start_nodes with
        | s :: _ => Some (_object_value_multiple_predicate s time_predicates)
        | [] => fst i
        end in
      let end_date :=
        match end_nodes with
        | e :: _ => Some (_object_value_multiple_predicate e time_predicates)
        | [] => snd i
        end in
      if interval_found (start_date, end_date) then (start_date, end_date)
      else _read_time_interval_time_loop (start_date, end_date) rest
  end.

Definition _read_time_interval_time (subject predicate : node) : interval :=
  _read_time_interval_time_loop (None, None) (objects g subject predicate).

(** [_time_interval]; a version other than 1 or 2 falls off the end of the
    function, which returns [None] and fails in the caller's unpacking. *)
Definition _time_interval (subject predicate : node) (dcat_ap_version : Z)
    : result interval :=
  if dcat_ap_version =? 1 then
    let i := _read_time_interval_schema_org subject predicate in
    if interval_found i then Ok i
    else Ok (_read_time_interval_time subject predicate)
  else if dcat_ap_version =? 2 then
    let i := _read_time_interval_dcat subject predicate in
    if interval_found i then Ok i
    else
      let i := _read_time_interval_time subject predicate in
      if interval_found i then Ok i
      else Ok (_read_time_interval_schema_org subject predicate)
  else Raise TypeError.

End GraphAccessor.

Global Instance node_countable : Countable node.
Proof.
  refine (inj_countable'
    (λ o, match o with
          | URIRef s => inl s
          | BNode s => inr (inl s)
          | Literal s l d => inr (inr (s, l, d))
          end)
    (λ x, match x with
          | inl s => URIRef s
          | inr (inl s) => BNode s
          | inr (inr (s, l, d)) => Literal s l d
          end) _).
  by intros [].
Defined.

(** The dict [_spatial] returns. *)
Record spatial_info := {
  spatial_uri : option string;
  spatial_text : option string;
  spatial_geom : option string;
  spatial_bbox : option string;
  spatial_centroid : option string
}.

(** The two lookup tables [_license] builds from the license register. *)
Definition license_maps : Type := gmap string string * gmap string string.

Section GraphAccessor2.
Context (E : environment) (g : graph).

(** [geometry.datatype]: only a literal has the attribute. *)
Definition literal_datatype (o : node) : result (option string) :=
  match o with
  | Literal _ _ dt => Ok dt
  | _ => Raise AttributeError
  end.

(** The loop body of [_parse_geodata]. *)
Definition _parse_geodata_step (cur_value : option string) (geometry : node)
    : result (option string) :=
  dt ← literal_datatype geometry;
  cur_value ←
    (if bool_decide (dt = Some GEOJSON_IMT) || negb (opt_truthy dt) then
       try_except
         (_ ← json_loads E (node_str geometry); Ok (Some (node_str geometry)))
         [ValueError; TypeError] (Ok cur_value)
     else Ok cur_value);
  if negb (opt_truthy cur_value)
     && bool_decide (dt = Some (node_str (GSP "wktLiteral"))) then
    try_except
      (s ← wkt_to_geojson E (node_str geometry); Ok (Some s))
      [ValueError; TypeError] (Ok cur_value)
  else Ok cur_value.

(** [_parse_geodata] *)
Definition _parse_geodata (spatial datatype : node) (cur_value : option string)
    : result (option string) :=
  for_each _parse_geodata_step (objects g spatial datatype) cur_value.

(** The value a [for label in ...: text = str(label)] loop leaves in [text]. *)
Definition last_label (labels : list node) (text : option string) : option string :=
  match last labels with
  | Some l => Some (node_str l)
  | None => text
  end.

(** The loop body of [_spatial]. *)
Definition _spatial_step (acc : spatial_info) (spatial : node) : result spatial_info :=
  let uri := if is_URIRef spatial then Some (node_str spatial) else spatial_uri acc in
  let text := if is_Literal spatial then Some (node_str spatial) else spatial_text acc in
  if graph_contains g (spatial, RDF "type", DCT "Location") then
    geom ← _parse_geodata spatial (LOCN "geometry") (spatial_geom acc);
    bbox ← _parse_geodata spatial (DCAT "bbox") (spatial_bbox acc);
    cent ← _parse_geodata spatial (DCAT "centroid") (spatial_centroid acc);
    let text := last_label (objects g spatial (SKOS "prefLabel")) text in
    let text := last_label (objects g spatial (RDFS "label")) text in
    Ok {| spatial_uri := uri; spatial_text := text; spatial_geom := geom;
          spatial_bbox := bbox; spatial_centroid := cent |}
  else
    Ok {| spatial_uri := uri; spatial_text := text;
          spatial_geom := spatial_geom acc; spatial_bbox := spatial_bbox acc;
          spatial_centroid := spatial_centroid acc |}.

(** [_spatial] *)
Definition _spatial (subject predicate : node) : result spatial_info :=
  for_each _spatial_step (objects g subject predicate)
    {| spatial_uri := None; spatial_text := None; spatial_geom := None;
       spatial_bbox := None; spatial_centroid := None |}.

(** The tables [license_uri2id] and [license_title2id]: a later license of
    the register overwrites an earlier one with the same url or title. *)
Definition build_license_maps (register : list (string * (string * string)))
    : license_maps :=
  fold_left
    (λ (maps : license_maps) (item : string * (string * string)),
       let '(license_id, (url, title)) := item in
       (<[url := license_id]> (fst maps), <[title := license_id]> (snd maps)))
    register (∅, ∅).

(** The license identifier one distribution contributes, if any: the body
    of the loop of [_license] up to its [return]. *)
Definition _license_of_distribution (maps : license_maps) (distribution : node)
    : option string :=
  match _object g distribution (DCT "license") with
  | Some license =>
      if node_truthy E license then
        let license_id := toPython E license ≫= (fst maps !!.) in
        let license_id :=
          if opt_truthy license_id then license_id
          else snd maps !! _object_value E g license (DCT "title") in
        if opt_truthy license_id then license_id else None
      else None
  | None => None
  end.

Fixpoint _license_loop (maps : license_maps) (distributions : list node) : string :=
  match distributions with
  | [] => EmptyString
  | distribution :: rest =>
      match _license_of_distribution maps distribution with
      | Some license_id => license_id
      | None => _license_loop maps rest
      end
  end.

(** [_license]: [cache] is [self._licenceregister_cache] before the call,
    the second component of the outcome is the attribute after it. *)
Definition _license (cache : option license_maps) (dataset_ref : node)
    : string * option license_maps :=
  let maps :=
    match cache with
    | Some maps => maps
    | None => build_license_maps (license_register E)
    end in
  (_license_loop maps (_distributions g dataset_ref), Some maps).

(** [_access_rights] *)
Definition _access_rights (subject predicate : node) : string :=
  match _object g subject predicate with
  | Some obj =>
      if node_truthy E obj then
        if is_BNode obj
           && bool_decide (_object g obj (RDF "type") = Some (DCT "RightsStatement"))
        then _object_value E g obj (RDFS "label")
        else if is_Literal obj || is_URIRef obj then node_str obj
        else EmptyString
      else EmptyString
  | None => EmptyString
  end.

(** [str(x)] where [x] is a term or [None]. *)
Definition str_of_optional (o : option node) : string :=
  match o with Some n => node_str n | None => "None" end.

(** [_distribution_format]: the media type and the label, each a text or
    [None]. *)
Definition _distribution_format (distribution : node) (normalize_ckan_format : bool)
    : option string * option string :=
  let imt := Some (_object_value E g distribution (DCAT "mediaType")) in
  let '(imt, label) :=
    match _object g distribution (DCT "format") with
    | Some (Literal s _ _) =>
        if negb (opt_truthy imt) && Str.contains "/" s then (Some s, None)
        else (imt, Some s)
    | Some _format =>
        if bool_decide (_object g _format (RDF "type") = Some (DCT "IMT")) then
          let imt :=
            if negb (opt_truthy imt)
            then Some (str_of_optional (graph_value g _format (RDF "value")))
            else imt in
          (imt, Some (str_of_optional (graph_value g _format (RDFS "label"))))
        else
          match _format with
          | URIRef format_uri =>
              if Str.contains "iana.org/assignments/media-types" format_uri
                 && negb (opt_truthy imt)
              then (Some format_uri, None)
              else (imt, Some format_uri)
          | _ => (imt, None)
          end
    | None => (imt, None)
    end in
  if (opt_truthy imt || opt_truthy label) && normalize_ckan_format then
    match imt ≫= (resource_formats E !!.) with
    | Some canonical => (imt, Some canonical)
    | None =>
        match label ≫= (resource_formats E !!.) with
        | Some canonical => (imt, Some canonical)
        | None => (imt, label)
        end
    end
  else (imt, label).

(** [_get_root_catalog_ref] *)
Definition _get_root_catalog_ref : result node :=
  let roots := subjects_of g (DCT "hasPart") in
  let roots :=
    match roots with
    | [] => subjects g (RDF "type") (DCAT "Catalog")
    | _ => roots
    end in
  match roots with
  | root :: _ => Ok root
  | [] => Raise IndexError
  end.

(** [_get_source_catalog]: [None] when sub-catalogs are not exposed. *)
Definition _get_source_catalog (dataset_ref : node) : result (option node) :=
  if negb (expose_subcatalogs E) then Ok None
  else
    let catalogs : gset node := list_to_set (subjects g (DCAT "dataset") dataset_ref) in
    root ← _get_root_catalog_ref;
    let catalogs := catalogs ∖ {[root]} in
    if bool_decide (size catalogs = 0%nat ∨ size catalogs = 1%nat) then
      match elements catalogs with
      | catalog :: _ => Ok (Some catalog)
      | [] => Ok (Some root)
      end
    else Raise AssertionError.

(** [_extract_catalog_dict] *)
Definition _extract_catalog_dict (catalog_ref : node) : list pyval :=
  let sources :=
    [("source_catalog_title", DCT "title");
     ("source_catalog_description", DCT "description");
     ("source_catalog_homepage", FOAF "homepage");
     ("source_catalog_language", DCT "language");
     ("source_catalog_modified", DCT "modified")] in
  let out :=
    fold_left
      (λ out '(key, predicate),
         let val := _object_value E g catalog_ref predicate in
         if Str.truthy val then out ++ [extra key (VStr val)] else out)
      sources [] in
  out ++ [extra "source_catalog_publisher"
            (VStr (json_dumps E (VDict (_publisher E g catalog_ref (DCT "publisher")))))].

End GraphAccessor2.

(** ** [RDFProfile]: reading the dataset dict *)

(** [iter(v)]: what a [for] loop over [v] visits. *)
Definition py_iter (v : pyval) : result (list pyval) :=
  match v with
  | VList l => Ok l
  | VStr s => Ok ((λ c, VStr (String c EmptyString)) <$> String.list_ascii_of_string s)
  | VDict d => Ok ((λ kv, VStr (fst kv)) <$> d)
  | _ => Raise TypeError
  end.

(** [v == text] *)
Definition is_text (v : pyval) (text : string) : bool :=
  match v with VStr s => bool_decide (s = text) | _ => false end.

(** [v[key]] for a text [key]: only a dict has text keys. *)
Definition py_item (v : pyval) (key : string) : result pyval :=
  match v with
  | VDict d => dict_item d key
  | _ => Raise TypeError
  end.

Fixpoint _get_dict_value_extras (extras : list pyval) (key : string) (fallback : pyval)
    : result pyval :=
  match extras with
  | [] => Ok fallback
  | e :: rest =>
      k ← py_item e "key";
      if is_text k key || is_text k ("dcat_" +:+ key) then py_item e "value"
      else _get_dict_value_extras rest key fallback
  end.

(** [_get_dict_value(_dict, key, default=fallback)] *)
Definition _get_dict_value (_dict : pydict) (key : string) (fallback : pyval)
    : result pyval :=
  match dict_get _dict key with
  | Some v => Ok v
  | None =>
      extras ← py_iter (default (VList []) (dict_get _dict "extras"));
      _get_dict_value_extras extras key fallback
  end.

(** [_get_dataset_value] and [_get_resource_value], with [default=None]. *)
Definition _get_dataset_value (dataset_dict : pydict) (key : string) : result pyval :=
  _get_dict_value dataset_dict key VNone.
Definition _get_resource_value (resource_dict : pydict) (key : string) : result pyval :=
  _get_dict_value resource_dict key VNone.

Section RecordAccessor.
Context (E : environment).

(** [_read_list_value] *)
Definition _read_list_value (value : pyval) : result pyval :=
  match value with
  | VList _ => Ok value
  | VStr s =>
      try_except
        (items ← json_loads E s;
         match items with
         | VInt _ | VFloat _ | VBool _ => Ok (VList [items])
         | _ => Ok items
         end)
        [ValueError]
        (if Str.contains "," s then Ok (VList (VStr <$> Str.split "," s))
         else Ok (VList [value]))
  | _ => Ok (VList [])
  end.

(** [str(v)] *)
Definition py_str (v : pyval) : string :=
  match v with VStr s => s | _ => str_of_object E v end.

(** [_without_mailto] on a dict value. *)
Definition _without_mailto_value (mail_addr : pyval) : pyval :=
  if truthy mail_addr
  then VStr (Str.replace PREFIX_MAILTO EmptyString (py_str mail_addr))
  else mail_addr.

(** [_add_mailto] *)
Definition _add_mailto (mail_addr : pyval) : pyval :=
  if truthy mail_addr
  then VStr (PREFIX_MAILTO +:+ py_str (_without_mailto_value mail_addr))
  else mail_addr.

End RecordAccessor.

(** ** Building terms *)

(** The classes the profile passes around as [_type]. *)
Inductive term_type := TLiteral | TURIRef | TCleanedURIRef | TURIRefOrLiteral.

(** The characters rdflib refuses to serialise in a reference:
    angle brackets, double quote, space, curly brackets, vertical bar,
    backslash, caret and backtick. *)
Definition invalid_uri_chars : list ascii :=
  String.list_ascii_of_string ("<>" +:+ String (ascii_of_nat 34) " {}|\^`").

(** [uri.n3()] does not raise. *)
Definition n3_ok (uri : string) : bool :=
  forallb (λ c, negb (bool_decide (c ∈ invalid_uri_chars)))
    (String.list_ascii_of_string uri).

Section Terms.
Context (E : environment).

(** [Literal(v)] and [Literal(v, datatype=dt)] *)
Definition Literal_new (v : pyval) (dt : option string) : node :=
  match v with
  | VStr s => Literal s None dt
  | _ => Literal_of_object E v dt
  end.

(** [URIRef(v)] *)
Definition URIRef_new (v : pyval) : node :=
  match v with
  | VStr s => URIRef s
  | _ => URIRef_of_object E v
  end.

(** [CleanedURIRef(v)]: only a text is cleaned. *)
Definition CleanedURIRef_new (v : pyval) : node :=
  match v with
  | VStr s => CleanedURIRef.new s
  | _ => URIRef_of_object E v
  end.

(** [URIRefOrLiteral(v)]: a value without [strip] ends in the [except]
    branch. *)
Definition URIRefOrLiteral_new (v : pyval) : node :=
  match v with
  | VStr s =>
      let stripped_value := Str.strip s in
      if Str.startswith "http://" stripped_value
         || Str.startswith "https://" stripped_value
      then
        let uri_obj := CleanedURIRef.new s in
        if n3_ok (node_str uri_obj) then uri_obj else Literal s None None
      else Literal s None None
  | _ => Literal_of_object E v None
  end.

(** [_type(v)], or [_type(v, datatype=dt)] when a datatype is given: only
    [Literal] takes that keyword. *)
Definition make_term (ty : term_type) (v : pyval) (dt : option string) : result node :=
  match ty, dt with
  | TLiteral, _ => Ok (Literal_new v dt)
  | TURIRef, None => Ok (URIRef_new v)
  | TCleanedURIRef, None => Ok (CleanedURIRef_new v)
  | TURIRefOrLiteral, None => Ok (URIRefOrLiteral_new v)
  | _, Some _ => Raise TypeError
  end.

(** [if _type == URIRef: _type = CleanedURIRef] *)
Definition cleaned (ty : term_type) : term_type :=
  match ty with TURIRef => TCleanedURIRef | _ => ty end.

(** [if _datatype: _type(v, datatype=_datatype) else: _type(v)] *)
Definition make_object (ty : term_type) (v : pyval) (dt : option string) : result node :=
  make_term ty v (if opt_truthy dt then dt else None).

End Terms.

(** ** [RDFProfile]: writing triples *)

Section TripleWriter.
Context (E : environment).

(** [_add_list_triple] *)
Definition _add_list_triple (g : graph) (subject predicate : node) (value : pyval)
    (_type : term_type) (_datatype : option string) : result graph :=
  items ← _read_list_value E value;
  items ← py_iter items;
  for_each
    (λ g item,
       object ← make_object E (cleaned _type) item _datatype;
       Ok (graph_add g (subject, predicate, object)))
    items g.

(** [_add_date_triple] *)
Definition _add_date_triple (g : graph) (subject predicate : node) (value : pyval)
    (_type : term_type) : result graph :=
  if negb (truthy value) then Ok g
  else
    try_except
      (_date ← parse_date E value default_datetime;
       object ← make_term E _type (VStr (Iso.isoformat _date)) (Some (XSD "dateTime"));
       Ok (graph_add g (subject, predicate, object)))
      [ValueError]
      (object ← make_term E _type value None;
       Ok (graph_add g (subject, predicate, object))).

(** The value lookup of [_add_triple_from_dict]: the key, then each
    fallback until one is truthy. *)
Fixpoint first_truthy (_dict : pydict) (value : pyval) (fallbacks : list string)
    : result pyval :=
  match fallbacks with
  | [] => Ok value
  | fallback :: rest =>
      value ← _get_dict_value _dict fallback VNone;
      if truthy value then Ok value else first_truthy _dict value rest
  end.

(** [_add_triple_from_dict] *)
Definition _add_triple_from_dict (g : graph) (_dict : pydict)
    (subject predicate : node) (key : string) (fallbacks : list string)
    (list_value date_value : bool) (_type : term_type) (_datatype : option string)
    (value_modifier : option (pyval → pyval)) : result graph :=
  value ← _get_dict_value _dict key VNone;
  value ← (if negb (truthy value) then first_truthy _dict value fallbacks
           else Ok value);
  let value :=
    match value_modifier with
    | Some f => if truthy value then f value else value
    | None => value
    end in
  if truthy value && list_value then
    _add_list_triple g subject predicate value _type _datatype
  else if truthy value && date_value then
    _add_date_triple g subject predicate value _type
  else if truthy value then
    object ← make_object E (cleaned _type) value _datatype;
    Ok (graph_add g (subject, predicate, object))
  else Ok g.

(** An entry of an [items] list: key, predicate, fallbacks, type. *)
Definition item_spec : Type := string * node * list string * term_type.

(** [_add_triples_from_dict] *)
Definition _add_triples_from_dict (g : graph) (_dict : pydict) (subject : node)
    (items : list item_spec) (list_value date_value : bool) : result graph :=
  for_each
    (λ g (item : item_spec),
       let '(key, predicate, fallbacks, _type) := item in
       _add_triple_from_dict g _dict subject predicate key fallbacks
         list_value date_value _type None None)
    items g.

Definition _add_date_triples_from_dict g _dict subject items :=
  _add_triples_from_dict g _dict subject items false true.

Definition _add_list_triples_from_dict g _dict subject items :=
  _add_triples_from_dict g _dict subject items true false.

End TripleWriter.

(** ** [EuropeanDCATAPProfile.parse_dataset] *)

(** [d[key].append(x)] for a key that holds a list. *)
Definition dict_append (d : pydict) (key : string) (x : pyval) : pydict :=
  match dict_get d key with
  | Some (VList l) => dict_set d key (VList (l ++ [x]))
  | _ => d
  end.

(** [d[key].extend(xs)] for a key that holds a list. *)
Definition dict_extend (d : pydict) (key : string) (xs : list pyval) : pydict :=
  match dict_get d key with
  | Some (VList l) => dict_set d key (VList (l ++ xs))
  | _ => d
  end.

(** [d['extras'].append({'key': key, 'value': value})] *)
Definition add_extra (d : pydict) (key : string) (value : string) : pydict :=
  dict_append d "extras" (extra key (VStr value)).

(** [if value: d[key] = value] *)
Definition set_if_truthy (d : pydict) (key : string) (value : string) : pydict :=
  if Str.truthy value then dict_set d key (VStr value) else d.

(** [if value: d['extras'].append({'key': key, 'value': value})] *)
Definition add_extra_if_truthy (d : pydict) (key : string) (value : string) : pydict :=
  if Str.truthy value then add_extra d key value else d.

(** The texts of a list of Python values; [TypeError] if one is no text. *)
Fixpoint texts_of (l : list pyval) : result (list string) :=
  match l with
  | [] => Ok []
  | VStr s :: l' => ss ← texts_of l'; Ok (s :: ss)
  | _ :: _ => Raise TypeError
  end.

Section ParseDataset.
Context (E : environment) (g : graph) (compatibility_mode : bool).

Definition dataset_basic_fields : list (string * node) :=
  [("title", DCT "title");
   ("notes", DCT "description");
   ("url", DCAT "landingPage");
   ("private", DCT "private");
   ("version", OWL "versionInfo")].

Definition dataset_simple_extras : list (string * node) :=
  [("issued", DCT "issued");
   ("modified", DCT "modified");
   ("identifier", DCT "identifier");
   ("version_notes", ADMS "versionNotes");
   ("frequency", DCT "accrualPeriodicity");
   ("provenance", DCT "provenance");
   ("dcat_type", DCT "type")].

Definition dataset_list_extras : list (string * node) :=
  [("language", DCT "language");
   ("theme", DCAT "theme");
   ("alternate_identifier", ADMS "identifier");
   ("kategori", DCAT "kategori");
   ("prioritas_tahun", DCAT "prioritas_tahun");
   ("accessRights", DCAT "accessRights");
   ("conforms_to", DCT "conformsTo");
   ("documentation", FOAF "page");
   ("related_resource", DCT "relation");
   ("has_version", DCT "hasVersion");
   ("is_version_of", DCT "isVersionOf");
   ("source", DCT "source");
   ("sample", ADMS "sample")].

Definition resource_simple_values : list (string * node) :=
  [("name", DCT "title");
   ("description", DCT "description");
   ("access_url", DCAT "accessURL");
   ("download_url", DCAT "downloadURL");
   ("issued", DCT "issued");
   ("modified", DCT "modified");
   ("status", ADMS "status");
   ("license", DCT "license")].

Definition resource_list_values : list (string * node) :=
  [("language", DCT "language");
   ("documentation", FOAF "page");
   ("conforms_to", DCT "conformsTo")].

(** [for key, predicate in fields: value = self._object_value(ref,
    predicate); if value: d[key] = value] *)
Definition copy_values (d : pydict) (ref : node) (fields : list (string * node))
    : pydict :=
  fold_left
    (λ d '(key, predicate), set_if_truthy d key (_object_value E g ref predicate))
    fields d.

(** The same loop, appending to the extras. *)
Definition copy_extras (d : pydict) (ref : node) (fields : list (string * node))
    : pydict :=
  fold_left
    (λ d '(key, predicate), add_extra_if_truthy d key (_object_value E g ref predicate))
    fields d.

(** [json.dumps(values)] for a list of texts. *)
Definition dumps_texts (values : list string) : string :=
  json_dumps E (VList (VStr <$> values)).

(** [if values: d['extras'].append({'key': key, 'value':
    json.dumps(values)})] *)
Definition add_list_extra (d : pydict) (key : string) (values : list string) : pydict :=
  match values with
  | [] => d
  | _ => add_extra d key (dumps_texts values)
  end.

(** [if values: d[key] = json.dumps(values)] *)
Definition set_list_value (d : pydict) (key : string) (values : list string) : pydict :=
  match values with
  | [] => d
  | _ => dict_set d key (VStr (dumps_texts values))
  end.

(** [for key, predicate in fields: values = self._object_value_list(ref,
    predicate); if values: d['extras'].append(...)] *)
Definition copy_list_extras (d : pydict) (ref : node) (fields : list (string * node))
    : pydict :=
  fold_left
    (λ d '(key, predicate), add_list_extra d key (_object_value_list g ref predicate))
    fields d.

(** The same loop, assigning [d[key]]. *)
Definition copy_list_values (d : pydict) (ref : node) (fields : list (string * node))
    : pydict :=
  fold_left
    (λ d '(key, predicate), set_list_value d key (_object_value_list g ref predicate))
    fields d.

(** [for key in keys: if agent.get(key): d['extras'].append({'key':
    prefix + key, 'value': agent.get(key)})] *)
Definition flatten_agent (d : pydict) (prefix : string) (agent : pydict)
    (keys : list string) : pydict :=
  fold_left
    (λ d key,
       let value := dict_get_value agent key in
       if truthy value then dict_append d "extras" (extra (prefix +:+ key) value)
       else d)
    keys d.

(** [_add_spatial_to_dict] *)
Definition _add_spatial_to_dict (d : pydict) (key : string) (value : option string)
    : pydict :=
  if opt_truthy value
  then add_extra d
         (if bool_decide (key ≠ "geom") then "spatial_" +:+ key else "spatial")
         (default EmptyString value)
  else d.

(** One distribution of the resources loop. *)
Definition parse_distribution (distribution : node) : result pydict :=
  let r : pydict := [] in
  let r := copy_values r distribution resource_simple_values in
  let download := _object_value E g distribution (DCAT "downloadURL") in
  let r :=
    dict_set r "url"
      (VStr (if Str.truthy download then download
             else _object_value E g distribution (DCAT "accessURL"))) in
  let r := copy_list_values r distribution resource_list_values in
  let r := set_if_truthy r "rights" (_access_rights E g distribution (DCT "rights")) in
  let '(imt, label) :=
    _distribution_format E g distribution (normalize_ckan_format E) in
  let r := if opt_truthy imt then dict_set r "mimetype" (VStr (default EmptyString imt))
           else r in
  let r := if opt_truthy label then dict_set r "format" (VStr (default EmptyString label))
           else if opt_truthy imt then dict_set r "format" (VStr (default EmptyString imt))
           else r in
  size ← _object_value_int E g distribution (DCAT "byteSize");
  let r := match size with Some n => dict_set r "size" (VInt n) | None => r end in
  let r :=
    fold_left
      (λ r checksum,
         let r := set_if_truthy r "hash_algorithm"
                    (_object_value E g checksum (SPDX "algorithm")) in
         set_if_truthy r "hash" (_object_value E g checksum (SPDX "checksumValue")))
      (objects g distribution (SPDX "checksum")) r in
  let r := dict_set r "uri" (VStr (uri_or_empty distribution)) in
  let r := dict_set r "distribution_ref" (VStr (node_str distribution)) in
  Ok r.

(** One extras entry of the compatibility pass. *)
Definition compatibility_tweak (entry : pyval) : result pyval :=
  key ← py_item entry "key";
  let renamed :=
    existsb (is_text key) ["issued"; "modified"; "publisher_name"; "publisher_email"] in
  let key := if renamed then VStr ("dcat_" +:+ text_of key) else key in
  let entry :=
    match entry with
    | VDict e => if renamed then VDict (dict_set e "key" key) else entry
    | _ => entry
    end in
  if is_text key "language" then
    value ← py_item entry "value";
    match value with
    | VStr v =>
        loaded ← json_loads E v;
        items ← py_iter loaded;
        names ← texts_of items;
        match entry with
        | VDict e => Ok (VDict (dict_set e "value" (VStr (Str.join "," (Str.sorted names)))))
        | _ => Ok entry
        end
    | _ => Raise TypeError
    end
  else Ok entry.

Fixpoint map_result {A B} (f : A → result B) (l : list A) : result (list B) :=
  match l with
  | [] => Ok []
  | x :: l' => y ← f x; ys ← map_result f l'; Ok (y :: ys)
  end.

(** [parse_dataset]: the dataset dict, and the license cache of the
    profile after the call. *)
Definition parse_dataset (cache : option license_maps) (dataset_dict : pydict)
    (dataset_ref : node) : result (pydict * option license_maps) :=
  let d := dict_set dataset_dict "extras" (VList []) in
  let d := dict_set d "resources" (VList []) in
  (* Basic fields *)
  let d := copy_values d dataset_ref dataset_basic_fields in
  let d :=
    if negb (truthy (dict_get_value d "version"))
    then set_if_truthy d "version" (_object_value E g dataset_ref (ADMS "version"))
    else d in
  (* Tags *)
  let do_clean := clean_tags E in
  keywords ← _keywords g dataset_ref;
  let tags_val := (λ tag, if do_clean then munge_tag E tag else tag) <$> keywords in
  let tags := (λ tag, VDict [("name", VStr tag)]) <$> tags_val in
  let d := dict_set d "tags" (VList tags) in
  (* Extras *)
  let d := copy_extras d dataset_ref dataset_simple_extras in
  let d := copy_list_extras d dataset_ref dataset_list_extras in
  (* Contact details *)
  let contact := _contact_details E g dataset_ref (DCAT "contactPoint") in
  let contact :=
    match contact with
    | [] => _contact_details E g dataset_ref (ADMS "contactPoint")
    | _ => contact
    end in
  let d :=
    match contact with
    | [] => d
    | _ => flatten_agent d "contact_" contact ["uri"; "name"; "email"]
    end in
  (* Publisher *)
  let publisher := _publisher E g dataset_ref (DCT "publisher") in
  let d := flatten_agent d "publisher_" publisher ["uri"; "name"; "email"; "url"; "type"] in
  (* Temporal *)
  '(start, end_) ← _time_interval E g dataset_ref (DCT "temporal") 1;
  let d := if opt_truthy start then add_extra d "temporal_start" (default EmptyString start)
           else d in
  let d := if opt_truthy end_ then add_extra d "temporal_end" (default EmptyString end_)
           else d in
  (* Spatial *)
  spatial ← _spatial E g dataset_ref (DCT "spatial");
  let d := _add_spatial_to_dict d "uri" (spatial_uri spatial) in
  let d := _add_spatial_to_dict d "text" (spatial_text spatial) in
  let d := _add_spatial_to_dict d "geom" (spatial_geom spatial) in
  (* Dataset URI *)
  let d := add_extra d "uri" (uri_or_empty dataset_ref) in
  (* access_rights: the appended value is the name [accessRights], which
     nothing binds *)
  let access_rights := _access_rights E g dataset_ref (DCT "accessRights") in
  d ← (if Str.truthy access_rights then Raise NameError else Ok d);
  (* License *)
  let '(d, cache) :=
    if negb (dict_has d "license_id") then
      let '(license_id, cache) := _license E g cache dataset_ref in
      (dict_set d "license_id" (VStr license_id), cache)
    else (d, cache) in
  (* Source catalog *)
  d ← (if expose_subcatalogs E then
         catalog_src ← _get_source_catalog E g dataset_ref;
         match catalog_src with
         | Some catalog_src =>
             Ok (dict_extend d "extras" (_extract_catalog_dict E g catalog_src))
         | None => Ok d
         end
       else Ok d);
  (* Resources *)
  d ← for_each
        (λ d distribution,
           resource_dict ← parse_distribution distribution;
           Ok (dict_append d "resources" (VDict resource_dict)))
        (_distributions g dataset_ref) d;
  (* Compatibility mode *)
  d ← (if compatibility_mode then
         extras ← dict_item d "extras";
         extras ← py_iter extras;
         extras ← map_result compatibility_tweak extras;
         Ok (dict_set d "extras" (VList extras))
       else Ok d);
  Ok (d, cache).

End ParseDataset.

(** ** [EuropeanDCATAPProfile.graph_from_dataset] *)

(** The graph under construction and the number of blank nodes made. *)
Record writer := { written : graph; blank_nodes : nat }.

(** [a == b] on Python values.  A float compares by its exact value, and a
    bool as the integer it is. *)
Definition float_as_int (f : spec_float) : option Z :=
  match f with
  | S754_zero _ => Some 0
  | S754_finite s m e =>
      let a := if 0 <=? e then Some (Z.pos m * 2 ^ e)
               else if Z.pos m mod 2 ^ (- e) =? 0 then Some (Z.pos m / 2 ^ (- e))
               else None in
      (λ a, if s then - a else a) <$> a
  | _ => None
  end.

Definition float_eqb (f1 f2 : spec_float) : bool :=
  match f1, f2 with
  | S754_zero _, S754_zero _ => true
  | S754_infinity a, S754_infinity b => Bool.eqb a b
  | S754_finite s1 m1 e1, S754_finite s2 m2 e2 =>
      Bool.eqb s1 s2
      && (if e1 <=? e2 then Z.pos m1 =? Z.pos m2 * 2 ^ (e2 - e1)
          else Z.pos m2 =? Z.pos m1 * 2 ^ (e1 - e2))
  | _, _ => false
  end.

(** The integer a number equals, if any. *)
Definition as_integer (v : pyval) : option Z :=
  match v with
  | VBool x => Some (if x then 1 else 0)
  | VInt n => Some n
  | VFloat f => float_as_int f
  | _ => None
  end.

Fixpoint py_eq (a b : pyval) : bool :=
  match a, b with
  | VNone, VNone => true
  | VStr s, VStr t => bool_decide (s = t)
  | VFloat f1, VFloat f2 => float_eqb f1 f2
  | VList l1, VList l2 =>
      (fix all2 (l1 l2 : list pyval) : bool :=
         match l1, l2 with
         | [], [] => true
         | x :: l1', y :: l2' => py_eq x y && all2 l1' l2'
         | _, _ => false
         end) l1 l2
  | VDict d1, VDict d2 =>
      (* the same keys with equal values, in any order *)
      (length d1 =? length d2)%nat
      && (fix all1 (d1 : list (string * pyval)) : bool :=
            match d1 with
            | [] => true
            | (k, v) :: d1' =>
                (fix find (d2 : list (string * pyval)) : bool :=
                   match d2 with
                   | [] => false
                   | (k', v') :: d2' =>
                       if decide (k' = k) then py_eq v v' else find d2'
                   end) d2
                && all1 d1'
            end) d1
  | _, _ =>
      match as_integer a, as_integer b with
      | Some x, Some y => x =? y
      | _, _ => false
      end
  end.

(** [text in v] for a dict value [v]. *)
Definition py_contains (text : string) (v : pyval) : result bool :=
  match v with
  | VStr s => Ok (Str.contains text s)
  | VList l => Ok (existsb (λ x, is_text x text) l)
  | VDict d => Ok (dict_has d text)
  | _ => Raise TypeError
  end.

(** [v.startswith(text)]: a method of texts only. *)
Definition py_startswith (v : pyval) (text : string) : result bool :=
  match v with
  | VStr s => Ok (Str.startswith text s)
  | _ => Raise AttributeError
  end.

Section GraphFromDataset.
Context (E : environment).

Definition add (w : writer) (t : triple) : writer :=
  {| written := graph_add (written w) t; blank_nodes := blank_nodes w |}.

(** [BNode()] *)
Definition new_bnode (w : writer) : node * writer :=
  (BNode (bnode_id E (blank_nodes w)),
   {| written := written w; blank_nodes := S (blank_nodes w) |}).

(** A writer step that only touches the graph. *)
Definition on_graph (w : writer) (f : graph → result graph) : result writer :=
  g ← f (written w);
  Ok {| written := g; blank_nodes := blank_nodes w |}.

Definition dataset_basic_items : list item_spec :=
  [("title", DCT "title", [], TLiteral);
   ("notes", DCT "description", [], TLiteral);
   ("url", DCAT "landingPage", [], TURIRef);
   ("private", DCT "private", [], TURIRef);
   ("identifier", DCT "identifier", ["guid"; "id"], TURIRefOrLiteral);
   ("version", OWL "versionInfo", ["dcat_version"], TLiteral);
   ("version_notes", ADMS "versionNotes", [], TLiteral);
   ("frequency", DCT "accrualPeriodicity", [], TURIRefOrLiteral);
   ("accessRights", DCT "accessRights", [], TURIRefOrLiteral);
   ("dcat_type", DCT "type", [], TLiteral);
   ("provenance", DCT "provenance", [], TLiteral)].

Definition dataset_date_items : list item_spec :=
  [("issued", DCT "issued", ["metadata_created"], TLiteral);
   ("modified", DCT "modified", ["metadata_modified"], TLiteral)].

Definition dataset_list_items : list item_spec :=
  [("language", DCT "language", [], TURIRefOrLiteral);
   ("theme", DCAT "theme", [], TURIRef);
   ("kategori", DCAT "kategori", [], TURIRef);
   ("prioritas_tahun", DCAT "prioritas_tahun", [], TURIRef);
   ("accessRights", DCAT "accessRights", [], TURIRef);
   ("conforms_to", DCT "conformsTo", [], TLiteral);
   ("alternate_identifier", ADMS "identifier", [], TURIRefOrLiteral);
   ("documentation", FOAF "page", [], TURIRefOrLiteral);
   ("related_resource", DCT "relation", [], TURIRefOrLiteral);
   ("has_version", DCT "hasVersion", [], TURIRefOrLiteral);
   ("is_version_of", DCT "isVersionOf", [], TURIRefOrLiteral);
   ("source", DCT "source", [], TURIRefOrLiteral);
   ("sample", ADMS "sample", [], TURIRefOrLiteral)].

Definition publisher_items : list item_spec :=
  [("publisher_email", FOAF "mbox", [], TLiteral);
   ("publisher_url", FOAF "homepage", [], TURIRef);
   ("publisher_type", DCT "type", [], TURIRefOrLiteral)].

Definition resource_simple_items : list item_spec :=
  [("name", DCT "title", [], TLiteral);
   ("description", DCT "description", [], TLiteral);
   ("status", ADMS "status", [], TURIRefOrLiteral);
   ("rights", DCT "rights", [], TURIRefOrLiteral);
   ("license", DCT "license", [], TURIRefOrLiteral);
   ("access_url", DCAT "accessURL", [], TURIRef);
   ("download_url", DCAT "downloadURL", [], TURIRef)].

Definition resource_list_items : list item_spec :=
  [("documentation", FOAF "page", [], TURIRefOrLiteral);
   ("language", DCT "language", [], TURIRefOrLiteral);
   ("conforms_to", DCT "conformsTo", [], TLiteral)].

Definition resource_date_items : list item_spec :=
  [("issued", DCT "issued", ["created"], TLiteral);
   ("modified", DCT "modified", ["metadata_modified"], TLiteral)].

(** The tags loop. *)
Definition write_tags (w : writer) (dataset_dict : pydict) (dataset_ref : node)
    : result writer :=
  tags ← py_iter (default (VList []) (dict_get dataset_dict "tags"));
  for_each
    (λ w tag,
       name ← py_item tag "name";
       Ok (add w (dataset_ref, DCAT "keyword", Literal_new E name None)))
    tags w.

(** The contact details block. *)
Definition write_contact (w : writer) (dataset_dict : pydict) (dataset_ref : node)
    : result writer :=
  values ← map_result (_get_dataset_value dataset_dict)
             ["contact_uri"; "contact_name"; "contact_email"; "maintainer";
              "maintainer_email"; "author"; "author_email"];
  if existsb truthy values then
    contact_uri ← _get_dataset_value dataset_dict "contact_uri";
    let '(contact_details, w) :=
      if truthy contact_uri then (CleanedURIRef_new E contact_uri, w)
      else new_bnode w in
    let w := add w (contact_details, RDF "type", VCARD "Organization") in
    let w := add w (dataset_ref, DCAT "contactPoint", contact_details) in
    w ← on_graph w (λ g,
           _add_triple_from_dict E g dataset_dict contact_details (VCARD "fn")
             "contact_name" ["maintainer"; "author"] false false TLiteral None None);
    on_graph w (λ g,
      _add_triple_from_dict E g dataset_dict contact_details (VCARD "hasEmail")
        "contact_email" ["maintainer_email"; "author_email"] false false
        TURIRef None (Some (_add_mailto E)))
  else Ok w.

(** The publisher block. *)
Definition write_publisher (w : writer) (dataset_dict : pydict) (dataset_ref : node)
    : result writer :=
  uri ← _get_dataset_value dataset_dict "publisher_uri";
  name ← _get_dataset_value dataset_dict "publisher_name";
  let organization := dict_get_value dataset_dict "organization" in
  if truthy uri || truthy name || truthy organization then
    publisher_uri ← _get_dataset_value dataset_dict "publisher_uri";
    publisher_uri_fallback ← publisher_uri_organization_fallback E dataset_dict;
    publisher_name ← _get_dataset_value dataset_dict "publisher_name";
    let '(publisher_details, w) :=
      if truthy publisher_uri then (CleanedURIRef_new E publisher_uri, w)
      else if negb (truthy publisher_name) && truthy publisher_uri_fallback
      then (CleanedURIRef_new E publisher_uri_fallback, w)
      else new_bnode w in
    let w := add w (publisher_details, RDF "type", FOAF "Organization") in
    let w := add w (dataset_ref, DCT "publisher", publisher_details) in
    publisher_name ←
      (if negb (truthy publisher_name) && negb (truthy publisher_uri)
          && truthy organization
       then py_item organization "title"
       else Ok publisher_name);
    let w := add w (publisher_details, FOAF "name", Literal_new E publisher_name None) in
    on_graph w (λ g,
      _add_triples_from_dict E g dataset_dict publisher_details publisher_items
        false false)
  else Ok w.

(** The temporal block. *)
Definition write_temporal (w : writer) (dataset_dict : pydict) (dataset_ref : node)
    : result writer :=
  start ← _get_dataset_value dataset_dict "temporal_start";
  end_ ← _get_dataset_value dataset_dict "temporal_end";
  if truthy start || truthy end_ then
    let '(temporal_extent, w) := new_bnode w in
    let w := add w (temporal_extent, RDF "type", DCT "PeriodOfTime") in
    w ← (if truthy start
         then on_graph w (λ g,
                _add_date_triple E g temporal_extent (SCHEMA "startDate") start TLiteral)
         else Ok w);
    w ← (if truthy end_
         then on_graph w (λ g,
                _add_date_triple E g temporal_extent (SCHEMA "endDate") end_ TLiteral)
         else Ok w);
    Ok (add w (dataset_ref, DCT "temporal", temporal_extent))
  else Ok w.

(** [_get_or_create_spatial_ref] *)
Definition _get_or_create_spatial_ref (w : writer) (dataset_dict : pydict)
    (dataset_ref : node) : result (node * writer) :=
  match filter (λ o, node_truthy E o = true)
          (objects (written w) dataset_ref (DCT "spatial")) with
  | spatial_ref :: _ => Ok (spatial_ref, w)
  | [] =>
      spatial_uri ← _get_dataset_value dataset_dict "spatial_uri";
      let '(spatial_ref, w) :=
        if truthy spatial_uri then (CleanedURIRef_new E spatial_uri, w)
        else new_bnode w in
      let w := add w (spatial_ref, RDF "type", DCT "Location") in
      let w := add w (dataset_ref, DCT "spatial", spatial_ref) in
      Ok (spatial_ref, w)
  end.

(** [_add_spatial_value_to_graph] *)
Definition _add_spatial_value_to_graph (w : writer) (spatial_ref predicate : node)
    (value : pyval) : result writer :=
  let w := add w (spatial_ref, predicate, Literal_new E value (Some GEOJSON_IMT)) in
  try_except
    (text ← geojson_to_wkt E value;
     Ok (add w (spatial_ref, predicate,
                Literal text None (Some (node_str (GSP "wktLiteral"))))))
    [TypeError; ValueError; InvalidGeoJSONException]
    (Ok w).

(** The spatial block. *)
Definition write_spatial (w : writer) (dataset_dict : pydict) (dataset_ref : node)
    : result writer :=
  spatial_text ← _get_dataset_value dataset_dict "spatial_text";
  spatial_geom ← _get_dataset_value dataset_dict "spatial";
  if truthy spatial_text || truthy spatial_geom then
    '(spatial_ref, w) ← _get_or_create_spatial_ref w dataset_dict dataset_ref;
    let w :=
      if truthy spatial_text
      then add w (spatial_ref, SKOS "prefLabel", Literal_new E spatial_text None)
      else w in
    if truthy spatial_geom
    then _add_spatial_value_to_graph w spatial_ref (LOCN "geometry") spatial_geom
    else Ok w
  else Ok w.

(** [resource_license_fallback] *)
Definition license_fallback (dataset_dict : pydict) : pyval :=
  if resource_inherit_license E then
    match dict_get dataset_dict "license_id" with
    | Some v =>
        if is_URIRef (URIRefOrLiteral_new E v) then v
        else match dict_get dataset_dict "license_url" with
             | Some u => if is_URIRef (URIRefOrLiteral_new E u) then u else VNone
             | None => VNone
             end
    | None =>
        match dict_get dataset_dict "license_url" with
        | Some u => if is_URIRef (URIRefOrLiteral_new E u) then u else VNone
        | None => VNone
        end
    end
  else VNone.

(** How the merged [mimetype] and [format] of a resource are split again. *)
Definition split_format (mimetype fmt : pyval) : result (pyval * pyval) :=
  if truthy fmt && (negb (truthy mimetype) || py_eq mimetype fmt) then
    iana ← py_contains "iana.org/assignments/media-types" fmt;
    if (iana : bool) then Ok (fmt, VNone)
    else
      http ← py_startswith fmt "http";
      if negb (http : bool) then
        slash ← py_contains "/" fmt;
        if (slash : bool) then Ok (fmt, VNone) else Ok (VNone, fmt)
      else Ok (VNone, fmt)
  else Ok (mimetype, fmt).

(** [float(v)] *)
Definition to_float (v : pyval) : result spec_float :=
  match v with
  | VStr s => match py_float E s with Some f => Ok f | None => Raise ValueError end
  | VFloat f => Ok f
  | _ => float_of_object E v
  end.

(** One resource of the resources loop. *)
Definition write_resource (fallback : pyval) (dataset_ref : node) (w : writer)
    (resource : pyval) : result writer :=
  uri ← resource_uri E resource;
  let distribution := CleanedURIRef_new E uri in
  resource_dict ← match resource with VDict d => Ok d | _ => Raise TypeError end;
  let w := add w (dataset_ref, DCAT "distribution", distribution) in
  let w := add w (distribution, RDF "type", DCAT "Distribution") in
  w ← on_graph w (λ g,
         _add_triples_from_dict E g resource_dict distribution resource_simple_items
           false false);
  w ← on_graph w (λ g,
         _add_list_triples_from_dict E g resource_dict distribution resource_list_items);
  let w :=
    if truthy fallback
       && bool_decide (objects (written w) distribution (DCT "license") = [])
    then add w (distribution, DCT "license", URIRefOrLiteral_new E fallback)
    else w in
  '(mimetype, fmt) ← split_format (dict_get_value resource_dict "mimetype")
                        (dict_get_value resource_dict "format");
  let w := if truthy mimetype
           then add w (distribution, DCAT "mediaType", URIRefOrLiteral_new E mimetype)
           else w in
  let w := if truthy fmt
           then add w (distribution, DCT "format", URIRefOrLiteral_new E fmt)
           else w in
  let url := dict_get_value resource_dict "url" in
  let download_url := dict_get_value resource_dict "download_url" in
  let access_url := dict_get_value resource_dict "access_url" in
  w ← (if truthy url && negb (truthy access_url)
          && (negb (truthy download_url)
              || truthy download_url && negb (py_eq url download_url))
       then on_graph w (λ g,
              _add_triple_from_dict E g resource_dict distribution (DCAT "accessURL")
                "url" [] false false TURIRef None None)
       else Ok w);
  w ← on_graph w (λ g,
         _add_date_triples_from_dict E g resource_dict distribution resource_date_items);
  let size := dict_get_value resource_dict "size" in
  w ← (if truthy size then
         try_except
           (f ← to_float size;
            Ok (add w (distribution, DCAT "byteSize", decimal_literal E f)))
           [ValueError; TypeError]
           (Ok (add w (distribution, DCAT "byteSize", Literal_new E size None)))
       else Ok w);
  let hash := dict_get_value resource_dict "hash" in
  if truthy hash then
    let '(checksum, w) := new_bnode w in
    let w := add w (checksum, RDF "type", SPDX "Checksum") in
    let w := add w (checksum, SPDX "checksumValue",
                    Literal_new E hash (Some (XSD "hexBinary"))) in
    let algorithm := dict_get_value resource_dict "hash_algorithm" in
    let w := if truthy algorithm
             then add w (checksum, SPDX "algorithm", URIRefOrLiteral_new E algorithm)
             else w in
    Ok (add w (distribution, SPDX "checksum", checksum))
  else Ok w.

(** [graph_from_dataset]: [w] is the graph of the profile before the call.
    The prefix bindings the method starts with add no triple. *)
Definition graph_from_dataset (w : writer) (dataset_dict : pydict) (dataset_ref : node)
    : result writer :=
  let w := add w (dataset_ref, RDF "type", DCAT "Dataset") in
  (* Basic fields *)
  w ← on_graph w (λ g,
         _add_triples_from_dict E g dataset_dict dataset_ref dataset_basic_items
           false false);
  (* Tags *)
  w ← write_tags w dataset_dict dataset_ref;
  (* Dates *)
  w ← on_graph w (λ g,
         _add_date_triples_from_dict E g dataset_dict dataset_ref dataset_date_items);
  (* Lists *)
  w ← on_graph w (λ g,
         _add_list_triples_from_dict E g dataset_dict dataset_ref dataset_list_items);
  w ← write_contact w dataset_dict dataset_ref;
  w ← write_publisher w dataset_dict dataset_ref;
  w ← write_temporal w dataset_dict dataset_ref;
  w ← write_spatial w dataset_dict dataset_ref;
  let resource_license_fallback := license_fallback dataset_dict in
  resources ← py_iter (default (VList []) (dict_get dataset_dict "resources"));
  for_each (write_resource resource_license_fallback dataset_ref) resources w.

End GraphFromDataset.

(** ** [RDFProfile._insert_or_update_temporal] *)

(** The search of [next((item for item in extras if item['key'] == key),
    None)] together with the assignment [temporal['value'] = value] on the
    entry found: the extras with that entry updated, or [None] when no
    entry has the key.  Entries after the first match are not looked at. *)
Fixpoint _insert_or_update_temporal_loop (items : list pyval) (key : string)
    (value : pyval) : result (option (list pyval)) :=
  match items with
  | [] => Ok None
  | item :: rest =>
      k ← py_item item "key";
      if is_text k key then
        match item with
        | VDict entry => Ok (Some (VDict (dict_set entry "value" value) :: rest))
        | _ => Raise TypeError
        end
      else
        found ← _insert_or_update_temporal_loop rest key value;
        Ok match found with
           | Some rest' => Some (item :: rest')
           | None => None
           end
  end.

(** [_insert_or_update_temporal]: only a list has [append]. *)
Definition _insert_or_update_temporal (dataset_dict : pydict) (key : string)
    (value : pyval) : result pydict :=
  extras ← dict_item dataset_dict "extras";
  items ← py_iter extras;
  found ← _insert_or_update_temporal_loop items key value;
  match found with
  | Some items' => Ok (dict_set dataset_dict "extras" (VList items'))
  | None =>
      match extras with
      | VList l => Ok (dict_set dataset_dict "extras" (VList (l ++ [extra key value])))
      | _ => Raise AttributeError
      end
  end.

(** ** [EuropeanDCATAP2Profile.parse_dataset]: the resources *)

Definition DCATAP (name : string) : node := URIRef ("http://data.europa.eu/r5r/" +:+ name).

Section ParseDataset2.
Context (E : environment) (g : graph).

Definition access_service_simple_values : list (string * node) :=
  [("availability", DCATAP "availability");
   ("title", DCT "title");
   ("endpoint_description", DCAT "endpointDescription");
   ("license", DCT "license");
   ("accessRights", DCT "accessRights");
   ("description", DCT "description")].

Definition access_service_list_values : list (string * node) :=
  [("endpoint_url", DCAT "endpointURL");
   ("serves_dataset", DCAT "servesDataset")].

(** The value the loop [for key, predicate in fields: value =
    self._object_value(ref, predicate)] leaves in [value]: that of the last
    field. *)
Definition last_value (ref : node) (fields : list (string * node)) (value : string)
    : string :=
  fold_left (λ _ '(_, predicate), _object_value E g ref predicate) fields value.

(** The dict made for one access service.  The lists are stored under the
    test [if value:], where [value] is what the loop over the simple values
    left behind. *)
Definition parse_access_service (access_service : node) (value : string)
    : pydict * string :=
  let access_service_dict : pydict := [] in
  let access_service_dict :=
    copy_values E g access_service_dict access_service access_service_simple_values in
  let value := last_value access_service access_service_simple_values value in
  let access_service_dict :=
    fold_left
      (λ d '(key, predicate),
         let values := _object_value_list g access_service predicate in
         if Str.truthy value then dict_set d key (VList (VStr <$> values)) else d)
      access_service_list_values access_service_dict in
  let access_service_dict :=
    dict_set access_service_dict "uri" (VStr (uri_or_empty access_service)) in
  (dict_set access_service_dict "access_service_ref" (VStr (node_str access_service)),
   value).

(** The loop over the access services of a distribution: the list of their
    dicts, and [value] after the loop. *)
Definition parse_access_services (distribution : node) (value : string)
    : list pyval * string :=
  fold_left
    (λ '(access_service_list, value) access_service,
       let '(access_service_dict, value) := parse_access_service access_service value in
       (access_service_list ++ [VDict access_service_dict], value))
    (objects g distribution (DCAT "accessService")) ([], value).

Definition resource_simple_values_v2 : list (string * node) :=
  [("availability", DCATAP "availability");
   ("compress_format", DCAT "compressFormat");
   ("package_format", DCAT "packageFormat")].

(** What the profile adds to the resource dict that matches a
    distribution.  The access services are read inside the loop over the
    simple values, once for each of them. *)
Definition parse_distribution_v2 (distribution : node) (resource_dict : pydict)
    : pydict :=
  fold_left
    (λ resource_dict '(key, predicate),
       let value := _object_value E g distribution predicate in
       let resource_dict := set_if_truthy resource_dict key value in
       let '(access_service_list, _) := parse_access_services distribution value in
       match access_service_list with
       | [] => resource_dict
       | _ =>
           dict_set resource_dict "access_services"
             (VStr (json_dumps E (VList access_service_list)))
       end)
    resource_simple_values_v2 resource_dict.

End ParseDataset2.

(** ** [EuropeanDCATAPProfile.graph_from_catalog] *)

(** What the catalog serializer reads from the site: three settings, each
    a text or [None], and the outcome of the [package_search] action. *)
Record site := {
  (** [config.get('ckan.site_title')] *)
  site_title : pyval;
  (** [config.get('ckan.site_description')] *)
  site_description : pyval;
  (** [config.get('ckan.site_url')] *)
  site_url : pyval;
  (** [toolkit.get_action('package_search')(context, {'sort':
      'metadata_modified desc', 'rows': 1})] *)
  package_search : result pyval
}.

(** [v[0]] *)
Definition py_first (v : pyval) : result pyval :=
  match v with
  | VList (x :: _) => Ok x
  | VList [] => Raise IndexError
  | VStr (String c _) => Ok (VStr (String c EmptyString))
  | VStr EmptyString => Raise IndexError
  | VDict _ => Raise KeyError
  | _ => Raise TypeError
  end.

(** [v.get(key)]: a method of dicts. *)
Definition py_get (v : pyval) (key : string) (fallback : pyval) : result pyval :=
  match v with
  | VDict d => Ok (default fallback (dict_get d key))
  | _ => Raise AttributeError
  end.

Section GraphFromCatalog.
Context (E : environment) (conf : site).

(** [_last_catalog_modification] *)
Definition _last_catalog_modification : result pyval :=
  result ← package_search conf;
  if truthy result then
    results ← py_get result "results" VNone;
    if truthy results then
      first ← py_item result "results" ≫= py_first;
      py_item first "metadata_modified"
    else Ok VNone
  else Ok VNone.

(** The items of the catalog: key, predicate, fallback and type. *)
Definition catalog_items : list (string * node * pyval * term_type) :=
  [("title", DCT "title", site_title conf, TLiteral);
   ("description", DCT "description", site_description conf, TLiteral);
   ("homepage", FOAF "homepage", site_url conf, TURIRef);
   ("language", DCT "language", VStr (locale_default E), TURIRefOrLiteral)].

(** [graph_from_catalog]; the prefix bindings add no triple. *)
Definition graph_from_catalog (g : graph) (catalog_dict : pyval) (catalog_ref : node)
    : result graph :=
  let g := graph_add g (catalog_ref, RDF "type", DCAT "Catalog") in
  g ← for_each
        (λ g (item : string * node * pyval * term_type),
           let '(key, predicate, fallback, _type) := item in
           value ← (if truthy catalog_dict then py_get catalog_dict key fallback
                    else Ok fallback);
           if truthy value then
             object ← make_term E _type value None;
             Ok (graph_add g (catalog_ref, predicate, object))
           else Ok g)
        catalog_items g;
  modified ← _last_catalog_modification;
  if truthy modified
  then _add_date_triple E g catalog_ref (DCT "modified") modified TLiteral
  else Ok g.

End GraphFromCatalog.

(** ** A sample environment

    One concrete site, used to run the definitions: English as the default
    locale, the shipped defaults of the switches, two licenses, and small
    stand-ins for the library calls. *)

Module Sample.

Definition is_digit (c : ascii) : bool :=
  let n := nat_of_ascii c in ((48 <=? n) && (n <=? 57))%nat.

Definition all_digits (s : string) : bool :=
  Str.truthy s && forallb is_digit (String.list_ascii_of_string s).

Fixpoint decimal_go (acc : N) (s : string) : N :=
  match s with
  | EmptyString => acc
  | String c s' => decimal_go (10 * acc + N.of_nat (nat_of_ascii c - 48))%N s'
  end.

Definition decimal (s : string) : N := decimal_go 0 s.

(** A fragment of [float]: [inf], [nan], and unsigned decimal integers. *)
Definition float (s : string) : option spec_float :=
  if bool_decide (s = "inf") then Some (S754_infinity false)
  else if bool_decide (s = "nan") then Some S754_nan
  else if all_digits s then
    Some match decimal s with
         | N0 => S754_zero false
         | Npos m => S754_finite false m 0
         end
  else None.

(** A fragment of [dateutil.parser.parse]: a text of four digits is a year
    and takes every other field from the default; a longer run of digits
    overflows; anything else is not a date. *)
Definition parse (value : pyval) (d : datetime) : result datetime :=
  match value with
  | VStr s =>
      if all_digits s then
        if (String.length s =? 4)%nat then
          Ok {| year := N.to_nat (decimal s); month := month d; day := day d;
                hour := hour d; minute := minute d; second := second d;
                microsecond := microsecond d; utcoffset := utcoffset d |}
        else if (String.length s <? 10)%nat then Raise ValueError
        else Raise OverflowError
      else Raise ValueError
  | _ => Raise TypeError
  end.

Definition quoted (s : string) : string :=
  String (ascii_of_nat 34) (s +:+ String (ascii_of_nat 34) EmptyString).

(** A fragment of [json.dumps]: texts without escapes, and lists and
    dicts of them. *)
Definition dumps (v : pyval) : string :=
  match v with
  | VStr s => quoted s
  | VList l => "[" +:+ Str.join ", " (quoted ∘ text_of <$> l) +:+ "]"
  | VDict d =>
      "{" +:+ Str.join ", " ((λ kv, quoted (fst kv) +:+ ": " +:+ quoted (text_of (snd kv))) <$> d)
      +:+ "}"
  | _ => "null"
  end.

Definition env : environment := {|
  locale_default := "en";
  expose_subcatalogs := false;
  clean_tags := false;
  normalize_ckan_format := true;
  resource_inherit_license := false;
  license_register :=
    [("cc-by", ("http://www.opendefinition.org/licenses/cc-by", "Creative Commons Attribution"));
     ("odc-pddl", ("http://www.opendefinition.org/licenses/odc-pddl", "Open Data Commons PDDL"))];
  resource_formats := {[ "text/csv" := "CSV" ]};
  munge_tag := λ tag, tag;
  py_float := float;
  json_dumps := dumps;
  json_loads := λ _, Raise ValueError;
  wkt_to_geojson := λ _, Raise ValueError;
  parse_date := parse;
  typed_literal_truthy := λ lexical _, Str.truthy lexical;
  typed_literal_text := λ lexical _, Some lexical;
  Literal_of_object := λ v dt, Literal (dumps v) None dt;
  URIRef_of_object := λ v, URIRef (dumps v);
  str_of_object := dumps;
  float_of_object := λ _, Raise TypeError;
  decimal_literal := λ _, Literal "0.0" None (Some (XSD "decimal"));
  bnode_id := λ n, "N" +:+ Iso.pad 4 n;
  resource_uri := λ r, match r with
                       | VDict d => Ok (dict_get_value d "uri")
                       | _ => Raise AttributeError
                       end;
  publisher_uri_organization_fallback := λ _, Ok VNone;
  geojson_to_wkt := λ _, Raise ValueError
|}.

(** The same site with sub-catalogs exposed. *)
Definition env_subcatalogs : environment := {|
  locale_default := locale_default env;
  expose_subcatalogs := true;
  clean_tags := clean_tags env;
  normalize_ckan_format := normalize_ckan_format env;
  resource_inherit_license := resource_inherit_license env;
  license_register := license_register env;
  resource_formats := resource_formats env;
  munge_tag := munge_tag env;
  py_float := py_float env;
  json_dumps := json_dumps env;
  json_loads := json_loads env;
  wkt_to_geojson := wkt_to_geojson env;
  parse_date := parse_date env;
  typed_literal_truthy := typed_literal_truthy env;
  typed_literal_text := typed_literal_text env;
  Literal_of_object := Literal_of_object env;
  URIRef_of_object := URIRef_of_object env;
  str_of_object := str_of_object env;
  float_of_object := float_of_object env;
  decimal_literal := decimal_literal env;
  bnode_id := bnode_id env;
  resource_uri := resource_uri env;
  publisher_uri_organization_fallback := publisher_uri_organization_fallback env;
  geojson_to_wkt := geojson_to_wkt env
|}.

Definition dataset : node := URIRef "http://example.org/dataset/1".
Definition distribution (n : string) : node :=
  URIRef ("http://example.org/dataset/1/resource/" +:+ n).
Definition catalog (n : string) : node :=
  URIRef ("http://example.org/catalog/" +:+ n).

End Sample.

(** * Properties

    From here on the file states and proves what the definitions above do;
    the few definitions that follow name the sample graphs and the values
    the statements compare against. *)

(** ** Facts about URI cleaning *)

Module CleaningFacts.
Import Str CleanedURIRef.

Definition head_ok (s : string) : bool :=
  match s with EmptyString => true | String c _ => negb (isspace c) end.

Fixpoint last_ok (s : string) : bool :=
  match s with
  | EmptyString => true
  | String c EmptyString => negb (isspace c)
  | String _ s' => last_ok s'
  end.

Lemma app_cons (x : ascii) (a b : string) :
  String x a +:+ b = String x (a +:+ b).
Proof. reflexivity. Qed.

Lemma app_nil (b : string) : EmptyString +:+ b = b.
Proof. reflexivity. Qed.

Lemma append_assoc (a b c : string) : (a +:+ b) +:+ c = a +:+ (b +:+ c).
Proof.
  induction a as [|x a IH]; [done |]. rewrite !app_cons. by f_equal.
Qed.

Lemma replace_char_app (c : ascii) (new s t : string) :
  replace (String c EmptyString) new (s +:+ t)
  = replace (String c EmptyString) new s +:+ replace (String c EmptyString) new t.
Proof.
  unfold replace. induction s as [|a s IH]; [done |].
  rewrite app_cons. cbn [replace_from startswith String.length Nat.pred].
  destruct (Ascii.eqb c a); cbn [andb].
  - by rewrite IH, append_assoc.
  - by rewrite IH, app_cons.
Qed.

Lemma fold_replace_app (l : list ascii) (s t : string) :
  fold_left (fun v c => replace (String c EmptyString) (Quote.quote c) v) l (s +:+ t)
  = fold_left (fun v c => replace (String c EmptyString) (Quote.quote c) v) l s
    +:+ fold_left (fun v c => replace (String c EmptyString) (Quote.quote c) v) l t.
Proof.
  revert s t. induction l as [|c l IH]; intros s t; cbn [fold_left]; [done |].
  by rewrite replace_char_app, IH.
Qed.

Lemma careful_quote_app (s t : string) :
  _careful_quote (s +:+ t) = _careful_quote s +:+ _careful_quote t.
Proof. apply fold_replace_app. Qed.

Lemma careful_quote_cons (c : ascii) (s : string) :
  _careful_quote (String c s)
  = _careful_quote (String c EmptyString) +:+ _careful_quote s.
Proof. by rewrite <- careful_quote_app, app_cons, app_nil. Qed.

Ltac each_char c := destruct c as [[] [] [] [] [] [] [] []].

Lemma careful_quote_char_idem (c : ascii) :
  _careful_quote (_careful_quote (String c EmptyString))
  = _careful_quote (String c EmptyString).
Proof. each_char c; vm_compute; reflexivity. Qed.

Lemma careful_quote_char_shape (c : ascii) :
  is_empty (_careful_quote (String c EmptyString)) = false
  ∧ (isspace c = false →
     head_ok (_careful_quote (String c EmptyString)) = true
     ∧ last_ok (_careful_quote (String c EmptyString)) = true).
Proof. each_char c; vm_compute; intuition congruence. Qed.

Lemma careful_quote_idem (s : string) :
  _careful_quote (_careful_quote s) = _careful_quote s.
Proof.
  induction s as [|c s IH]; [done |].
  rewrite careful_quote_cons, careful_quote_app, careful_quote_char_idem.
  by rewrite IH.
Qed.

Lemma lstrip_fix (s : string) : head_ok s = true → lstrip s = s.
Proof. destruct s as [|c s]; simpl; [done |]. by destruct (isspace c). Qed.

Lemma head_ok_lstrip (s : string) : head_ok (lstrip s) = true.
Proof.
  induction s as [|c s IH]; simpl; [done |].
  destruct (isspace c) eqn:E; [done |]. simpl. by rewrite E.
Qed.

Lemma rstrip_fix (s : string) : last_ok s = true → rstrip s = s.
Proof.
  induction s as [|c s IH]; [done |].
  intros H. cbn [rstrip]. destruct s as [|d s].
  - simpl in *. by destruct (isspace c).
  - rewrite IH by exact H. done.
Qed.

Lemma last_ok_rstrip (s : string) : last_ok (rstrip s) = true.
Proof.
  induction s as [|c s IH]; [done |]. cbn [rstrip].
  destruct (rstrip s) as [|d r] eqn:E; simpl.
  - destruct (isspace c) eqn:Hc; simpl; [done | by rewrite Hc].
  - exact IH.
Qed.

Lemma head_ok_rstrip (s : string) : head_ok s = true → head_ok (rstrip s) = true.
Proof.
  destruct s as [|c s]; [done |]. cbn [rstrip head_ok]. intros H.
  destruct (isspace c) eqn:Hc; [done |]. rewrite andb_false_r.
  cbn [head_ok]. by rewrite Hc.
Qed.

Lemma head_ok_strip (s : string) : head_ok (strip s) = true.
Proof. apply head_ok_rstrip, head_ok_lstrip. Qed.

Lemma last_ok_strip (s : string) : last_ok (strip s) = true.
Proof. apply last_ok_rstrip. Qed.

Lemma strip_fix (s : string) :
  head_ok s = true → last_ok s = true → strip s = s.
Proof. intros Hh Hl. unfold strip. by rewrite lstrip_fix, rstrip_fix. Qed.

Lemma head_ok_app (a b : string) :
  is_empty a = false → head_ok a = true → head_ok (a +:+ b) = true.
Proof. destruct a; [done |]. by rewrite app_cons. Qed.

Lemma last_ok_app (a b : string) :
  is_empty b = false → last_ok b = true → last_ok (a +:+ b) = true.
Proof.
  intros Hb Hl. induction a as [|c a IH]; [done |].
  rewrite app_cons. cbn [last_ok]. destruct (a +:+ b) eqn:E; [|done].
  destruct a; [rewrite app_nil in E; by subst b | by rewrite app_cons in E].
Qed.

Lemma is_empty_app (a b : string) :
  is_empty a = false → is_empty (a +:+ b) = false.
Proof. destruct a; [done |]. by rewrite app_cons. Qed.

Lemma careful_quote_nonempty (s : string) :
  is_empty s = false → is_empty (_careful_quote s) = false.
Proof.
  destruct s as [|c s]; [done |]. intros _. rewrite careful_quote_cons.
  apply is_empty_app, careful_quote_char_shape.
Qed.

Lemma head_ok_careful_quote (s : string) :
  head_ok s = true → head_ok (_careful_quote s) = true.
Proof.
  destruct s as [|c s]; [done |]. simpl. intros H%negb_true_iff.
  rewrite careful_quote_cons.
  destruct (careful_quote_char_shape c) as [Hne Hsh].
  apply head_ok_app; [done | by apply Hsh].
Qed.

Lemma last_ok_careful_quote (s : string) :
  last_ok s = true → last_ok (_careful_quote s) = true.
Proof.
  induction s as [|c s IH]; [done |]. intros H.
  destruct s as [|d s].
  - simpl in H. apply negb_true_iff in H.
    by apply (careful_quote_char_shape c).
  - rewrite careful_quote_cons.
    apply last_ok_app; [by apply careful_quote_nonempty | by apply IH].
Qed.

Lemma strip_careful_quote_strip (x : string) :
  strip (_careful_quote (strip x)) = _careful_quote (strip x).
Proof.
  apply strip_fix.
  - apply head_ok_careful_quote, head_ok_strip.
  - apply last_ok_careful_quote, last_ok_strip.
Qed.

End CleaningFacts.

(** C7. Cleaning a URI twice is the same as cleaning it once: for every text
    [x], the characters [_careful_quote] encodes are all gone after one pass
    (its replacements hold only a percent sign and hexadecimal digits), and
    trimming a cleaned text changes nothing, so both the quoting step alone
    and [CleanedURIRef] as a whole are idempotent. *)
Theorem cleaned_uriref_idempotent (x : string) :
  CleanedURIRef._careful_quote (CleanedURIRef._careful_quote x)
  = CleanedURIRef._careful_quote x
  ∧ CleanedURIRef._careful_quote
      (Str.strip (CleanedURIRef._careful_quote (Str.strip x)))
    = CleanedURIRef._careful_quote (Str.strip x)
  ∧ CleanedURIRef.new (node_str (CleanedURIRef.new x)) = CleanedURIRef.new x.
Proof.
  split; [apply CleaningFacts.careful_quote_idem |].
  assert (CleanedURIRef._careful_quote
            (Str.strip (CleanedURIRef._careful_quote (Str.strip x)))
          = CleanedURIRef._careful_quote (Str.strip x)) as H.
  { rewrite CleaningFacts.strip_careful_quote_strip.
    apply CleaningFacts.careful_quote_idem. }
  split; [exact H |].
  unfold CleanedURIRef.new. simpl. by rewrite H.
Qed.

(** ** Language preference in [_object_value] *)

Section ObjectValue.
Context (E : environment).

(** The text of the first literal whose text is not empty, else the empty
    text: what the [fallback] variable ends up holding. *)
Definition first_nonempty (fallback : string) (os : list node) : string :=
  default EmptyString
    (head (filter (λ t, Str.truthy t = true) (fallback :: (node_str <$> os)))).

Definition foreign_literal (o : node) : Prop :=
  ∃ s l d, o = Literal s l d ∧ in_default_language E l = false.

Lemma object_value_loop_foreign (fallback : string) (os : list node) :
  Forall foreign_literal os →
  _object_value_loop E fallback os = first_nonempty fallback os.
Proof.
  revert fallback. induction os as [|o os IH]; intros fallback H.
  - unfold first_nonempty. simpl. destruct fallback; reflexivity.
  - apply Forall_cons in H as [(s & l & d & -> & Hl) Hos].
    cbn [_object_value_loop]. rewrite Hl.
    destruct fallback as [|c f]; cbn [Str.is_empty].
    + rewrite IH by done. unfold first_nonempty. cbn [fmap list_fmap node_str].
      rewrite !filter_cons. cbn. destruct s; reflexivity.
    + rewrite IH by done. unfold first_nonempty. cbn [fmap list_fmap node_str].
      rewrite !filter_cons. cbn. reflexivity.
Qed.

Lemma object_value_loop_reference (fallback : string) (pre : list node) (o : node)
    (rest : list node) :
  Forall foreign_literal pre →
  is_Literal o = false →
  _object_value_loop E fallback (pre ++ o :: rest) = node_str o.
Proof.
  intros H Ho. revert fallback.
  induction H as [|x pre (s & l & d & -> & Hl) Hpre IH]; intros fallback.
  - by destruct o.
  - cbn [app _object_value_loop]. rewrite Hl.
    destruct (Str.is_empty fallback); apply IH.
Qed.

Lemma in_default_language_iff (l : option string) :
  in_default_language E l = true
  ↔ l = Some (locale_default E) ∧ locale_default E ≠ EmptyString.
Proof.
  unfold in_default_language. destruct l as [l|]; [|split; [done | by intros [? _]]].
  rewrite andb_true_iff, bool_decide_eq_true. unfold Str.truthy.
  split.
  - intros [Ht ->]. split; [done |]. by destruct (locale_default E).
  - intros [[= ->] Hne]. split; [|done]. by destruct (locale_default E).
Qed.

Lemma not_in_default_language (l : option string) :
  l ≠ Some (locale_default E) → in_default_language E l = false.
Proof.
  intros H. destruct (in_default_language E l) eqn:Hl; [|done].
  apply in_default_language_iff in Hl as [-> _]. done.
Qed.

End ObjectValue.

(** Two literals of one subject and predicate: an untagged one whose text is
    empty, then an untagged one with text. *)
Definition two_plain_literals : graph :=
  [(Sample.dataset, DCT "title", plain "");
   (Sample.dataset, DCT "title", plain "x")].

(** A literal, then a reference, of one subject and predicate. *)
Definition literal_then_reference : graph :=
  [(Sample.dataset, DCT "title", plain "x");
   (Sample.dataset, DCT "title", URIRef "http://example.org/title")].

(** C6, as stated, fails: no object carries the default locale, the first
    literal the graph yields has the empty text, and [_object_value] returns
    the text of the second literal.  Nor is the first literal returned when
    a reference follows it: the scan returns the reference. *)
Lemma object_value_passes_over_empty_literal :
  objects two_plain_literals Sample.dataset (DCT "title") = [plain ""; plain "x"]
  ∧ _object_value Sample.env two_plain_literals Sample.dataset (DCT "title") = "x"
  ∧ objects literal_then_reference Sample.dataset (DCT "title")
    = [plain "x"; URIRef "http://example.org/title"]
  ∧ _object_value Sample.env literal_then_reference Sample.dataset (DCT "title")
    = "http://example.org/title".
Proof. repeat split; vm_compute; reflexivity. Qed.

(** C6, amended.  For a subject and predicate with two literal objects, one
    tagged with the (non-empty) default locale and one not, [_object_value]
    returns the text of the default-locale literal in either order of the
    two triples.  If every object is a literal and none carries the default
    locale, it returns the text of the first literal whose text is not
    empty, and the empty text if there is none.  An object that is no
    literal, reached before any default-locale literal, is returned at
    once.  It returns the empty text when there is no object at all. *)
Theorem object_value_language_preference
    (E : environment) (g : graph) (subject predicate : node) :
  (∀ a da b lb db,
     locale_default E ≠ EmptyString →
     lb ≠ Some (locale_default E) →
     objects g subject predicate
       = [Literal a (Some (locale_default E)) da; Literal b lb db]
     ∨ objects g subject predicate
       = [Literal b lb db; Literal a (Some (locale_default E)) da] →
     _object_value E g subject predicate = a)
  ∧ (Forall (foreign_literal E) (objects g subject predicate) →
     _object_value E g subject predicate
     = first_nonempty EmptyString (objects g subject predicate))
  ∧ (∀ pre o rest,
       objects g subject predicate = pre ++ o :: rest →
       Forall (foreign_literal E) pre →
       is_Literal o = false →
       _object_value E g subject predicate = node_str o)
  ∧ (objects g subject predicate = [] →
     _object_value E g subject predicate = EmptyString).
Proof.
  split; [|split; [|split]].
  - intros a da b lb db Hne Hlb Hos.
    assert (in_default_language E (Some (locale_default E)) = true) as Ha
      by (by apply in_default_language_iff).
    pose proof (not_in_default_language E lb Hlb) as Hb.
    unfold _object_value.
    destruct Hos as [-> | ->]; cbn [_object_value_loop Str.is_empty];
      rewrite ?Hb, ?Ha; reflexivity.
  - intros H. unfold _object_value. by apply object_value_loop_foreign.
  - intros pre o rest Hos Hpre Ho. unfold _object_value. rewrite Hos.
    by apply object_value_loop_reference.
  - intros H. unfold _object_value. by rewrite H.
Qed.

(** The parts of [object_value_language_preference] on concrete graphs: a
    German and an English title in both orders, two foreign titles, a
    foreign title followed by a reference, and no title. *)
Lemma object_value_language_preference_on_samples :
  _object_value Sample.env
    [(Sample.dataset, DCT "title", Literal "Titel" (Some "de") None);
     (Sample.dataset, DCT "title", Literal "Title" (Some "en") None)]
    Sample.dataset (DCT "title") = "Title"
  ∧ _object_value Sample.env
      [(Sample.dataset, DCT "title", Literal "Title" (Some "en") None);
       (Sample.dataset, DCT "title", Literal "Titel" (Some "de") None)]
      Sample.dataset (DCT "title") = "Title"
  ∧ _object_value Sample.env
      [(Sample.dataset, DCT "title", Literal "Titel" (Some "de") None);
       (Sample.dataset, DCT "title", Literal "Titre" (Some "fr") None)]
      Sample.dataset (DCT "title") = "Titel"
  ∧ _object_value Sample.env
      [(Sample.dataset, DCT "title", Literal "Titel" (Some "de") None);
       (Sample.dataset, DCT "title", URIRef "http://example.org/title")]
      Sample.dataset (DCT "title") = "http://example.org/title"
  ∧ _object_value Sample.env [] Sample.dataset (DCT "title") = "".
Proof.
  split; [|split; [|split; [|split]]].
  - refine (proj1 (object_value_language_preference Sample.env _ _ _)
              _ None "Titel" (Some "de") None _ _ _);
      [done | done | right; vm_compute; reflexivity].
  - refine (proj1 (object_value_language_preference Sample.env _ _ _)
              _ None "Titel" (Some "de") None _ _ _);
      [done | done | left; vm_compute; reflexivity].
  - etrans.
    + refine (proj1 (proj2 (object_value_language_preference Sample.env _ _ _)) _).
      vm_compute. repeat constructor; eexists _, _, _; split; reflexivity.
    + vm_compute. reflexivity.
  - refine (proj1 (proj2 (proj2 (object_value_language_preference Sample.env _ _ _)))
              [Literal "Titel" (Some "de") None] (URIRef "http://example.org/title")
              [] _ _ _).
    + vm_compute. reflexivity.
    + repeat constructor. eexists _, _, _. split; reflexivity.
    + reflexivity.
  - refine (proj2 (proj2 (proj2 (object_value_language_preference Sample.env _ _ _))) _).
    reflexivity.
Defined.

(** ** Facts about graph lookups *)

Lemma elem_of_objects (g : graph) (s p o : node) :
  o ∈ objects g s p ↔ (s, p, o) ∈ g.
Proof.
  unfold objects. rewrite list_elem_of_omap. split.
  - intros ([[s' p'] o'] & Hin & Hm). case_decide as H; [|done].
    destruct H as [-> ->]. by injection Hm as ->.
  - intros Hin. exists (s, p, o). split; [done |]. by rewrite decide_True.
Qed.

Lemma elem_of_subjects (g : graph) (s p o : node) :
  s ∈ subjects g p o ↔ (s, p, o) ∈ g.
Proof.
  unfold subjects. rewrite list_elem_of_omap. split.
  - intros ([[s' p'] o'] & Hin & Hm). case_decide as H; [|done].
    destruct H as [-> ->]. by injection Hm as ->.
  - intros Hin. exists (s, p, o). split; [done |]. by rewrite decide_True.
Qed.

Lemma objects_cons_match (g : graph) (s p o : node) :
  objects ((s, p, o) :: g) s p = o :: objects g s p.
Proof. unfold objects. cbn [omap list_omap]. by rewrite decide_True. Qed.

Lemma for_each_app {A S} (body : S → A → result S) (xs ys : list A) (st : S) :
  for_each body (xs ++ ys) st = (st' ← for_each body xs st; for_each body ys st').
Proof.
  revert st. induction xs as [|x xs IH]; intros st; [done |].
  cbn [app for_each]. destruct (body st x) as [st'|e]; [apply IH | done].
Qed.

(** ** Integer lists *)

Section IntegerList.
Context (E : environment).

(** What one object contributes to [_object_value_int_list] when its
    conversion does not overflow. *)
Definition int_of_object (o : node) : option Z :=
  if node_truthy E o then
    match int_float E (node_str o) with
    | Ok n => Some n
    | Raise _ => None
    end
  else None.

Definition not_infinite (o : node) : Prop :=
  ∀ b, py_float E (node_str o) ≠ Some (S754_infinity b).

Lemma int_float_outcome (text : string) :
  (∀ b, py_float E text ≠ Some (S754_infinity b)) →
  (∃ n, int_float E text = Ok n) ∨ int_float E text = Raise ValueError.
Proof.
  intros H. unfold int_float. destruct (py_float E text) as [[| b | |]|];
    cbn; eauto. by destruct (H b).
Qed.

Lemma int_list_loop (os : list node) (acc : list Z) :
  Forall not_infinite os →
  for_each
    (λ object_values object,
       if node_truthy E object then
         try_except
           (n ← int_float E (node_str object); Ok (object_values ++ [n]))
           [ValueError] (Ok object_values)
       else Ok object_values) os acc
  = Ok (acc ++ omap int_of_object os).
Proof.
  intros H. revert acc. induction H as [|o os Ho Hos IH]; intros acc.
  - cbn. by rewrite app_nil_r.
  - cbn [for_each omap list_omap]. unfold int_of_object at 1.
    destruct (node_truthy E o); [|cbn; apply IH].
    destruct (int_float_outcome (node_str o) Ho) as [[n ->] | ->]; cbn.
    + rewrite IH. by rewrite <- app_assoc.
    + apply IH.
Qed.

(** Without an infinite value the extraction is total: it returns the
    integers of the objects that convert, in order, and drops the rest. *)
Lemma int_list_total (g : graph) (subject predicate : node) :
  Forall not_infinite (objects g subject predicate) →
  _object_value_int_list E g subject predicate
  = Ok (omap int_of_object (objects g subject predicate)).
Proof. intros H. unfold _object_value_int_list. by rewrite int_list_loop. Qed.

End IntegerList.

(** C9 on the code: an object whose text [float] reads as an infinity makes
    [int] raise [OverflowError], which the [except ValueError] clause of
    [_object_value_int_list] does not catch, so the whole extraction aborts
    with that exception instead of dropping the item. *)
Theorem int_list_aborts_on_infinity
    (E : environment) (g : graph) (subject predicate : node)
    (text : string) (language : option string) (negative : bool) (rest : list node) :
  py_float E text = Some (S754_infinity negative) →
  text ≠ EmptyString →
  objects g subject predicate = Literal text language None :: rest →
  _object_value_int_list E g subject predicate = Raise OverflowError.
Proof.
  intros Hf Hne Hos. unfold _object_value_int_list. rewrite Hos.
  cbn [for_each node_truthy node_str]. unfold int_float. rewrite Hf.
  destruct text; [done |]. reflexivity.
Qed.

(** [int_list_aborts_on_infinity] on a distribution whose byte size is the
    text [inf]. *)
Lemma int_list_aborts_on_inf_literal :
  _object_value_int_list Sample.env
    [(Sample.distribution "1", DCAT "byteSize", plain "inf")]
    (Sample.distribution "1") (DCAT "byteSize")
  = Raise OverflowError.
Proof.
  apply (int_list_aborts_on_infinity Sample.env _ _ _ "inf" None false []);
    [reflexivity | done | vm_compute; reflexivity].
Defined.

(** ** Format of a distribution *)

(** C5 on the code: a distribution with no [dcat:mediaType] and a
    [dct:format] literal [CSV] gives the empty text, not [None], as media
    type; with the literal [text/csv] the result is as the claim has it. *)
Theorem distribution_format_without_media_type
    (E : environment) (g : graph) (distribution : node)
    (language datatype : option string) :
  objects g distribution (DCAT "mediaType") = [] →
  (_object g distribution (DCT "format") = Some (Literal "CSV" language datatype) →
   _distribution_format E g distribution false = (Some EmptyString, Some "CSV"))
  ∧ (_object g distribution (DCT "format")
     = Some (Literal "text/csv" language datatype) →
     _distribution_format E g distribution false = (Some "text/csv", None)).
Proof.
  intros Hm. unfold _distribution_format, _object_value. rewrite Hm.
  split; intros ->; reflexivity.
Qed.

(** [distribution_format_without_media_type] on a graph that holds just the
    format triple. *)
Lemma distribution_format_csv_literal :
  _distribution_format Sample.env
    [(Sample.distribution "1", DCT "format", plain "CSV")]
    (Sample.distribution "1") false
  = (Some "", Some "CSV").
Proof.
  apply (distribution_format_without_media_type Sample.env _ _ None None);
    vm_compute; reflexivity.
Defined.

(** ** Publisher and contact details *)

Section Agents.
Context (E : environment) (g : graph).

(** The dict one agent alone gives: every key from that agent. *)
Definition publisher_of (agent : node) : pydict :=
  [("uri", VStr (uri_or_empty agent));
   ("name", VStr (_object_value E g agent (FOAF "name")));
   ("email", VStr (_object_value E g agent (FOAF "mbox")));
   ("url", VStr (_object_value E g agent (FOAF "homepage")));
   ("type", VStr (_object_value E g agent (DCT "type")))].

Definition contact_of (agent : node) : pydict :=
  [("uri", VStr (uri_or_empty agent));
   ("name", VStr (_get_vcard_property_value E g agent (VCARD "hasFN") (Some (VCARD "fn"))));
   ("email", VStr (_without_mailto (_get_vcard_property_value E g agent (VCARD "hasEmail") None)))].

Lemma publisher_step_fresh (agent : node) :
  _publisher_step E g [] agent = publisher_of agent.
Proof. reflexivity. Qed.

Lemma publisher_step_again (previous agent : node) :
  _publisher_step E g (publisher_of previous) agent = publisher_of agent.
Proof. reflexivity. Qed.

Lemma contact_step_fresh (agent : node) :
  _contact_step E g [] agent = contact_of agent.
Proof. reflexivity. Qed.

Lemma contact_step_again (previous agent : node) :
  _contact_step E g (contact_of previous) agent = contact_of agent.
Proof. reflexivity. Qed.

Lemma publisher_fold (agents : list node) (previous : node) :
  fold_left (_publisher_step E g) agents (publisher_of previous)
  = publisher_of (default previous (last agents)).
Proof.
  revert previous. induction agents as [|a agents IH]; intros previous; [done |].
  cbn [fold_left]. rewrite publisher_step_again, IH, last_cons.
  by destruct (last agents).
Qed.

Lemma contact_fold (agents : list node) (previous : node) :
  fold_left (_contact_step E g) agents (contact_of previous)
  = contact_of (default previous (last agents)).
Proof.
  revert previous. induction agents as [|a agents IH]; intros previous; [done |].
  cbn [fold_left]. rewrite contact_step_again, IH, last_cons.
  by destruct (last agents).
Qed.

End Agents.

(** Two publishers of one dataset: the first has only a name, the second
    only a mailbox. *)
Definition two_publishers : graph :=
  [(Sample.dataset, DCT "publisher", URIRef "http://example.org/org/first");
   (Sample.dataset, DCT "publisher", URIRef "http://example.org/org/second");
   (URIRef "http://example.org/org/first", FOAF "name", plain "First Agency");
   (URIRef "http://example.org/org/second", FOAF "mbox", plain "second@example.org")].

(** C10, as stated, fails: the name the earlier agent contributes does not
    survive; the dict is the second agent's alone, its missing name being
    the empty text. *)
Lemma publisher_drops_earlier_name :
  _publisher Sample.env two_publishers Sample.dataset (DCT "publisher")
  = [("uri", VStr "http://example.org/org/second");
     ("name", VStr "");
     ("email", VStr "second@example.org");
     ("url", VStr "");
     ("type", VStr "")].
Proof. vm_compute. reflexivity. Qed.

(** C10, amended.  [_publisher] and [_contact_details] return the fields of
    the last agent object alone: every pass of the loop assigns every key,
    a sub-field the agent lacks becoming the empty text, so no field of an
    earlier agent survives; without an agent the dict is empty. *)
Theorem agent_details_of_last_object
    (E : environment) (g : graph) (subject predicate : node) :
  _publisher E g subject predicate
  = match last (objects g subject predicate) with
    | Some agent => publisher_of E g agent
    | None => []
    end
  ∧ _contact_details E g subject predicate
    = match last (objects g subject predicate) with
      | Some agent => contact_of E g agent
      | None => []
      end.
Proof.
  unfold _publisher, _contact_details.
  destruct (objects g subject predicate) as [|a agents]; [done |].
  cbn [fold_left]. rewrite publisher_step_fresh, contact_step_fresh.
  rewrite publisher_fold, contact_fold.
  rewrite last_cons. by destruct (last agents).
Qed.

(** ** Source catalog *)

Section SourceCatalog.
Context (E : environment) (g : graph) (dataset_ref root : node).
Context (Hexpose : expose_subcatalogs E = true).
Context (Hroot : _get_root_catalog_ref g = Ok root).

(** The catalogs that claim the dataset, the root left out. *)
Definition claiming : gset node :=
  list_to_set (subjects g (DCAT "dataset") dataset_ref) ∖ {[root]}.

Lemma elem_of_claiming (c : node) :
  c ∈ claiming ↔ (c, DCAT "dataset", dataset_ref) ∈ g ∧ c ≠ root.
Proof.
  unfold claiming. rewrite elem_of_difference, elem_of_list_to_set,
    elem_of_subjects, elem_of_singleton. done.
Qed.

Lemma source_catalog_unfold :
  _get_source_catalog E g dataset_ref
  = if bool_decide (size claiming = 0%nat ∨ size claiming = 1%nat) then
      match elements claiming with
      | catalog :: _ => Ok (Some catalog)
      | [] => Ok (Some root)
      end
    else Raise AssertionError.
Proof. unfold _get_source_catalog. rewrite Hexpose, Hroot. reflexivity. Qed.

Lemma source_catalog_two (c1 c2 : node) :
  c1 ≠ c2 → c1 ∈ claiming → c2 ∈ claiming →
  _get_source_catalog E g dataset_ref = Raise AssertionError.
Proof.
  intros Hne H1 H2. rewrite source_catalog_unfold.
  rewrite bool_decide_eq_false_2; [done |].
  intros [H0 | H1'].
  - apply size_empty_iff in H0. rewrite H0 in H1. by apply not_elem_of_empty in H1.
  - apply size_1_elem_of in H1' as [x Hx]. rewrite Hx in H1, H2.
    apply elem_of_singleton in H1, H2. congruence.
Qed.

Lemma source_catalog_one (c : node) :
  c ∈ claiming → (∀ c', c' ∈ claiming → c' = c) →
  _get_source_catalog E g dataset_ref = Ok (Some c).
Proof.
  intros Hc Honly. rewrite source_catalog_unfold.
  assert (claiming = {[c]}) as ->.
  { apply set_eq. intros x. rewrite elem_of_singleton. split; [apply Honly | by intros ->]. }
  rewrite size_singleton, elements_singleton.
  by rewrite bool_decide_eq_true_2 by auto.
Qed.

Lemma source_catalog_none :
  (∀ c, c ∉ claiming) →
  _get_source_catalog E g dataset_ref = Ok (Some root).
Proof.
  intros Hnone. rewrite source_catalog_unfold.
  assert (claiming = ∅) as ->.
  { apply set_eq. intros x. split; [by intros ?%Hnone | by intros ?%not_elem_of_empty]. }
  rewrite size_empty, elements_empty.
  by rewrite bool_decide_eq_true_2 by auto.
Qed.

End SourceCatalog.

(** C3.  With sub-catalogs exposed and [root] the root catalog of the graph:
    if two distinct catalogs other than the root link to the dataset with
    [dcat:dataset], [_get_source_catalog] fails with [AssertionError]; if
    exactly one catalog other than the root links to it, that catalog is
    returned; if none does, the root is returned. *)
Theorem source_catalog_resolution
    (E : environment) (g : graph) (dataset_ref root : node) :
  expose_subcatalogs E = true →
  _get_root_catalog_ref g = Ok root →
  (∀ c1 c2,
     c1 ≠ c2 → c1 ≠ root → c2 ≠ root →
     (c1, DCAT "dataset", dataset_ref) ∈ g →
     (c2, DCAT "dataset", dataset_ref) ∈ g →
     _get_source_catalog E g dataset_ref = Raise AssertionError)
  ∧ (∀ c,
       c ≠ root →
       (c, DCAT "dataset", dataset_ref) ∈ g →
       (∀ c', c' ≠ root → (c', DCAT "dataset", dataset_ref) ∈ g → c' = c) →
       _get_source_catalog E g dataset_ref = Ok (Some c))
  ∧ ((∀ c, (c, DCAT "dataset", dataset_ref) ∈ g → c = root) →
     _get_source_catalog E g dataset_ref = Ok (Some root)).
Proof.
  intros Hexpose Hroot. split; [|split].
  - intros c1 c2 Hne H1 H2 Hin1 Hin2.
    apply (source_catalog_two E g dataset_ref root Hexpose Hroot c1 c2 Hne);
      by apply elem_of_claiming.
  - intros c Hc Hin Honly.
    apply (source_catalog_one E g dataset_ref root Hexpose Hroot c).
    + by apply elem_of_claiming.
    + intros c' [Hin' Hne']%elem_of_claiming. by apply Honly.
  - intros Hall.
    apply (source_catalog_none E g dataset_ref root Hexpose Hroot).
    intros c [Hin Hne]%elem_of_claiming. by apply Hne, Hall.
Qed.

(** A root catalog with two sub-catalogs; [n] of the sub-catalogs list the
    sample dataset. *)
Definition catalog_graph (n : nat) : graph :=
  [(Sample.catalog "root", RDF "type", DCAT "Catalog");
   (Sample.catalog "root", DCT "hasPart", Sample.catalog "a");
   (Sample.catalog "root", DCT "hasPart", Sample.catalog "b");
   (Sample.catalog "root", DCAT "dataset", Sample.dataset)]
  ++ (if (1 <=? n)%nat then [(Sample.catalog "a", DCAT "dataset", Sample.dataset)] else [])
  ++ (if (2 <=? n)%nat then [(Sample.catalog "b", DCAT "dataset", Sample.dataset)] else []).

Lemma elem_of_catalog_graph (n : nat) (c : node) :
  (c, DCAT "dataset", Sample.dataset) ∈ catalog_graph n →
  c = Sample.catalog "root"
  ∨ (1 ≤ n)%nat ∧ c = Sample.catalog "a"
  ∨ (2 ≤ n)%nat ∧ c = Sample.catalog "b".
Proof.
  unfold catalog_graph. rewrite !elem_of_app, !elem_of_cons.
  intros [[H|[H|[H|[H|H]]]] | [H | H]].
  - discriminate H.
  - discriminate H.
  - discriminate H.
  - injection H as ->. by left.
  - by apply elem_of_nil in H.
  - destruct (1 <=? n)%nat eqn:Hn; [|by apply elem_of_nil in H].
    apply Nat.leb_le in Hn. apply list_elem_of_singleton in H. injection H as ->. auto.
  - destruct (2 <=? n)%nat eqn:Hn; [|by apply elem_of_nil in H].
    apply Nat.leb_le in Hn. apply list_elem_of_singleton in H. injection H as ->. auto.
Qed.

(** [source_catalog_resolution] on [catalog_graph]: two claiming
    sub-catalogs, one, and none. *)
Lemma source_catalog_resolution_on_samples :
  _get_source_catalog Sample.env_subcatalogs (catalog_graph 2) Sample.dataset
  = Raise AssertionError
  ∧ _get_source_catalog Sample.env_subcatalogs (catalog_graph 1) Sample.dataset
    = Ok (Some (Sample.catalog "a"))
  ∧ _get_source_catalog Sample.env_subcatalogs (catalog_graph 0) Sample.dataset
    = Ok (Some (Sample.catalog "root")).
Proof.
  split; [|split].
  - refine (proj1 (source_catalog_resolution Sample.env_subcatalogs (catalog_graph 2)
                     Sample.dataset (Sample.catalog "root") eq_refl eq_refl)
              (Sample.catalog "a") (Sample.catalog "b") _ _ _ _ _).
    + discriminate.
    + discriminate.
    + discriminate.
    + unfold catalog_graph. cbn. rewrite !elem_of_cons. auto 10.
    + unfold catalog_graph. cbn. rewrite !elem_of_cons. auto 10.
  - refine (proj1 (proj2 (source_catalog_resolution Sample.env_subcatalogs (catalog_graph 1)
                     Sample.dataset (Sample.catalog "root") eq_refl eq_refl))
              (Sample.catalog "a") _ _ _).
    + discriminate.
    + unfold catalog_graph. cbn. rewrite !elem_of_cons. auto 10.
    + intros c' Hne Hin.
      destruct (elem_of_catalog_graph 1 c' Hin) as [-> | [[_ ->] | [Hn _]]];
        [done | done | lia].
  - refine (proj2 (proj2 (source_catalog_resolution Sample.env_subcatalogs (catalog_graph 0)
                     Sample.dataset (Sample.catalog "root") eq_refl eq_refl)) _).
    intros c Hin.
    destruct (elem_of_catalog_graph 0 c Hin) as [-> | [[Hn _] | [Hn _]]];
      [done | lia | lia].
Defined.

(** ** License resolution *)

(** The lookup tables a call of [_license] works with: the cached ones, or
    those of the register when nothing is cached yet. *)
Definition maps_in_effect (E : environment) (cache : option license_maps) : license_maps :=
  match cache with
  | Some maps => maps
  | None => build_license_maps (license_register E)
  end.

Section License.
Context (E : environment) (g : graph) (maps : license_maps).








End License.




(** ** Date triples *)

(** The date [1904-01-01T00:00:00]: what a parser that fills the fields
    missing from the text [1904] from [default_datetime] returns. *)
Definition year_1904 : datetime :=
  {| year := 1904; month := 1; day := 1; hour := 0; minute := 0; second := 0;
     microsecond := 0; utcoffset := None |}.

Lemma add_date_triple_parsed
    (E : environment) (g : graph) (subject predicate : node) (value : pyval)
    (date : datetime) :
  truthy value = true →
  parse_date E value default_datetime = Ok date →
  _add_date_triple E g subject predicate value TLiteral
  = Ok (graph_add g (subject, predicate,
                     Literal (Iso.isoformat date) None (Some (XSD "dateTime")))).
Proof. intros Ht Hp. unfold _add_date_triple. rewrite Ht, Hp. reflexivity. Qed.

(** An exception of [parse_date] that is no [ValueError] leaves
    [_add_date_triple] as it is. *)
Lemma add_date_triple_other_exception
    (E : environment) (g : graph) (subject predicate : node) (value : pyval)
    (e : exn) :
  truthy value = true →
  parse_date E value default_datetime = Raise e →
  e ≠ ValueError →
  _add_date_triple E g subject predicate value TLiteral = Raise e.
Proof.
  intros Ht Hp He. unfold _add_date_triple. rewrite Ht, Hp. cbn.
  rewrite bool_decide_eq_false_2; [done |].
  rewrite list_elem_of_singleton. done.
Qed.

(** C8 on the code.  When the parser fills the fields the text [1904]
    lacks from the default date, adding a date triple for [1904] adds the
    literal [1904-01-01T00:00:00] typed [xsd:dateTime].  A text that is not
    empty and that the parser rejects with a [ValueError] is added as it
    is, untyped, and nothing is raised.  A value the parser rejects with
    any other exception adds nothing: [_add_date_triple] catches
    [ValueError] alone, and the exception leaves the call.  For the empty
    text the parser is not asked and no triple is added. *)
Theorem date_triple_outcomes
    (E : environment) (g : graph) (subject predicate : node) :
  (parse_date E (VStr "1904") default_datetime = Ok year_1904 →
   _add_date_triple E g subject predicate (VStr "1904") TLiteral
   = Ok (graph_add g (subject, predicate,
                      Literal "1904-01-01T00:00:00" None (Some (XSD "dateTime")))))
  ∧ (∀ text,
       text ≠ EmptyString →
       parse_date E (VStr text) default_datetime = Raise ValueError →
       _add_date_triple E g subject predicate (VStr text) TLiteral
       = Ok (graph_add g (subject, predicate, Literal text None None)))
  ∧ (∀ value e,
       truthy value = true →
       parse_date E value default_datetime = Raise e →
       e ≠ ValueError →
       _add_date_triple E g subject predicate value TLiteral = Raise e)
  ∧ _add_date_triple E g subject predicate (VStr EmptyString) TLiteral = Ok g.
Proof.
  split; [|split; [|split]].
  - intros Hp. by rewrite (add_date_triple_parsed E g _ _ _ year_1904).
  - intros text Hne Hp. unfold _add_date_triple.
    destruct text; [done |]. cbn [truthy Str.truthy Str.is_empty negb].
    rewrite Hp. reflexivity.
  - intros value e. apply add_date_triple_other_exception.
  - reflexivity.
Qed.

(** [date_triple_outcomes] with the sample parser: the year [1904], a text
    that is no date, and a run of digits too long for the parser, which
    ends the call in [OverflowError]. *)
Lemma date_triple_outcomes_on_samples :
  _add_date_triple Sample.env [] Sample.dataset (DCT "issued") (VStr "1904") TLiteral
  = Ok [(Sample.dataset, DCT "issued",
         Literal "1904-01-01T00:00:00" None (Some (XSD "dateTime")))]
  ∧ _add_date_triple Sample.env [] Sample.dataset (DCT "issued") (VStr "soon") TLiteral
    = Ok [(Sample.dataset, DCT "issued", Literal "soon" None None)]
  ∧ parse_date Sample.env (VStr "99999999999") default_datetime = Raise OverflowError
  ∧ _add_date_triple Sample.env [] Sample.dataset (DCT "issued") (VStr "99999999999")
      TLiteral
    = Raise OverflowError.
Proof.
  split; [|split; [|split]].
  - exact (proj1 (date_triple_outcomes Sample.env [] Sample.dataset (DCT "issued"))
             eq_refl).
  - refine (proj1 (proj2 (date_triple_outcomes Sample.env [] Sample.dataset
                            (DCT "issued"))) "soon" _ eq_refl).
    discriminate.
  - reflexivity.
  - refine (proj1 (proj2 (proj2 (date_triple_outcomes Sample.env [] Sample.dataset
                                   (DCT "issued"))))
              (VStr "99999999999") OverflowError eq_refl eq_refl _).
    discriminate.
Defined.

(** ** Keywords *)

Lemma list_remove_found (x : string) (l : list string) :
  x ∈ l → ∃ l', list_remove x l = Ok l' ∧ l ≡ₚ x :: l'.
Proof.
  induction l as [|y l IH]; [by intros ?%elem_of_nil |].
  intros Hin. cbn [list_remove]. destruct (decide (y = x)) as [-> | Hne].
  - by exists l.
  - apply elem_of_cons in Hin as [-> | Hin]; [done |].
    destruct (IH Hin) as (l' & -> & Hl'). exists (y :: l'). split; [done |].
    rewrite Hl'. apply Permutation_swap.
Qed.

Lemma keywords_loop_total (todo keywords : list string) :
  todo ⊆+ keywords →
  ∃ out,
    for_each
      (λ keywords keyword,
         keywords ← list_remove keyword keywords;
         Ok (keywords ++ (Str.strip <$> Str.split "," keyword)))
      todo keywords = Ok out.
Proof.
  revert keywords. induction todo as [|k todo IH]; intros keywords Hsub.
  - by exists keywords.
  - apply submseteq_cons_l in Hsub as (k' & Hk' & Hsub).
    assert (k ∈ keywords) as Hin by (apply elem_of_Permutation; eauto).
    destruct (list_remove_found k keywords Hin) as (l' & Hl' & Hperm).
    cbn [for_each]. rewrite Hl'. cbn [mbind result_bind bind].
    apply IH. apply submseteq_inserts_r.
    rewrite Hk' in Hperm. apply Permutation_cons_inv in Hperm. by rewrite <- Hperm.
Qed.

(** [_keywords] never raises: every keyword it sets out to remove is still
    in the list when its turn comes. *)
Lemma keywords_total (g : graph) (dataset_ref : node) :
  ∃ keywords, _keywords g dataset_ref = Ok keywords.
Proof.
  unfold _keywords. apply keywords_loop_total.
  apply sublist_submseteq, sublist_filter.
Qed.

(** ** Access rights in [parse_dataset] *)

(** C2 on the code: once the [dct:accessRights] object of the dataset gives
    a rights text that is not empty, [parse_dataset] never completes: the
    entry it is about to append names [accessRights], a name nothing binds.
    The call ends in an exception, and in [NameError] whenever the spatial
    extraction before it went through. *)
Theorem parse_dataset_access_rights_name_error
    (E : environment) (g : graph) (compatibility_mode : bool)
    (cache : option license_maps) (dataset_dict : pydict) (dataset_ref : node) :
  _access_rights E g dataset_ref (DCT "accessRights") ≠ EmptyString →
  (∃ e, parse_dataset E g compatibility_mode cache dataset_dict dataset_ref = Raise e)
  ∧ (∀ spatial,
       _spatial E g dataset_ref (DCT "spatial") = Ok spatial →
       parse_dataset E g compatibility_mode cache dataset_dict dataset_ref
       = Raise NameError).
Proof.
  intros Hrights. unfold parse_dataset.
  destruct (keywords_total g dataset_ref) as [keywords ->].
  cbn [mbind result_bind bind].
  unfold _time_interval. cbn [Z.eqb Pos.eqb].
  assert (Str.truthy (_access_rights E g dataset_ref (DCT "accessRights")) = true)
    as -> by (by destruct (_access_rights E g dataset_ref (DCT "accessRights"))).
  destruct (interval_found _);
    [destruct (_read_time_interval_schema_org _ _ _ _) as [start end_]
    |destruct (_read_time_interval_time _ _ _ _) as [start end_]];
    cbn [mbind result_bind bind];
    (split;
     [destruct (_spatial E g dataset_ref (DCT "spatial")) as [spatial|e];
        cbn [mbind result_bind bind]; eauto
     |intros spatial ->; reflexivity]).
Qed.

(** A dataset whose access rights are the literal [public]. *)
Definition rights_graph : graph :=
  [(Sample.dataset, RDF "type", DCAT "Dataset");
   (Sample.dataset, DCT "title", plain "T");
   (Sample.dataset, DCT "accessRights", plain "public")].

(** [parse_dataset_access_rights_name_error] on [rights_graph]. *)
Lemma parse_dataset_rights_graph_name_error :
  _access_rights Sample.env rights_graph Sample.dataset (DCT "accessRights") = "public"
  ∧ parse_dataset Sample.env rights_graph false None [] Sample.dataset = Raise NameError.
Proof.
  split; [vm_compute; reflexivity |].
  refine (proj2 (parse_dataset_access_rights_name_error Sample.env rights_graph false
                   None [] Sample.dataset _) _ _).
  - vm_compute. discriminate.
  - vm_compute. reflexivity.
Defined.

(** ** Serialize, then parse *)

(** The record of the round trip: a title, notes and two tags, the second
    holding a comma. *)
Definition round_trip_record : pydict :=
  [("title", VStr "T");
   ("notes", VStr "N");
   ("tags", VList [VDict [("name", VStr "a")]; VDict [("name", VStr "b,c")]])].

(** What [graph_from_dataset] writes for it, as predicate and object of the
    one subject. *)
Definition round_trip_statements : list (node * node) :=
  [(RDF "type", DCAT "Dataset");
   (DCT "title", plain "T");
   (DCT "description", plain "N");
   (DCAT "keyword", plain "a");
   (DCAT "keyword", plain "b,c")].

Definition about (subject : node) (statements : list (node * node)) : graph :=
  (λ po, (subject, fst po, snd po)) <$> statements.

(** [[tag['name'] for tag in tags]] *)
Definition tag_names (tags : pyval) : list string :=
  match tags with
  | VList l =>
      (λ tag, match tag with
              | VDict d => text_of (dict_get_value d "name")
              | _ => EmptyString
              end) <$> l
  | _ => []
  end.

(** The record [parse_dataset] makes of that graph, for the dataset [ref]. *)
Definition round_trip_result (ref : node) : pydict :=
  [("extras", VList [extra "uri" (VStr (uri_or_empty ref))]);
   ("resources", VList []);
   ("title", VStr "T");
   ("notes", VStr "N");
   ("tags", VList [VDict [("name", VStr "a")]; VDict [("name", VStr "b")];
                   VDict [("name", VStr "c")]]);
   ("license_id", VStr "")].

Lemma graph_add_fresh (g : graph) (t : triple) : t ∉ g → graph_add g t = g ++ [t].
Proof. intros H. unfold graph_add. by rewrite decide_False. Qed.

Lemma about_elem_of (subject : node) (statements : list (node * node)) (p o : node) :
  (subject, p, o) ∈ about subject statements ↔ (p, o) ∈ statements.
Proof.
  unfold about. rewrite list_elem_of_fmap. split.
  - intros ([p' o'] & [= -> ->] & Hin). done.
  - intros Hin. by exists (p, o).
Qed.

Lemma objects_about (subject : node) (statements : list (node * node)) (p : node) :
  objects (about subject statements) subject p
  = omap (λ po, if decide (fst po = p) then Some (snd po) else None) statements.
Proof.
  unfold objects, about. induction statements as [|[p' o'] l IH]; [done |].
  cbn [fmap list_fmap omap list_omap fst snd]. rewrite <- IH. clear IH.
  destruct (decide (p' = p)) as [-> | Hne].
  - by rewrite decide_True.
  - rewrite decide_False; [done |]. by intros [_ ?].
Qed.

(** A graph that holds the same triples in another order is again a list of
    statements about the one subject. *)
Lemma about_permutation (subject : node) (statements : list (node * node)) (g : graph) :
  g ≡ₚ about subject statements →
  ∃ statements', g = about subject statements' ∧ statements' ≡ₚ statements.
Proof.
  intros Hp. exists ((λ t : triple, (snd (fst t), snd t)) <$> g). split.
  - unfold about. rewrite <- list_fmap_compose.
    rewrite <- (list_fmap_id g) at 1.
    apply Forall_fmap_ext_1, Forall_forall. intros [[s p] o] Hin.
    rewrite Hp in Hin. apply list_elem_of_fmap in Hin as ([p' o'] & [= -> -> ->] & _).
    done.
  - rewrite Hp. unfold about. rewrite <- list_fmap_compose.
    rewrite <- (list_fmap_id statements) at 2.
    erewrite list_fmap_ext; [done |]. by intros i [p o] _.
Qed.

Lemma graph_add_about (subject : node) (statements : list (node * node)) (p o : node) :
  (p, o) ∉ statements →
  graph_add (about subject statements) (subject, p, o)
  = about subject (statements ++ [(p, o)]).
Proof.
  intros H. rewrite graph_add_fresh by (by rewrite about_elem_of).
  unfold about. by rewrite fmap_app.
Qed.

Ltac fresh_statement :=
  let H := fresh in
  intros H;
  repeat (apply elem_of_cons in H as [H | H]; [discriminate H |]);
  by apply elem_of_nil in H.

(** Serializing the record into an empty graph gives the five statements,
    whatever the site and the dataset reference. *)
Lemma round_trip_serialized (E : environment) (n : nat) (ref : node) :
  graph_from_dataset E {| written := []; blank_nodes := n |} round_trip_record ref
  = Ok {| written := about ref round_trip_statements; blank_nodes := n |}.
Proof.
  cbv -[graph_add about].
  rewrite (graph_add_about ref []) by fresh_statement.
  rewrite !graph_add_about by fresh_statement.
  reflexivity.
Qed.

(** Parsing those statements, in whatever order the graph yields them. *)
Lemma round_trip_parsed (E : environment) (compatibility_mode : bool)
    (cache : option license_maps) (ref : node) (g : graph) :
  expose_subcatalogs E = false →
  clean_tags E = false →
  g ≡ₚ about ref round_trip_statements →
  parse_dataset E g compatibility_mode cache [] ref
  = Ok (round_trip_result ref, Some (maps_in_effect E cache)).
Proof.
  intros Hexp Hclean Hperm.
  destruct (about_permutation ref _ g Hperm) as (sts & -> & Hsts).
  assert (∀ p, objects (about ref sts) ref p
               ≡ₚ omap (λ po, if decide (fst po = p) then Some (snd po) else None)
                    round_trip_statements) as Hobj.
  { intros p. rewrite objects_about. by rewrite Hsts. }
  assert (∀ p, omap (λ po, if decide (fst po = p) then Some (snd po) else None)
                    round_trip_statements = [] →
               objects (about ref sts) ref p = []) as Hnone.
  { intros p Hp. apply Permutation_nil_r. rewrite Hobj, Hp. done. }
  assert (∀ p o, omap (λ po, if decide (fst po = p) then Some (snd po) else None)
                    round_trip_statements = [o] →
               objects (about ref sts) ref p = [o]) as Hone.
  { intros p o Hp. apply Permutation_singleton_r. rewrite Hobj, Hp. done. }
  assert (objects (about ref sts) ref (DCAT "keyword") = [plain "a"; plain "b,c"]
          ∨ objects (about ref sts) ref (DCAT "keyword") = [plain "b,c"; plain "a"])
    as Hkw.
  { specialize (Hobj (DCAT "keyword")).
    change (omap _ round_trip_statements) with [plain "a"; plain "b,c"] in Hobj.
    symmetry in Hobj. apply Permutation_length_2_inv in Hobj. tauto. }
  unfold parse_dataset. rewrite Hexp, Hclean.
  unfold copy_values, copy_extras, copy_list_extras, _keywords, _object_value_list,
    _contact_details, _publisher, _time_interval,
    _read_time_interval_schema_org, _read_time_interval_time, _spatial,
    _access_rights, _object, _license, _distributions,
    dataset_basic_fields, dataset_simple_extras, dataset_list_extras.
  cbn beta iota delta [fold_left].
  unfold _object_value, _object_value_list.
  fold (maps_in_effect E cache). generalize (maps_in_effect E cache). intros maps.
  repeat match goal with
  | |- context [objects (about ref sts) ref ?P] =>
      first
        [ rewrite (Hnone P) by (vm_compute; reflexivity)
        | erewrite (Hone P) by (vm_compute; reflexivity) ]
  end.
  destruct Hkw as [-> | ->]; destruct compatibility_mode; vm_compute; reflexivity.
Qed.

(** Where the round trip holds.  With sub-catalog exposure and tag cleaning
    off, as shipped, and for the record that holds the three fields and
    nothing else: [graph_from_dataset] on an empty graph and the record with
    title [T], notes [N] and the tags [a] and [b,c] succeeds, and
    [parse_dataset] on the graph it wrote, in whatever order that graph
    yields its triples, gives a record whose title is [T], whose notes are
    [N] and whose tag names are [a], [b] and [c]: the keyword [b,c] is
    split at its comma.  Where it breaks is [round_trip_failures] below. *)
Theorem round_trip_populated_fields
    (E : environment) (compatibility_mode : bool) (cache : option license_maps)
    (n : nat) (dataset_ref : node) :
  expose_subcatalogs E = false →
  clean_tags E = false →
  ∃ w,
    graph_from_dataset E {| written := []; blank_nodes := n |}
      round_trip_record dataset_ref = Ok w
    ∧ ∀ g, g ≡ₚ written w →
        ∃ d cache',
          parse_dataset E g compatibility_mode cache [] dataset_ref = Ok (d, cache')
          ∧ dict_get d "title" = Some (VStr "T")
          ∧ dict_get d "notes" = Some (VStr "N")
          ∧ ∃ tags,
              dict_get d "tags" = Some tags
              ∧ tag_names tags = ["a"; "b"; "c"]
              ∧ list_to_set (tag_names tags) = ({[ "a"; "b"; "c" ]} : gset string).
Proof.
  intros Hexp Hclean. eexists. split; [apply round_trip_serialized |].
  intros g Hg. cbn [written] in Hg.
  exists (round_trip_result dataset_ref), (Some (maps_in_effect E cache)).
  split; [by apply round_trip_parsed |].
  split; [reflexivity |]. split; [reflexivity |].
  eexists. split; [reflexivity |]. split; [reflexivity |].
  cbn [tag_names fmap list_fmap text_of dict_get_value dict_get]. cbn.
  apply set_eq. intros x. rewrite !elem_of_union, !elem_of_singleton.
  rewrite elem_of_empty. tauto.
Qed.

(** [round_trip_populated_fields] on the sample site and dataset. *)
Lemma round_trip_on_sample :
  ∃ w,
    graph_from_dataset Sample.env {| written := []; blank_nodes := 0 |}
      round_trip_record Sample.dataset = Ok w
    ∧ ∀ g, g ≡ₚ written w →
        ∃ d cache',
          parse_dataset Sample.env g false None [] Sample.dataset = Ok (d, cache')
          ∧ dict_get d "title" = Some (VStr "T")
          ∧ dict_get d "notes" = Some (VStr "N")
          ∧ ∃ tags,
              dict_get d "tags" = Some tags
              ∧ tag_names tags = ["a"; "b"; "c"]
              ∧ list_to_set (tag_names tags) = ({[ "a"; "b"; "c" ]} : gset string).
Proof.
  exact (round_trip_populated_fields Sample.env false None 0 Sample.dataset
           eq_refl eq_refl).
Defined.

(** With sub-catalogs exposed the same round trip ends in [IndexError]: the
    graph holds no catalog for [_get_root_catalog_ref] to return. *)
Lemma round_trip_with_subcatalogs :
  parse_dataset Sample.env_subcatalogs (about Sample.dataset round_trip_statements)
    false None [] Sample.dataset
  = Raise IndexError.
Proof. vm_compute. reflexivity. Qed.

(** * Further properties

    What follows covers code of the module beyond the statements above: the
    helpers of the record accessor, the term factories, the writers, and
    the way the serializer and the parser fit together. *)

(** ** The [mailto:] prefix *)

Module ReplaceFacts.
Import Str CleaningFacts.

Lemma startswith_app (p s : string) : startswith p (p +:+ s) = true.
Proof.
  induction p as [|c p IH]; [done |].
  rewrite app_cons. cbn [startswith]. by rewrite Ascii.eqb_refl, IH.
Qed.

Lemma replace_from_absent (old new s : string) :
  contains old s = false → replace_from old new 0 s = s.
Proof.
  induction s as [|c s IH]; [done |].
  cbn [contains replace_from]. intros [H1 H2]%orb_false_iff.
  rewrite H1. by rewrite IH.
Qed.

Lemma replace_from_skip (old new a s : string) :
  replace_from old new (String.length a) (a +:+ s) = replace_from old new 0 s.
Proof.
  induction a as [|c a IH]; [done |].
  rewrite app_cons. cbn [String.length replace_from]. exact IH.
Qed.

Lemma replace_from_prefix (old new s : string) :
  is_empty old = false →
  replace_from old new 0 (old +:+ s) = new +:+ replace_from old new 0 s.
Proof.
  intros Hold. pose proof (startswith_app old s) as Hs.
  destruct old as [|c old]; [done |].
  rewrite app_cons in *. cbn [replace_from]. rewrite Hs.
  cbn [String.length Nat.pred]. by rewrite replace_from_skip.
Qed.

Lemma truthy_app (a b : string) : truthy a = true → truthy (a +:+ b) = true.
Proof. destruct a; [done |]. by rewrite app_cons. Qed.

End ReplaceFacts.

(** X1. An address that holds no [mailto:] gets the prefix once, whether
    or not it already carries it, and loses it again when read back. *)
Theorem mailto_prefix_round_trip (E : environment) (x : string) :
  Str.truthy x = true →
  Str.contains PREFIX_MAILTO x = false →
  _add_mailto E (VStr x) = VStr (PREFIX_MAILTO +:+ x)
  ∧ _add_mailto E (VStr (PREFIX_MAILTO +:+ x)) = VStr (PREFIX_MAILTO +:+ x)
  ∧ _without_mailto (PREFIX_MAILTO +:+ x) = x
  ∧ _without_mailto x = x.
Proof.
  intros Hx Habsent.
  assert (Str.replace PREFIX_MAILTO EmptyString x = x) as Hplain.
  { apply (ReplaceFacts.replace_from_absent PREFIX_MAILTO). exact Habsent. }
  assert (Str.replace PREFIX_MAILTO EmptyString (PREFIX_MAILTO +:+ x) = x) as Hprefixed.
  { unfold Str.replace, PREFIX_MAILTO.
    rewrite (ReplaceFacts.replace_from_prefix "mailto:" EmptyString x) by done.
    rewrite CleaningFacts.app_nil.
    by apply ReplaceFacts.replace_from_absent. }
  assert (Str.truthy (PREFIX_MAILTO +:+ x) = true) as Hp.
  { by apply ReplaceFacts.truthy_app. }
  repeat split.
  - unfold _add_mailto, _without_mailto_value. cbn [truthy]. rewrite Hx.
    cbn [py_str]. by rewrite Hplain.
  - unfold _add_mailto, _without_mailto_value. cbn [truthy]. rewrite Hp.
    cbn [py_str]. by rewrite Hprefixed.
  - unfold _without_mailto. by rewrite Hp.
  - unfold _without_mailto. by rewrite Hx.
Qed.

Lemma mailto_prefix_round_trip_on_address :
  _add_mailto Sample.env (VStr "info@example.org") = VStr "mailto:info@example.org"
  ∧ _add_mailto Sample.env (VStr "mailto:info@example.org")
    = VStr "mailto:info@example.org"
  ∧ _without_mailto "mailto:info@example.org" = "info@example.org"
  ∧ _without_mailto "info@example.org" = "info@example.org".
Proof.
  exact (mailto_prefix_round_trip Sample.env "info@example.org" eq_refl eq_refl).
Defined.

(** ** Looking a key up in a dataset dict *)

(** An extras entry whose key is a text other than [key] and its legacy
    spelling. *)
Definition other_entry (key : string) (e : pyval) : Prop :=
  ∃ ed k, e = VDict ed ∧ dict_get ed "key" = Some (VStr k)
          ∧ k ≠ key ∧ k ≠ "dcat_" +:+ key.

Lemma get_dict_value_extras_skip (key : string) (fb : pyval) (pre rest : list pyval) :
  Forall (other_entry key) pre →
  _get_dict_value_extras (pre ++ rest) key fb = _get_dict_value_extras rest key fb.
Proof.
  induction 1 as [|e pre (ed & k & -> & Hk & H1 & H2) _ IH]; [done |].
  cbn [app _get_dict_value_extras py_item]. unfold dict_item. rewrite Hk.
  cbn [mbind result_bind bind is_text].
  rewrite !bool_decide_eq_false_2 by done. exact IH.
Qed.

Lemma dict_get_set_eq (d : pydict) (key : string) (v : pyval) :
  dict_get (dict_set d key v) key = Some v.
Proof.
  induction d as [|[k w] d IH]; cbn [dict_set dict_get].
  - by rewrite decide_True.
  - destruct (decide (k = key)) as [->|Hne]; cbn [dict_get].
    + by rewrite decide_True.
    + by rewrite decide_False.
Qed.

Lemma dict_get_set_ne (d : pydict) (key key' : string) (v : pyval) :
  key ≠ key' → dict_get (dict_set d key v) key' = dict_get d key'.
Proof.
  intros Hne. induction d as [|[k w] d IH]; cbn [dict_set dict_get].
  - by rewrite decide_False.
  - destruct (decide (k = key)) as [->|Hk]; cbn [dict_get].
    + by rewrite !decide_False.
    + destruct (decide (k = key')); [done | exact IH].
Qed.

(** X2. [_get_dict_value] answers from the root of the dict when the key
    is there, whatever the extras hold; otherwise from the first extras
    entry stored under the key or under its [dcat_] spelling; otherwise with
    the default.  An entry without a [key] field met before a match aborts
    the lookup with [KeyError]. *)
Theorem get_dict_value_lookup_order (d : pydict) (key : string) (fb : pyval) :
  (∀ v, dict_get d key = Some v → _get_dict_value d key fb = Ok v)
  ∧ (∀ pre ed k v rest,
       dict_get d key = None →
       dict_get d "extras" = Some (VList (pre ++ VDict ed :: rest)) →
       Forall (other_entry key) pre →
       dict_get ed "key" = Some (VStr k) →
       k = key ∨ k = "dcat_" +:+ key →
       dict_get ed "value" = Some v →
       _get_dict_value d key fb = Ok v)
  ∧ (∀ extras,
       dict_get d key = None →
       dict_get d "extras" = Some (VList extras)
       ∨ dict_get d "extras" = None ∧ extras = [] →
       Forall (other_entry key) extras →
       _get_dict_value d key fb = Ok fb)
  ∧ (∀ pre ed rest,
       dict_get d key = None →
       dict_get d "extras" = Some (VList (pre ++ VDict ed :: rest)) →
       Forall (other_entry key) pre →
       dict_get ed "key" = None →
       _get_dict_value d key fb = Raise KeyError).
Proof.
  repeat split.
  - intros v H. unfold _get_dict_value. by rewrite H.
  - intros pre ed k v rest Hroot Hextras Hpre Hk Hmatch Hv.
    unfold _get_dict_value. rewrite Hroot, Hextras.
    cbn [default from_option id py_iter mbind result_bind bind].
    rewrite get_dict_value_extras_skip by done.
    cbn [_get_dict_value_extras py_item]. unfold dict_item. rewrite Hk, Hv.
    cbn [mbind result_bind bind is_text].
    destruct Hmatch as [->| ->].
    + by rewrite bool_decide_eq_true_2.
    + rewrite (bool_decide_eq_true_2 (_ = "dcat_" +:+ key)) by done.
      by rewrite orb_true_r.
  - intros extras Hroot Hextras Hall.
    unfold _get_dict_value. rewrite Hroot.
    destruct Hextras as [-> | [-> ->]]; cbn [default from_option id py_iter mbind result_bind bind].
    + pose proof (get_dict_value_extras_skip key fb extras [] Hall) as H.
      rewrite app_nil_r in H. exact H.
    + done.
  - intros pre ed rest Hroot Hextras Hpre Hk.
    unfold _get_dict_value. rewrite Hroot, Hextras.
    cbn [default from_option id py_iter mbind result_bind bind].
    rewrite get_dict_value_extras_skip by done.
    cbn [_get_dict_value_extras py_item]. unfold dict_item. by rewrite Hk.
Qed.

Ltac solve_other_entry :=
  repeat constructor; eexists _, _;
  (split; [reflexivity | split; [reflexivity | split; done]]).

(** A dataset dict with a title at its root and three extras. *)
Definition dict_with_extras : pydict :=
  [("title", VStr "T");
   ("extras",
    VList [extra "theme" (VStr "a");
           extra "dcat_issued" (VStr "2020");
           extra "issued" (VStr "2021")])].

Lemma get_dict_value_lookup_order_on_sample :
  _get_dict_value dict_with_extras "title" VNone = Ok (VStr "T")
  ∧ _get_dict_value dict_with_extras "issued" VNone = Ok (VStr "2020")
  ∧ _get_dict_value dict_with_extras "modified" (VStr "none") = Ok (VStr "none")
  ∧ _get_dict_value [("extras", VList [extra "theme" (VStr "a"); VDict []])]
      "issued" VNone = Raise KeyError.
Proof.
  split; [|split; [|split]].
  - exact (proj1 (get_dict_value_lookup_order dict_with_extras "title" VNone)
             (VStr "T") eq_refl).
  - refine (proj1 (proj2 (get_dict_value_lookup_order dict_with_extras "issued" VNone))
              [extra "theme" (VStr "a")] _ "dcat_issued" (VStr "2020")
              [extra "issued" (VStr "2021")] eq_refl eq_refl _ eq_refl _ eq_refl).
    + solve_other_entry.
    + by right.
  - refine (proj1 (proj2 (proj2
              (get_dict_value_lookup_order dict_with_extras "modified" (VStr "none"))))
              _ eq_refl (or_introl eq_refl) _).
    solve_other_entry.
  - refine (proj2 (proj2 (proj2
              (get_dict_value_lookup_order
                 [("extras", VList [extra "theme" (VStr "a"); VDict []])] "issued" VNone)))
              [extra "theme" (VStr "a")] [] [] eq_refl eq_refl _ eq_refl).
    solve_other_entry.
Defined.

(** X3. What the parser appends to the extras, the serializer finds again:
    after [d['extras'].append({'key': key, 'value': v})], under the key
    itself or under its [dcat_] spelling, [_get_dict_value] returns [v] for
    [key], provided the root of the dict has no such key and no earlier
    entry answers to it. *)
Theorem appended_extra_is_found (d : pydict) (key v : string) (fb : pyval)
    (extras : list pyval) :
  key ≠ "extras" →
  dict_get d key = None →
  dict_get d "extras" = Some (VList extras) →
  Forall (other_entry key) extras →
  _get_dict_value (add_extra d key v) key fb = Ok (VStr v)
  ∧ _get_dict_value (add_extra d ("dcat_" +:+ key) v) key fb = Ok (VStr v).
Proof.
  intros Hne Hroot Hextras Hall.
  assert (∀ k, k = key ∨ k = "dcat_" +:+ key →
               _get_dict_value (add_extra d k v) key fb = Ok (VStr v)) as H.
  { intros k Hk. unfold add_extra, dict_append. rewrite Hextras.
    unfold _get_dict_value.
    rewrite (dict_get_set_ne _ "extras" key) by (intros Heq; by apply Hne).
    rewrite Hroot, dict_get_set_eq.
    cbn [default from_option id py_iter mbind result_bind bind].
    rewrite (get_dict_value_extras_skip key fb extras) by exact Hall.
    cbn [_get_dict_value_extras].
    change (py_item (extra k (VStr v)) "key") with (Ok (VStr k)).
    change (py_item (extra k (VStr v)) "value") with (Ok (VStr v)).
    cbn [mbind result_bind bind is_text].
    destruct Hk as [->| ->].
    - by rewrite bool_decide_eq_true_2.
    - rewrite (bool_decide_eq_true_2 (_ = "dcat_" +:+ key)) by done.
      by rewrite orb_true_r. }
  split; apply H; auto.
Qed.

Lemma appended_extra_is_found_on_sample :
  _get_dict_value (add_extra dict_with_extras "frequency" "daily") "frequency" VNone
  = Ok (VStr "daily")
  ∧ _get_dict_value (add_extra dict_with_extras "dcat_frequency" "daily") "frequency" VNone
    = Ok (VStr "daily").
Proof.
  refine (appended_extra_is_found dict_with_extras "frequency" "daily" VNone _ _
            eq_refl eq_refl _).
  - done.
  - solve_other_entry.
Defined.

(** ** Keywords with commas *)

Section KeywordFacts.
Import Str.

Lemma contains_char_cons (c d : ascii) (s : string) :
  contains (String c EmptyString) (String d s)
  = Ascii.eqb c d || contains (String c EmptyString) s.
Proof. cbn [contains startswith]. by rewrite andb_true_r. Qed.

Lemma split_parts_free (sep : ascii) (s : string) :
  Forall (λ p, contains (String sep EmptyString) p = false) (split sep s).
Proof.
  induction s as [|c s IH]; cbn [split].
  - by repeat constructor.
  - destruct (Ascii.eqb c sep) eqn:Hc.
    + constructor; [done | exact IH].
    + destruct (split sep s) as [|h t]; inversion_clear IH.
      * repeat constructor. rewrite contains_char_cons.
        by rewrite Ascii.eqb_sym, Hc.
      * constructor; [|done]. rewrite contains_char_cons.
        by rewrite Ascii.eqb_sym, Hc.
Qed.

Lemma lstrip_free (c : ascii) (s : string) :
  contains (String c EmptyString) s = false →
  contains (String c EmptyString) (lstrip s) = false.
Proof.
  induction s as [|d s IH]; [done |]. intros H. cbn [lstrip].
  destruct (isspace d); [|done].
  rewrite contains_char_cons in H. apply orb_false_iff in H as [_ H]. by apply IH.
Qed.

Lemma rstrip_free (c : ascii) (s : string) :
  contains (String c EmptyString) s = false →
  contains (String c EmptyString) (rstrip s) = false.
Proof.
  induction s as [|d s IH]; [done |]. intros H. cbn [rstrip].
  rewrite contains_char_cons in H. apply orb_false_iff in H as [Hd H].
  destruct (is_empty (rstrip s) && isspace d); [done |].
  rewrite contains_char_cons, Hd. by apply IH.
Qed.

Lemma strip_free (c : ascii) (s : string) :
  contains (String c EmptyString) s = false →
  contains (String c EmptyString) (strip s) = false.
Proof. intros H. by apply rstrip_free, lstrip_free. Qed.

End KeywordFacts.

(** The parts one keyword with commas is replaced by. *)
Definition keyword_parts (keyword : string) : list string :=
  Str.strip <$> Str.split "," keyword.

Lemma list_remove_first (x : string) (pre post : list string) :
  x ∉ pre → list_remove x (pre ++ x :: post) = Ok (pre ++ post).
Proof.
  induction pre as [|y pre IH]; intros Hx; cbn [app list_remove].
  - by rewrite decide_True.
  - rewrite decide_False by (intros ->; apply Hx; left).
    rewrite IH by (intros H; apply Hx; by right). done.
Qed.

Lemma keywords_loop_outcome (l pre ext : list string) :
  Forall (λ k, Str.contains "," k = false) pre →
  for_each
    (λ keywords keyword,
       keywords ← list_remove keyword keywords;
       Ok (keywords ++ (Str.strip <$> Str.split "," keyword)))
    (filter (λ k, Str.contains "," k = true) l) (pre ++ l ++ ext)
  = Ok (pre ++ filter (λ k, Str.contains "," k = false) l ++ ext
        ++ concat (keyword_parts <$> filter (λ k, Str.contains "," k = true) l)).
Proof.
  revert pre ext. induction l as [|k l IH]; intros pre ext Hpre.
  - cbn. by rewrite app_nil_r.
  - destruct (Str.contains "," k) eqn:Hk.
    + rewrite filter_cons_True, filter_cons_False by congruence.
      cbn [for_each app].
      rewrite list_remove_first.
      2:{ intros Hin. rewrite Forall_forall in Hpre.
          specialize (Hpre _ Hin). congruence. }
      cbn [mbind result_bind bind].
      rewrite <- !app_assoc. rewrite (IH pre (ext ++ _)) by done.
      cbn [fmap list_fmap concat]. unfold keyword_parts.
      by rewrite <- !app_assoc.
    + rewrite filter_cons_False, filter_cons_True by congruence.
      change (pre ++ (k :: l) ++ ext) with (pre ++ [k] ++ l ++ ext).
      rewrite (app_assoc pre [k]).
      rewrite IH by (apply Forall_app; split; [done | by repeat constructor]).
      by rewrite <- !app_assoc.
Qed.

(** X4. [_keywords] never fails.  The keywords without a comma come first,
    in the order of the graph; each keyword with a comma is replaced by its
    comma-separated parts, trimmed, at the end of the list, in the order of
    the graph again.  No keyword of the result holds a comma. *)
Theorem keywords_split_on_commas (g : graph) (dataset_ref : node) :
  let keywords := _object_value_list g dataset_ref (DCAT "keyword") in
  let split :=
    filter (λ k, Str.contains "," k = false) keywords
    ++ concat (keyword_parts <$> filter (λ k, Str.contains "," k = true) keywords) in
  _keywords g dataset_ref = Ok split
  ∧ Forall (λ k, Str.contains "," k = false) split.
Proof.
  intros keywords split. split.
  - unfold _keywords. fold keywords.
    pose proof (keywords_loop_outcome keywords [] [] (Forall_nil_2 _)) as H.
    rewrite app_nil_r in H. cbn [app] in H. exact H.
  - apply Forall_app. split.
    + apply Forall_forall. by intros k [Hk _]%list_elem_of_filter.
    + apply Forall_concat, Forall_fmap, Forall_forall. intros k _.
      unfold keyword_parts. apply Forall_fmap.
      eapply Forall_impl; [apply (split_parts_free "," k) |].
      intros p Hp. by apply strip_free.
Qed.

(** ** [URIRefOrLiteral] *)

Lemma n3_ok_app (a b : string) : n3_ok (a +:+ b) = n3_ok a && n3_ok b.
Proof.
  unfold n3_ok. induction a as [|c a IH]; [done |].
  rewrite CleaningFacts.app_cons. cbn [String.list_ascii_of_string forallb].
  by rewrite IH, andb_assoc.
Qed.

Lemma n3_ok_careful_quote_char (c : ascii) :
  n3_ok (CleanedURIRef._careful_quote (String c EmptyString)) = true.
Proof. CleaningFacts.each_char c; vm_compute; reflexivity. Qed.

Lemma n3_ok_careful_quote (s : string) :
  n3_ok (CleanedURIRef._careful_quote s) = true.
Proof.
  induction s as [|c s IH]; [done |].
  by rewrite CleaningFacts.careful_quote_cons, n3_ok_app, n3_ok_careful_quote_char, IH.
Qed.

(** X5. A cleaned reference never holds a character rdflib refuses to
    serialise, so the fallback of [URIRefOrLiteral] to a literal after a
    failed [n3()] is never taken: a text that starts, once trimmed, with
    [http://] or [https://] always gives the cleaned reference, and any
    other text the plain literal of the text as it stands. *)
Theorem uriref_or_literal_by_prefix (E : environment) (value : string) :
  n3_ok (node_str (CleanedURIRef.new value)) = true
  ∧ URIRefOrLiteral_new E (VStr value)
    = if Str.startswith "http://" (Str.strip value)
         || Str.startswith "https://" (Str.strip value)
      then CleanedURIRef.new value
      else plain value.
Proof.
  split; [apply n3_ok_careful_quote |].
  unfold URIRefOrLiteral_new.
  destruct (_ || _); [|done].
  unfold CleanedURIRef.new at 1. cbn [node_str].
  by rewrite n3_ok_careful_quote.
Qed.

(** ** Integer values *)

Lemma object_value_int_infinite (E : environment) (g : graph)
    (subject predicate : node) (negative : bool) :
  _object_value E g subject predicate ≠ EmptyString →
  py_float E (_object_value E g subject predicate) = Some (S754_infinity negative) →
  _object_value_int E g subject predicate = Raise OverflowError.
Proof.
  intros Hne H. unfold _object_value_int, int_float. rewrite H.
  by destruct (_object_value E g subject predicate).
Qed.

(** X6. [_object_value_int] gives [None] when the object has no text or
    the text is no number ([float] fails, or yields a NaN whose [int] is a
    [ValueError]); it gives the number truncated towards zero when it is
    finite; and it aborts with [OverflowError] when the text denotes an
    infinity, which [except ValueError] lets through.  The size of a
    distribution is read this way, so an infinite [dcat:byteSize] makes the
    resources loop of [parse_dataset] abort with the same error. *)
Theorem object_value_int_outcomes (E : environment) (g : graph)
    (subject predicate : node) :
  let text := _object_value E g subject predicate in
  (text = EmptyString → _object_value_int E g subject predicate = Ok None)
  ∧ (py_float E text = None → _object_value_int E g subject predicate = Ok None)
  ∧ (py_float E text = Some S754_nan →
     _object_value_int E g subject predicate = Ok None)
  ∧ (∀ negative, text ≠ EmptyString →
       py_float E text = Some (S754_infinity negative) →
       _object_value_int E g subject predicate = Raise OverflowError)
  ∧ (∀ f n, text ≠ EmptyString →
       py_float E text = Some f → int_of_float f = Ok n →
       _object_value_int E g subject predicate = Ok (Some n))
  ∧ (∀ negative, predicate = DCAT "byteSize" → text ≠ EmptyString →
       py_float E text = Some (S754_infinity negative) →
       parse_distribution E g subject = Raise OverflowError).
Proof.
  intros text. repeat split; try (unfold _object_value_int; fold text).
  - by intros ->.
  - intros H. unfold int_float. rewrite H. by destruct (Str.truthy text).
  - intros H. unfold int_float. rewrite H. by destruct (Str.truthy text).
  - intros negative Hne H. by apply (object_value_int_infinite _ _ _ _ negative).
  - intros f n Hne H Hn. unfold int_float. rewrite H, Hn.
    by destruct text.
  - intros negative -> Hne H.
    pose proof (object_value_int_infinite E g subject (DCAT "byteSize")
                  negative Hne H) as Hint.
    unfold parse_distribution.
    destruct (_distribution_format E g subject (normalize_ckan_format E)).
    by rewrite Hint.
Qed.

(** A distribution whose size is infinite, and one of 1024 bytes. *)
Definition sized_graph (size : string) : graph :=
  [(Sample.distribution "1", DCAT "byteSize", plain size)].

Lemma object_value_int_outcomes_on_samples :
  _object_value_int Sample.env [] (Sample.distribution "1") (DCAT "byteSize") = Ok None
  ∧ _object_value_int Sample.env (sized_graph "big") (Sample.distribution "1")
      (DCAT "byteSize") = Ok None
  ∧ _object_value_int Sample.env (sized_graph "nan") (Sample.distribution "1")
      (DCAT "byteSize") = Ok None
  ∧ _object_value_int Sample.env (sized_graph "inf") (Sample.distribution "1")
      (DCAT "byteSize") = Raise OverflowError
  ∧ _object_value_int Sample.env (sized_graph "1024") (Sample.distribution "1")
      (DCAT "byteSize") = Ok (Some 1024)
  ∧ parse_distribution Sample.env (sized_graph "inf") (Sample.distribution "1")
    = Raise OverflowError.
Proof.
  split; [|split; [|split; [|split; [|split]]]].
  - exact (proj1 (object_value_int_outcomes Sample.env []
               (Sample.distribution "1") (DCAT "byteSize")) eq_refl).
  - exact (proj1 (proj2 (object_value_int_outcomes Sample.env (sized_graph "big")
               (Sample.distribution "1") (DCAT "byteSize")))
             eq_refl).
  - exact (proj1 (proj2 (proj2
             (object_value_int_outcomes Sample.env (sized_graph "nan")
               (Sample.distribution "1") (DCAT "byteSize")))) eq_refl).
  - refine (proj1 (proj2 (proj2 (proj2
              (object_value_int_outcomes Sample.env (sized_graph "inf")
               (Sample.distribution "1") (DCAT "byteSize")))))
              false _ eq_refl).
    done.
  - refine (proj1 (proj2 (proj2 (proj2 (proj2
              (object_value_int_outcomes Sample.env (sized_graph "1024")
               (Sample.distribution "1") (DCAT "byteSize"))))))
              _ 1024 _ eq_refl eq_refl).
    done.
  - refine (proj2 (proj2 (proj2 (proj2 (proj2
              (object_value_int_outcomes Sample.env (sized_graph "inf")
               (Sample.distribution "1") (DCAT "byteSize"))))))
              false eq_refl _ eq_refl).
    done.
Defined.

(** ** Serializing only adds triples *)

(** [g'] holds every triple of [g], and is duplicate free if [g] is. *)
Definition extends (g g' : graph) : Prop :=
  (∀ t, t ∈ g → t ∈ g') ∧ (NoDup g → NoDup g').

Lemma extends_refl (g : graph) : extends g g.
Proof. by split. Qed.

Lemma extends_trans (g1 g2 g3 : graph) :
  extends g1 g2 → extends g2 g3 → extends g1 g3.
Proof. intros [H1 H2] [H3 H4]. split; auto. Qed.

Lemma graph_add_extends (g : graph) (t : triple) : extends g (graph_add g t).
Proof.
  unfold graph_add. destruct (decide (t ∈ g)) as [Hin|Hin]; [apply extends_refl |].
  split.
  - intros u Hu. apply elem_of_app. by left.
  - intros Hnd. apply NoDup_app. repeat split; [done | | apply NoDup_singleton].
    intros u Hu ->%list_elem_of_singleton. done.
Qed.

Lemma extends_add (g g' : graph) (t : triple) :
  extends g g' → extends g (graph_add g' t).
Proof. intros H. eapply extends_trans; [exact H | apply graph_add_extends]. Qed.

Lemma elem_of_graph_add (g : graph) (t : triple) : t ∈ graph_add g t.
Proof.
  unfold graph_add. destruct (decide (t ∈ g)); [done |].
  apply elem_of_app. right. by apply list_elem_of_singleton.
Qed.

Lemma bind_Ok {A B} (m : result A) (k : A → result B) (b : B) :
  m ≫= k = Ok b → ∃ a, m = Ok a ∧ k a = Ok b.
Proof. destruct m as [a|e]; [by exists a | done]. Qed.

Lemma try_except_Ok {A} (body : result A) (classes : list exn) (handler : result A)
    (a : A) :
  try_except body classes handler = Ok a → body = Ok a ∨ handler = Ok a.
Proof.
  destruct body as [b|e]; cbn [try_except]; [by left |].
  destruct (bool_decide (e ∈ classes)); [by right | done].
Qed.

Lemma for_each_extends {A} (body : graph → A → result graph) (xs : list A) :
  (∀ g x g', body g x = Ok g' → extends g g') →
  ∀ g g', for_each body xs g = Ok g' → extends g g'.
Proof.
  intros Hbody. induction xs as [|x xs IH]; intros g g' H; cbn [for_each] in H.
  - injection H as <-. apply extends_refl.
  - apply bind_Ok in H as (g1 & H1 & H).
    eapply extends_trans; [by eapply Hbody | by apply IH].
Qed.

(** Unfolds an outcome [... = Ok x] into the outcomes of its steps. *)
Ltac steps :=
  repeat match goal with
  | H : Ok _ = Ok _ |- _ => injection H as H; try subst
  | H : Raise _ = Ok _ |- _ => discriminate H
  | H : _ ≫= _ = Ok _ |- _ => apply bind_Ok in H as (? & ? & H); cbv beta in *
  | H : try_except _ _ _ = Ok _ |- _ => apply try_except_Ok in H as [H | H]
  | H : match ?x with _ => _ end = Ok _ |- _ => destruct x eqn:?
  end.

Ltac split_ifs H :=
  repeat match type of H with
         | context [if ?c then _ else _] => destruct c
         end.

(** Closes [extends a c] from the steps in the context. *)
Ltac grows :=
  cbn [written blank_nodes] in *;
  repeat first
    [ apply extends_refl
    | apply extends_add
    | match goal with
      | H : extends ?b ?c |- extends ?a ?c => apply (extends_trans a b c); [| exact H]
      end ].

Lemma add_list_triple_extends (E : environment) g subject predicate value _type _datatype g' :
  _add_list_triple E g subject predicate value _type _datatype = Ok g' →
  extends g g'.
Proof.
  unfold _add_list_triple. intros H. steps.
  revert H. apply for_each_extends. intros g1 item g2 H'. steps. grows.
Qed.

Lemma add_date_triple_extends (E : environment) g subject predicate value _type g' :
  _add_date_triple E g subject predicate value _type = Ok g' → extends g g'.
Proof. unfold _add_date_triple. intros H. steps; grows. Qed.

Lemma add_triple_from_dict_extends (E : environment) g _dict subject predicate key fallbacks
    list_value date_value _type _datatype value_modifier g' :
  _add_triple_from_dict E g _dict subject predicate key fallbacks list_value
    date_value _type _datatype value_modifier = Ok g' →
  extends g g'.
Proof.
  unfold _add_triple_from_dict. intros H.
  apply bind_Ok in H as (v1 & _ & H). apply bind_Ok in H as (v2 & _ & H).
  cbv beta zeta in H.
  repeat match type of H with
         | (if ?c then _ else _) = Ok _ => destruct c
         end;
    first [ by eapply add_list_triple_extends
          | by eapply add_date_triple_extends
          | steps; grows ].
Qed.

Lemma add_triples_from_dict_extends (E : environment) g _dict subject items list_value date_value g' :
  _add_triples_from_dict E g _dict subject items list_value date_value = Ok g' →
  extends g g'.
Proof.
  unfold _add_triples_from_dict. apply for_each_extends.
  intros g1 [[[key predicate] fallbacks] _type] g2 H.
  by eapply add_triple_from_dict_extends.
Qed.

(** The same for a writer: the graph extends and no blank node is reused. *)
Definition wextends (w w' : writer) : Prop :=
  extends (written w) (written w') ∧ (blank_nodes w ≤ blank_nodes w')%nat.

Lemma wextends_refl w : wextends w w.
Proof. split; [apply extends_refl | done]. Qed.

Lemma wextends_trans w1 w2 w3 : wextends w1 w2 → wextends w2 w3 → wextends w1 w3.
Proof.
  intros [H1 H2] [H3 H4]. split; [by eapply extends_trans | lia].
Qed.

Lemma wextends_add w w' t : wextends w w' → wextends w (add w' t).
Proof. intros [H1 H2]. split; [by apply extends_add | done]. Qed.

Lemma wextends_new_bnode (E : environment) w w' b w'' :
  new_bnode E w' = (b, w'') → wextends w w' → wextends w w''.
Proof.
  unfold new_bnode. intros [= <- <-] [H1 H2]. split; [done |].
  cbn [blank_nodes]. lia.
Qed.

Lemma wextends_on_graph w w' w'' (f : graph → result graph) :
  (∀ g g', f g = Ok g' → extends g g') →
  on_graph w' f = Ok w'' → wextends w w' → wextends w w''.
Proof.
  unfold on_graph. intros Hf H [H1 H2].
  apply bind_Ok in H as (g & Hg & [= <-]). split; [|done].
  cbn [written]. eapply extends_trans; [exact H1 | by apply Hf].
Qed.

Lemma for_each_wextends {A} (body : writer → A → result writer) (xs : list A) :
  (∀ w x w', body w x = Ok w' → wextends w w') →
  ∀ w w', for_each body xs w = Ok w' → wextends w w'.
Proof.
  intros Hbody. induction xs as [|x xs IH]; intros w w' H; cbn [for_each] in H.
  - injection H as <-. apply wextends_refl.
  - apply bind_Ok in H as (w1 & H1 & H).
    eapply wextends_trans; [by eapply Hbody | by apply IH].
Qed.

(** Closes [wextends a c] from the steps in the context. *)
Ltac wgrows :=
  repeat first
    [ apply wextends_refl
    | apply wextends_add
    | match goal with
      | H : new_bnode ?E ?b = (_, ?c) |- wextends ?a ?c =>
          apply (wextends_new_bnode E a b _ c H)
      | H : on_graph ?b _ = Ok ?c |- wextends ?a ?c =>
          apply (λ Hf, wextends_on_graph a b c _ Hf H);
          [ intros ? ?;
            first [ apply add_triple_from_dict_extends
                  | apply add_triples_from_dict_extends
                  | apply add_date_triple_extends ] |]
      | H : wextends ?b ?c |- wextends ?a ?c =>
          apply (wextends_trans a b c); [| exact H]
      end ].

Lemma write_tags_extends (E : environment) w dataset_dict dataset_ref w' :
  write_tags E w dataset_dict dataset_ref = Ok w' → wextends w w'.
Proof.
  unfold write_tags. intros H. apply bind_Ok in H as (tags & _ & H).
  revert H. apply for_each_wextends. intros w1 tag w2 H'. steps. wgrows.
Qed.

Lemma write_contact_extends (E : environment) w dataset_dict dataset_ref w' :
  write_contact E w dataset_dict dataset_ref = Ok w' → wextends w w'.
Proof.
  unfold write_contact. intros H. apply bind_Ok in H as (values & _ & H).
  destruct (existsb truthy values); [|steps; wgrows].
  apply bind_Ok in H as (contact_uri & _ & H).
  destruct (truthy contact_uri); [|destruct (new_bnode E w) eqn:Hb];
    apply bind_Ok in H as (w1 & H1 & H); wgrows.
Qed.

Lemma write_publisher_extends (E : environment) w dataset_dict dataset_ref w' :
  write_publisher E w dataset_dict dataset_ref = Ok w' → wextends w w'.
Proof.
  unfold write_publisher. intros H.
  apply bind_Ok in H as (uri & _ & H). apply bind_Ok in H as (name & _ & H).
  cbv zeta in H.
  destruct (_ || _); [|steps; wgrows].
  apply bind_Ok in H as (publisher_uri & _ & H).
  apply bind_Ok in H as (fallback & _ & H).
  apply bind_Ok in H as (publisher_name & _ & H).
  destruct (truthy publisher_uri);
    [|destruct (_ && _); [|destruct (new_bnode E w) eqn:Hb]];
    apply bind_Ok in H as (name' & _ & H); wgrows.
Qed.

Lemma write_temporal_extends (E : environment) w dataset_dict dataset_ref w' :
  write_temporal E w dataset_dict dataset_ref = Ok w' → wextends w w'.
Proof.
  unfold write_temporal. intros H.
  apply bind_Ok in H as (start & _ & H). apply bind_Ok in H as (end_ & _ & H).
  destruct (_ || _); [|steps; wgrows].
  destruct (new_bnode E w) eqn:Hb.
  apply bind_Ok in H as (w1 & H1 & H). apply bind_Ok in H as (w2 & H2 & H).
  injection H as <-.
  destruct (truthy start), (truthy end_); steps; wgrows.
Qed.

Lemma get_or_create_spatial_ref_extends (E : environment) w dataset_dict dataset_ref spatial_ref w' :
  _get_or_create_spatial_ref E w dataset_dict dataset_ref = Ok (spatial_ref, w') →
  wextends w w'.
Proof.
  unfold _get_or_create_spatial_ref. intros H.
  destruct (filter _ _); [|steps; wgrows].
  apply bind_Ok in H as (spatial_uri & _ & H).
  destruct (truthy spatial_uri); [|destruct (new_bnode E w) eqn:Hb];
    steps; wgrows.
Qed.

Lemma add_spatial_value_to_graph_extends (E : environment) w spatial_ref predicate value w' :
  _add_spatial_value_to_graph E w spatial_ref predicate value = Ok w' →
  wextends w w'.
Proof.
  unfold _add_spatial_value_to_graph. intros H. steps; wgrows.
Qed.

Lemma write_spatial_extends (E : environment) w dataset_dict dataset_ref w' :
  write_spatial E w dataset_dict dataset_ref = Ok w' → wextends w w'.
Proof.
  unfold write_spatial. intros H.
  apply bind_Ok in H as (spatial_text & _ & H).
  apply bind_Ok in H as (spatial_geom & _ & H).
  destruct (_ || _); [|steps; wgrows].
  apply bind_Ok in H as ([spatial_ref w1] & H1 & H).
  apply get_or_create_spatial_ref_extends in H1.
  destruct (truthy spatial_text), (truthy spatial_geom);
    try apply add_spatial_value_to_graph_extends in H; steps; wgrows.
Qed.

Lemma write_resource_extends (E : environment) fallback dataset_ref w resource w' :
  write_resource E fallback dataset_ref w resource = Ok w' → wextends w w'.
Proof.
  unfold write_resource. intros H. cbv zeta in H.
  apply bind_Ok in H as (uri & _ & H).
  apply bind_Ok in H as (resource_dict & _ & H).
  apply bind_Ok in H as (w1 & H1 & H).
  apply bind_Ok in H as (w2 & H2 & H).
  apply bind_Ok in H as ([mimetype fmt] & _ & H). cbv beta iota in H.
  apply bind_Ok in H as (w3 & H3 & H).
  apply bind_Ok in H as (w4 & H4 & H).
  apply bind_Ok in H as (w5 & H5 & H).
  assert (wextends w w2) as Hw2 by wgrows. clear H1 H2.
  assert (wextends w w3) as Hw3 by (split_ifs H3; steps; wgrows). clear H3 Hw2.
  assert (wextends w w4) as Hw4 by wgrows. clear H4 Hw3.
  assert (wextends w w5) as Hw5 by (split_ifs H5; steps; wgrows). clear H5 Hw4.
  split_ifs H; steps; wgrows.
Qed.

(** X7. [graph_from_dataset] only adds to the graph of the profile: every
    triple it found is still there when it returns, a graph without
    duplicates stays so, the dataset is typed [dcat:Dataset], and the
    count of blank nodes made does not go down. *)
Theorem graph_from_dataset_only_adds (E : environment) (w w' : writer)
    (dataset_dict : pydict) (dataset_ref : node) :
  graph_from_dataset E w dataset_dict dataset_ref = Ok w' →
  (∀ t, t ∈ written w → t ∈ written w')
  ∧ (NoDup (written w) → NoDup (written w'))
  ∧ (dataset_ref, RDF "type", DCAT "Dataset") ∈ written w'
  ∧ (blank_nodes w ≤ blank_nodes w')%nat.
Proof.
  unfold graph_from_dataset. intros H.
  apply bind_Ok in H as (w1 & H1 & H). apply bind_Ok in H as (w2 & H2 & H).
  apply bind_Ok in H as (w3 & H3 & H). apply bind_Ok in H as (w4 & H4 & H).
  apply bind_Ok in H as (w5 & H5 & H). apply bind_Ok in H as (w6 & H6 & H).
  apply bind_Ok in H as (w7 & H7 & H). apply bind_Ok in H as (w8 & H8 & H).
  apply bind_Ok in H as (resources & _ & H).
  apply write_tags_extends in H2. apply write_contact_extends in H5.
  apply write_publisher_extends in H6. apply write_temporal_extends in H7.
  apply write_spatial_extends in H8.
  apply for_each_wextends in H; [|intros ? ? ?; apply write_resource_extends].
  set (w0 := add w (dataset_ref, RDF "type", DCAT "Dataset")) in *.
  assert (wextends w0 w') as [[Hsub Hnd] Hbn].
  { clearbody w0. wgrows. }
  assert (extends (written w) (written w0)) as [Hsub0 Hnd0].
  { apply graph_add_extends. }
  repeat split; auto.
  apply Hsub, elem_of_graph_add.
Qed.

(** A record with a tag, a publisher, a contact, a period, a place and one
    resource. *)
Definition described_record : pydict :=
  [("title", VStr "T");
   ("tags", VList [VDict [("name", VStr "a")]]);
   ("publisher_name", VStr "P");
   ("contact_email", VStr "info@example.org");
   ("temporal_start", VStr "1904");
   ("spatial_text", VStr "Berlin");
   ("resources",
    VList [VDict [("uri", VStr "http://example.org/dataset/1/resource/1");
                  ("url", VStr "http://example.org/file.csv");
                  ("format", VStr "CSV");
                  ("hash", VStr "ab")]])].

(** [graph_from_dataset_only_adds] for that record, written into a graph
    that already holds the title. *)
Lemma graph_from_dataset_only_adds_on_sample :
  ∃ w',
    graph_from_dataset Sample.env
      {| written := [(Sample.dataset, DCT "title", plain "T")]; blank_nodes := 0 |}
      described_record Sample.dataset = Ok w'
    ∧ (Sample.dataset, DCT "title", plain "T") ∈ written w'
    ∧ NoDup (written w')
    ∧ (Sample.dataset, RDF "type", DCAT "Dataset") ∈ written w'
    ∧ blank_nodes w' = 5%nat.
Proof.
  eexists. split; [vm_compute; reflexivity |].
  destruct (graph_from_dataset_only_adds Sample.env
              {| written := [(Sample.dataset, DCT "title", plain "T")];
                 blank_nodes := 0 |}
              _ described_record Sample.dataset
              ltac:(vm_compute; reflexivity)) as (Hkept & Hnodup & Htyped & _).
  split; [apply Hkept; by left |].
  split; [apply Hnodup, NoDup_singleton |].
  split; [exact Htyped | reflexivity].
Defined.

(** ** Looking up what was just added *)

Lemma objects_app (g1 g2 : graph) (s p : node) :
  objects (g1 ++ g2) s p = objects g1 s p ++ objects g2 s p.
Proof. unfold objects. apply omap_app. Qed.

Lemma objects_graph_add_same (g : graph) (s p o : node) :
  objects (graph_add g (s, p, o)) s p
  = if decide (o ∈ objects g s p) then objects g s p else objects g s p ++ [o].
Proof.
  unfold graph_add. case_decide as Hin.
  - by rewrite decide_True by (by apply elem_of_objects).
  - rewrite decide_False by (by rewrite elem_of_objects).
    rewrite objects_app. f_equal. unfold objects. cbn [omap list_omap].
    by rewrite decide_True.
Qed.

Lemma objects_graph_add_other (g : graph) (s p s' p' o' : node) :
  p' ≠ p ∨ s' ≠ s →
  objects (graph_add g (s', p', o')) s p = objects g s p.
Proof.
  intros Hne. unfold graph_add. case_decide; [done |].
  rewrite objects_app. unfold objects at 2. cbn [omap list_omap].
  rewrite decide_False by (intros [-> ->]; by destruct Hne).
  by rewrite app_nil_r.
Qed.

(** Two references built from different texts differ. *)
Ltac distinct := left; intros Heq; vm_compute in Heq; congruence.

(** ** The period of a dataset, written and read back *)

(** The text stored for a date [s]: its ISO form when the parser accepts
    it, [s] itself when the parser raises [ValueError]. *)
Definition stored_date (E : environment) (s o : string) : Prop :=
  (∃ d, parse_date E (VStr s) default_datetime = Ok d ∧ o = Iso.isoformat d)
  ∨ (parse_date E (VStr s) default_datetime = Raise ValueError ∧ o = s).

Lemma isoformat_truthy (d : datetime) : Str.truthy (Iso.isoformat d) = true.
Proof.
  unfold Iso.isoformat. apply ReplaceFacts.truthy_app.
  change (Iso.pad 4 (year d))
    with (Iso.pad 3 (year d / 10) +:+ String (Iso.digit (year d)) EmptyString).
  destruct (Iso.pad 3 (year d / 10)); reflexivity.
Qed.

Lemma stored_date_truthy (E : environment) (s o : string) :
  Str.truthy s = true → stored_date E s o → Str.truthy o = true.
Proof.
  intros Hs [(d & _ & ->) | [_ ->]]; [apply isoformat_truthy | done].
Qed.

Lemma add_date_triple_stored (E : environment) (g : graph) (subject predicate : node)
    (s o : string) :
  Str.truthy s = true → stored_date E s o →
  ∃ datatype,
    _add_date_triple E g subject predicate (VStr s) TLiteral
    = Ok (graph_add g (subject, predicate, Literal o None datatype)).
Proof.
  intros Hs Hst. unfold _add_date_triple. cbn [truthy]. rewrite Hs. cbn [negb].
  destruct Hst as [(d & -> & ->) | [-> ->]]; by eexists.
Qed.

Lemma object_value_single_literal (E : environment) (g : graph) (s p : node)
    (text : string) (datatype : option string) :
  objects g s p = [Literal text None datatype] → _object_value E g s p = text.
Proof. intros H. unfold _object_value. by rewrite H. Qed.

Lemma object_value_no_object (E : environment) (g : graph) (s p : node) :
  objects g s p = [] → _object_value E g s p = EmptyString.
Proof. intros H. unfold _object_value. by rewrite H. Qed.

(** X8. A period written by [graph_from_dataset] is read back by
    [_time_interval], for DCAT-AP 1 and 2 alike: with a start and an end in
    the dataset dict (at its root or in its extras), the graph gets one
    fresh [dct:PeriodOfTime] node, and reading the dataset's [dct:temporal]
    returns the two stored texts, each the ISO form of the date or, when
    the parser rejects it with [ValueError], the text as it was.  The graph
    must not hold a period for the dataset yet, nor any triple of the
    blank node about to be made. *)
Theorem temporal_round_trip (E : environment) (w : writer) (dataset_dict : pydict)
    (dataset_ref : node) (s e os oe : string) :
  _get_dataset_value dataset_dict "temporal_start" = Ok (VStr s) →
  _get_dataset_value dataset_dict "temporal_end" = Ok (VStr e) →
  Str.truthy s = true → Str.truthy e = true →
  stored_date E s os → stored_date E e oe →
  objects (written w) dataset_ref (DCT "temporal") = [] →
  (∀ p, objects (written w) (BNode (bnode_id E (blank_nodes w))) p = []) →
  ∃ w',
    write_temporal E w dataset_dict dataset_ref = Ok w'
    ∧ objects (written w') dataset_ref (DCT "temporal")
      = [BNode (bnode_id E (blank_nodes w))]
    ∧ _time_interval E (written w') dataset_ref (DCT "temporal") 1
      = Ok (Some os, Some oe)
    ∧ _time_interval E (written w') dataset_ref (DCT "temporal") 2
      = Ok (Some os, Some oe).
Proof.
  intros Hs He Hst Het Hos Hoe Hnone Hfresh.
  set (b := BNode (bnode_id E (blank_nodes w))) in *.
  set (g1 := graph_add (written w) (b, RDF "type", DCT "PeriodOfTime")).
  destruct (add_date_triple_stored E g1 b (SCHEMA "startDate") s os Hst Hos)
    as (ds & Hadd1).
  set (g2 := graph_add g1 (b, SCHEMA "startDate", Literal os None ds)) in *.
  destruct (add_date_triple_stored E g2 b (SCHEMA "endDate") e oe Het Hoe)
    as (de & Hadd2).
  set (g3 := graph_add g2 (b, SCHEMA "endDate", Literal oe None de)) in *.
  set (g4 := graph_add g3 (dataset_ref, DCT "temporal", b)).
  assert (∀ p, p ≠ SCHEMA "startDate" → p ≠ SCHEMA "endDate" → p ≠ RDF "type" →
               p ≠ DCT "temporal" → objects g4 b p = []) as Hb.
  { intros p H1 H2 H3 H4. unfold g4, g3, g2, g1.
    rewrite !objects_graph_add_other by (left; congruence). apply Hfresh. }
  assert (objects g4 dataset_ref (DCT "temporal") = [b]) as Hperiod.
  { unfold g4. rewrite objects_graph_add_same.
    unfold g3, g2, g1. rewrite !objects_graph_add_other by distinct.
    rewrite Hnone. by rewrite decide_False by apply not_elem_of_nil. }
  assert (_object_value E g4 b (SCHEMA "startDate") = os) as Hstart.
  { apply (object_value_single_literal _ _ _ _ _ ds).
    unfold g4, g3. rewrite !objects_graph_add_other by distinct.
    unfold g2. rewrite objects_graph_add_same.
    unfold g1. rewrite !objects_graph_add_other by distinct.
    rewrite Hfresh. by rewrite decide_False by apply not_elem_of_nil. }
  assert (_object_value E g4 b (SCHEMA "endDate") = oe) as Hend.
  { apply (object_value_single_literal _ _ _ _ _ de).
    unfold g4. rewrite !objects_graph_add_other by distinct.
    unfold g3. rewrite objects_graph_add_same.
    unfold g2, g1. rewrite !objects_graph_add_other by distinct.
    rewrite Hfresh. by rewrite decide_False by apply not_elem_of_nil. }
  assert (interval_found (Some os, Some oe) = true) as Hfound.
  { unfold interval_found. cbn [fst opt_truthy].
    by rewrite (stored_date_truthy E s os). }
  assert (_read_time_interval_schema_org E g4 dataset_ref (DCT "temporal")
          = (Some os, Some oe)) as Hschema.
  { unfold _read_time_interval_schema_org. rewrite Hperiod.
    cbn [_read_time_interval_pair]. rewrite Hstart, Hend. by rewrite Hfound. }
  exists {| written := g4; blank_nodes := S (blank_nodes w) |}.
  split; [|split; [exact Hperiod | split]].
  - unfold write_temporal. rewrite Hs, He.
    cbn [mbind result_bind bind truthy]. rewrite Hst, Het. cbn [orb].
    unfold new_bnode, on_graph. cbn [add written blank_nodes].
    fold b. fold g1. rewrite Hadd1. cbn [mbind result_bind bind written].
    fold g2. rewrite Hadd2. done.
  - unfold _time_interval. cbn [Z.eqb Pos.eqb written].
    by rewrite Hschema, Hfound.
  - unfold _time_interval. cbn [Z.eqb Pos.eqb written].
    assert (_read_time_interval_dcat E g4 dataset_ref (DCT "temporal")
            = (Some EmptyString, Some EmptyString)) as ->.
    { unfold _read_time_interval_dcat. rewrite Hperiod.
      cbn [_read_time_interval_pair].
      rewrite !object_value_no_object by (apply Hb; intros Heq; vm_compute in Heq; congruence).
      done. }
    assert (_read_time_interval_time E g4 dataset_ref (DCT "temporal")
            = (None, None)) as ->.
    { unfold _read_time_interval_time. rewrite Hperiod.
      cbn [_read_time_interval_time_loop].
      rewrite !Hb by (intros Heq; vm_compute in Heq; congruence). done. }
    cbn [interval_found fst snd opt_truthy Str.truthy Str.is_empty negb orb].
    by rewrite Hschema.
Qed.

(** A dataset dict with a start the parser understands and an end it does
    not. *)
Definition period_record : pydict :=
  [("temporal_start", VStr "1904");
   ("extras", VList [extra "temporal_end" (VStr "soon")])].

Lemma temporal_round_trip_on_sample :
  ∃ w',
    write_temporal Sample.env {| written := []; blank_nodes := 0 |}
      period_record Sample.dataset = Ok w'
    ∧ objects (written w') Sample.dataset (DCT "temporal") = [BNode "N0000"]
    ∧ _time_interval Sample.env (written w') Sample.dataset (DCT "temporal") 1
      = Ok (Some "1904-01-01T00:00:00", Some "soon")
    ∧ _time_interval Sample.env (written w') Sample.dataset (DCT "temporal") 2
      = Ok (Some "1904-01-01T00:00:00", Some "soon").
Proof.
  refine (temporal_round_trip Sample.env {| written := []; blank_nodes := 0 |}
            period_record Sample.dataset "1904" "soon" _ _
            eq_refl eq_refl eq_refl eq_refl _ _ eq_refl (λ p, eq_refl)).
  - left. eexists. split; reflexivity.
  - right. split; reflexivity.
Defined.

(** ** The place of a dataset, written and read back *)

(** X9. A place name written by [graph_from_dataset] is read back by
    [_spatial]: with a [spatial_text] and no geometry in the dataset dict,
    the graph gets one [dct:Location] node, the cleaned [spatial_uri] if
    there is one and a fresh blank node otherwise, and reading the
    dataset's [dct:spatial] returns the name as the text and the reference
    of the node as the URI.  With neither a name nor a geometry nothing is
    written at all, whatever [spatial_uri] holds. *)
Theorem spatial_round_trip (E : environment) (w : writer) (dataset_dict : pydict)
    (dataset_ref : node) (text_value geom_value uri_value : pyval) :
  _get_dataset_value dataset_dict "spatial_text" = Ok text_value →
  _get_dataset_value dataset_dict "spatial" = Ok geom_value →
  _get_dataset_value dataset_dict "spatial_uri" = Ok uri_value →
  truthy geom_value = false →
  (truthy text_value = false →
   write_spatial E w dataset_dict dataset_ref = Ok w)
  ∧ (∀ text,
       let spatial_ref :=
         if truthy uri_value then CleanedURIRef_new E uri_value
         else BNode (bnode_id E (blank_nodes w)) in
       text_value = VStr text → Str.truthy text = true →
       objects (written w) dataset_ref (DCT "spatial") = [] →
       (∀ p, objects (written w) spatial_ref p = []) →
       ∃ w',
         write_spatial E w dataset_dict dataset_ref = Ok w'
         ∧ objects (written w') dataset_ref (DCT "spatial") = [spatial_ref]
         ∧ _spatial E (written w') dataset_ref (DCT "spatial")
           = Ok {| spatial_uri :=
                     if is_URIRef spatial_ref then Some (node_str spatial_ref)
                     else None;
                   spatial_text := Some text;
                   spatial_geom := None;
                   spatial_bbox := None;
                   spatial_centroid := None |}).
Proof.
  intros Htext Hgeom Huri Hnogeom. split.
  - intros Hnotext. unfold write_spatial. rewrite Htext, Hgeom.
    cbn [mbind result_bind bind]. by rewrite Hnotext, Hnogeom.
  - intros text spatial_ref -> Ht Hnone Hfresh.
    set (g1 := graph_add (written w) (spatial_ref, RDF "type", DCT "Location")).
    set (g2 := graph_add g1 (dataset_ref, DCT "spatial", spatial_ref)).
    set (g3 := graph_add g2 (spatial_ref, SKOS "prefLabel", plain text)).
    assert (∀ p, p ≠ RDF "type" → p ≠ DCT "spatial" → p ≠ SKOS "prefLabel" →
                 objects g3 spatial_ref p = []) as Hother.
    { intros p H1 H2 H3. unfold g3, g2, g1.
      rewrite !objects_graph_add_other by (left; congruence). apply Hfresh. }
    assert (objects g3 dataset_ref (DCT "spatial") = [spatial_ref]) as Hplace.
    { unfold g3. rewrite objects_graph_add_other by distinct.
      unfold g2. rewrite objects_graph_add_same.
      unfold g1. rewrite objects_graph_add_other by distinct.
      rewrite Hnone. by rewrite decide_False by apply not_elem_of_nil. }
    assert (objects g3 spatial_ref (SKOS "prefLabel") = [plain text]) as Hlabel.
    { unfold g3. rewrite objects_graph_add_same.
      unfold g2, g1. rewrite !objects_graph_add_other by distinct.
      rewrite Hfresh. by rewrite decide_False by apply not_elem_of_nil. }
    assert (graph_contains g3 (spatial_ref, RDF "type", DCT "Location") = true)
      as Htyped.
    { apply bool_decide_eq_true_2. unfold g3, g2.
      do 2 apply graph_add_extends. apply elem_of_graph_add. }
    set (w' := {| written := g3;
                  blank_nodes := if truthy uri_value then blank_nodes w
                                 else S (blank_nodes w) |}).
    exists w'. split; [|split; [exact Hplace |]].
    + unfold write_spatial. rewrite Htext, Hgeom.
      cbn [mbind result_bind bind truthy]. rewrite Ht, Hnogeom. cbn [orb].
      unfold _get_or_create_spatial_ref. rewrite Hnone, Huri.
      cbn [filter list_filter mbind result_bind bind].
      unfold w', g3, g2, g1, spatial_ref.
      by destruct (truthy uri_value).
    + unfold _spatial. cbn [written w']. rewrite Hplace.
      cbn [for_each]. unfold _spatial_step. rewrite Htyped.
      unfold _parse_geodata.
      rewrite (Hother (LOCN "geometry")), (Hother (DCAT "bbox")),
        (Hother (DCAT "centroid")) by (intros Heq; vm_compute in Heq; congruence).
      cbn [for_each mbind result_bind bind].
      rewrite Hlabel. cbn [last_label last plain node_str].
      rewrite (Hother (RDFS "label")) by (intros Heq; vm_compute in Heq; congruence).
      cbn [last_label last spatial_uri spatial_text].
      by destruct spatial_ref.
Qed.

(** A dataset dict with a place name and the URI of the place; one with
    the URI alone. *)
Definition place_record : pydict :=
  [("spatial_text", VStr "Berlin");
   ("spatial_uri", VStr "http://example.org/place/berlin ")].

Lemma spatial_round_trip_on_sample :
  write_spatial Sample.env {| written := []; blank_nodes := 0 |}
    [("spatial_uri", VStr "http://example.org/place/berlin")] Sample.dataset
  = Ok {| written := []; blank_nodes := 0 |}
  ∧ ∃ w',
      write_spatial Sample.env {| written := []; blank_nodes := 0 |}
        place_record Sample.dataset = Ok w'
      ∧ objects (written w') Sample.dataset (DCT "spatial")
        = [URIRef "http://example.org/place/berlin"]
      ∧ _spatial Sample.env (written w') Sample.dataset (DCT "spatial")
        = Ok {| spatial_uri := Some "http://example.org/place/berlin";
                spatial_text := Some "Berlin";
                spatial_geom := None;
                spatial_bbox := None;
                spatial_centroid := None |}.
Proof.
  split.
  - exact (proj1 (spatial_round_trip Sample.env {| written := []; blank_nodes := 0 |}
                    [("spatial_uri", VStr "http://example.org/place/berlin")]
                    Sample.dataset VNone VNone
                    (VStr "http://example.org/place/berlin")
                    eq_refl eq_refl eq_refl eq_refl) eq_refl).
  - exact (proj2 (spatial_round_trip Sample.env {| written := []; blank_nodes := 0 |}
                    place_record Sample.dataset (VStr "Berlin") VNone
                    (VStr "http://example.org/place/berlin ")
                    eq_refl eq_refl eq_refl eq_refl)
             "Berlin" eq_refl eq_refl eq_refl (λ p, eq_refl)).
Defined.

(** ** Formats given as a [dct:IMT] node *)

(** X10. For a distribution without [dcat:mediaType] whose [dct:format] is
    a node typed [dct:IMT], the media type is the text of the node's
    [rdf:value] and the label the text of its [rdfs:label].  When the node
    lacks one of them, [str(None)] is taken: the media type or the label
    is then the four-letter text [None], not an absent value. *)
Theorem distribution_format_imt_node (E : environment) (g : graph)
    (distribution _format : node) :
  _object_value E g distribution (DCAT "mediaType") = EmptyString →
  _object g distribution (DCT "format") = Some _format →
  is_Literal _format = false →
  _object g _format (RDF "type") = Some (DCT "IMT") →
  (∀ value label,
     graph_value g _format (RDF "value") = Some value →
     graph_value g _format (RDFS "label") = Some label →
     _distribution_format E g distribution false
     = (Some (node_str value), Some (node_str label)))
  ∧ (graph_value g _format (RDF "value") = None →
     fst (_distribution_format E g distribution false) = Some "None")
  ∧ (graph_value g _format (RDFS "label") = None →
     snd (_distribution_format E g distribution false) = Some "None").
Proof.
  intros Hmedia Hformat Hnode Htype.
  assert (_distribution_format E g distribution false
          = (Some (str_of_optional (graph_value g _format (RDF "value"))),
             Some (str_of_optional (graph_value g _format (RDFS "label"))))) as ->.
  { unfold _distribution_format. rewrite Hmedia, Hformat.
    destruct _format; [| | done]; rewrite Htype;
      rewrite bool_decide_eq_true_2 by done; cbn [opt_truthy Str.truthy Str.is_empty negb];
      by destruct (_ || _). }
  split; [|split].
  - by intros value label -> ->.
  - by intros ->.
  - by intros ->.
Qed.

(** A distribution whose format is an IMT node with a value and a label,
    and one whose IMT node has neither. *)
Definition imt_graph (described : bool) : graph :=
  [(Sample.distribution "1", DCT "format", BNode "f");
   (BNode "f", RDF "type", DCT "IMT")]
  ++ if described
     then [(BNode "f", RDF "value", plain "text/html");
           (BNode "f", RDFS "label", plain "HTML")]
     else [].

Lemma distribution_format_imt_node_on_samples :
  _distribution_format Sample.env (imt_graph true) (Sample.distribution "1") false
  = (Some "text/html", Some "HTML")
  ∧ _distribution_format Sample.env (imt_graph false) (Sample.distribution "1") false
    = (Some "None", Some "None").
Proof.
  split.
  - exact (proj1 (distribution_format_imt_node Sample.env (imt_graph true)
                    (Sample.distribution "1") (BNode "f")
                    eq_refl eq_refl eq_refl eq_refl)
             (plain "text/html") (plain "HTML") eq_refl eq_refl).
  - pose proof (distribution_format_imt_node Sample.env (imt_graph false)
                  (Sample.distribution "1") (BNode "f")
                  eq_refl eq_refl eq_refl eq_refl) as (_ & Hvalue & Hlabel).
    specialize (Hvalue eq_refl). specialize (Hlabel eq_refl).
    destruct (_distribution_format Sample.env (imt_graph false)
                (Sample.distribution "1") false) as [imt label].
    cbn [fst snd] in *. by rewrite Hvalue, Hlabel.
Defined.

(** ** The root catalog *)

(** X11. [_get_root_catalog_ref] fails with [IndexError] exactly when the
    graph has neither a [dct:hasPart] triple nor a node typed
    [dcat:Catalog]; the subject of the first [dct:hasPart] triple is
    preferred to any typed catalog; and with sub-catalogs exposed the
    failure is that of [_get_source_catalog] too. *)
Theorem root_catalog_lookup (g : graph) :
  (_get_root_catalog_ref g = Raise IndexError
   ↔ subjects_of g (DCT "hasPart") = []
     ∧ subjects g (RDF "type") (DCAT "Catalog") = [])
  ∧ (∀ root rest,
       subjects_of g (DCT "hasPart") = root :: rest →
       _get_root_catalog_ref g = Ok root)
  ∧ (∀ root rest,
       subjects_of g (DCT "hasPart") = [] →
       subjects g (RDF "type") (DCAT "Catalog") = root :: rest →
       _get_root_catalog_ref g = Ok root)
  ∧ (∀ E dataset_ref,
       expose_subcatalogs E = true →
       _get_root_catalog_ref g = Raise IndexError →
       _get_source_catalog E g dataset_ref = Raise IndexError).
Proof.
  unfold _get_root_catalog_ref. repeat split.
  - destruct (subjects_of g (DCT "hasPart")); [|done].
    by destruct (subjects g (RDF "type") (DCAT "Catalog")).
  - destruct (subjects_of g (DCT "hasPart")); [|done].
    by destruct (subjects g (RDF "type") (DCAT "Catalog")).
  - by intros [-> ->].
  - by intros root rest ->.
  - by intros root rest -> ->.
  - intros E dataset_ref Hexpose Hroot. unfold _get_source_catalog.
    rewrite Hexpose. cbn [negb]. unfold _get_root_catalog_ref. by rewrite Hroot.
Qed.

(** A catalog with a part, listed after a typed catalog. *)
Definition nested_catalogs : graph :=
  [(Sample.catalog "typed", RDF "type", DCAT "Catalog");
   (Sample.catalog "root", DCT "hasPart", Sample.catalog "typed")].

Lemma root_catalog_lookup_on_samples :
  _get_root_catalog_ref [] = Raise IndexError
  ∧ _get_root_catalog_ref nested_catalogs = Ok (Sample.catalog "root")
  ∧ _get_root_catalog_ref [(Sample.catalog "typed", RDF "type", DCAT "Catalog")]
    = Ok (Sample.catalog "typed")
  ∧ _get_source_catalog Sample.env_subcatalogs [] Sample.dataset = Raise IndexError.
Proof.
  split; [|split; [|split]].
  - by apply (proj1 (root_catalog_lookup [])).
  - exact (proj1 (proj2 (root_catalog_lookup nested_catalogs))
             (Sample.catalog "root") [] eq_refl).
  - exact (proj1 (proj2 (proj2 (root_catalog_lookup
             [(Sample.catalog "typed", RDF "type", DCAT "Catalog")])))
             (Sample.catalog "typed") [] eq_refl eq_refl).
  - exact (proj2 (proj2 (proj2 (root_catalog_lookup [])))
             Sample.env_subcatalogs Sample.dataset eq_refl eq_refl).
Defined.

(** ** Updating a temporal entry *)

(** An extras entry whose key is not [key]. *)
Definition keyed_otherwise (key : string) (e : pyval) : Prop :=
  ∃ entry k, e = VDict entry ∧ dict_get entry "key" = Some k ∧ is_text k key = false.

Lemma insert_or_update_loop_absent (key : string) (value : pyval) (items : list pyval) :
  Forall (keyed_otherwise key) items →
  _insert_or_update_temporal_loop items key value = Ok None.
Proof.
  induction 1 as [|e items (entry & k & -> & Hk & Hne) _ IH]; [done |].
  cbn [_insert_or_update_temporal_loop py_item]. unfold dict_item. rewrite Hk.
  cbn [mbind result_bind bind]. rewrite Hne, IH. done.
Qed.

Lemma insert_or_update_loop_found (key : string) (value : pyval)
    (pre rest : list pyval) (entry : pydict) :
  Forall (keyed_otherwise key) pre →
  dict_get entry "key" = Some (VStr key) →
  _insert_or_update_temporal_loop (pre ++ VDict entry :: rest) key value
  = Ok (Some (pre ++ VDict (dict_set entry "value" value) :: rest)).
Proof.
  intros Hpre Hkey.
  induction Hpre as [|e pre (entry' & k & -> & Hk & Hne) _ IH].
  - cbn [app _insert_or_update_temporal_loop py_item]. unfold dict_item.
    rewrite Hkey. cbn [mbind result_bind bind is_text].
    by rewrite bool_decide_eq_true_2.
  - cbn [app _insert_or_update_temporal_loop py_item]. unfold dict_item.
    rewrite Hk. cbn [mbind result_bind bind]. rewrite Hne, IH. done.
Qed.

Lemma dict_set_set (d : pydict) (key : string) (v v' : pyval) :
  dict_set (dict_set d key v) key v' = dict_set d key v'.
Proof.
  induction d as [|[k w] d IH]; cbn [dict_set].
  - by rewrite decide_True.
  - destruct (decide (k = key)) as [->|Hne]; cbn [dict_set].
    + by rewrite decide_True.
    + rewrite decide_False by done. by rewrite IH.
Qed.

(** X12. [_insert_or_update_temporal] keeps one entry per key: when no
    extras entry has the key, the entry is appended, as the parser of
    DCAT-AP 1 would append it; when one has, the first such entry gets the
    new value and nothing else changes; so a second call replaces the value
    of the first instead of adding an entry.  A dict without [extras] makes
    it fail with [KeyError]. *)
Theorem insert_or_update_temporal_outcome (dataset_dict : pydict) (key : string)
    (items : list pyval) :
  (∀ value,
     dict_get dataset_dict "extras" = Some (VList items) →
     Forall (keyed_otherwise key) items →
     _insert_or_update_temporal dataset_dict key (VStr value)
     = Ok (add_extra dataset_dict key value))
  ∧ (∀ value pre entry rest,
       dict_get dataset_dict "extras" = Some (VList items) →
       items = pre ++ VDict entry :: rest →
       Forall (keyed_otherwise key) pre →
       dict_get entry "key" = Some (VStr key) →
       _insert_or_update_temporal dataset_dict key value
       = Ok (dict_set dataset_dict "extras"
               (VList (pre ++ VDict (dict_set entry "value" value) :: rest))))
  ∧ (∀ first second,
       dict_get dataset_dict "extras" = Some (VList items) →
       Forall (keyed_otherwise key) items →
       (d ← _insert_or_update_temporal dataset_dict key (VStr first);
        _insert_or_update_temporal d key (VStr second))
       = Ok (add_extra dataset_dict key second))
  ∧ (∀ value,
       dict_get dataset_dict "extras" = None →
       _insert_or_update_temporal dataset_dict key value = Raise KeyError).
Proof.
  assert (∀ d l value,
            dict_get d "extras" = Some (VList l) →
            Forall (keyed_otherwise key) l →
            _insert_or_update_temporal d key (VStr value)
            = Ok (add_extra d key value)) as Habsent.
  { intros d l value Hextras Hall.
    unfold _insert_or_update_temporal, dict_item, add_extra, dict_append.
    rewrite Hextras. cbn [mbind result_bind bind py_iter].
    by rewrite insert_or_update_loop_absent. }
  assert (∀ d value pre entry rest,
            dict_get d "extras" = Some (VList (pre ++ VDict entry :: rest)) →
            Forall (keyed_otherwise key) pre →
            dict_get entry "key" = Some (VStr key) →
            _insert_or_update_temporal d key value
            = Ok (dict_set d "extras"
                    (VList (pre ++ VDict (dict_set entry "value" value) :: rest))))
    as Hfound.
  { intros d value pre entry rest Hextras Hpre Hkey.
    unfold _insert_or_update_temporal, dict_item.
    rewrite Hextras. cbn [mbind result_bind bind py_iter].
    by rewrite insert_or_update_loop_found. }
  split; [|split; [|split]].
  - intros value. apply Habsent.
  - intros value pre entry rest Hextras ->. by apply Hfound.
  - intros first second Hextras Hall.
    rewrite (Habsent _ _ _ Hextras Hall). cbn [mbind result_bind bind].
    unfold add_extra, dict_append. rewrite Hextras.
    rewrite (Hfound _ _ items [("key", VStr key); ("value", VStr first)] []);
      [| apply dict_get_set_eq | done | done].
    by rewrite dict_set_set.
  - intros value Hnone. unfold _insert_or_update_temporal, dict_item.
    by rewrite Hnone.
Qed.

(** A dataset dict whose extras hold a theme and a start. *)
Definition dict_with_start : pydict :=
  [("extras", VList [extra "theme" (VStr "a"); extra "temporal_start" (VStr "1904")])].

Lemma insert_or_update_temporal_on_sample :
  _insert_or_update_temporal dict_with_start "temporal_end" (VStr "1905")
  = Ok (add_extra dict_with_start "temporal_end" "1905")
  ∧ _insert_or_update_temporal dict_with_start "temporal_start" (VStr "1900")
    = Ok [("extras",
           VList [extra "theme" (VStr "a"); extra "temporal_start" (VStr "1900")])]
  ∧ (d ← _insert_or_update_temporal dict_with_start "temporal_end" (VStr "1905");
     _insert_or_update_temporal d "temporal_end" (VStr "1906"))
    = Ok (add_extra dict_with_start "temporal_end" "1906")
  ∧ _insert_or_update_temporal [("title", VStr "T")] "temporal_end" (VStr "1905")
    = Raise KeyError.
Proof.
  assert (Forall (keyed_otherwise "temporal_end")
            [extra "theme" (VStr "a"); extra "temporal_start" (VStr "1904")]) as Hend.
  { repeat constructor; eexists _, _; (split; [reflexivity | split; reflexivity]). }
  split; [|split; [|split]].
  - exact (proj1 (insert_or_update_temporal_outcome dict_with_start "temporal_end" _)
             "1905" eq_refl Hend).
  - refine (proj1 (proj2 (insert_or_update_temporal_outcome dict_with_start
                            "temporal_start" _))
              (VStr "1900") [extra "theme" (VStr "a")] _ [] eq_refl eq_refl _ eq_refl).
    repeat constructor; eexists _, _; (split; [reflexivity | split; reflexivity]).
  - exact (proj1 (proj2 (proj2
             (insert_or_update_temporal_outcome dict_with_start "temporal_end" _)))
             "1905" "1906" eq_refl Hend).
  - exact (proj2 (proj2 (proj2
             (insert_or_update_temporal_outcome [("title", VStr "T")] "temporal_end" [])))
             (VStr "1905") eq_refl).
Defined.

(** ** Access services *)

Lemma dict_get_set_if_truthy (d : pydict) (key key' value : string) :
  key ≠ key' → dict_get (set_if_truthy d key value) key' = dict_get d key'.
Proof.
  intros Hne. unfold set_if_truthy. destruct (Str.truthy value); [|done].
  by apply dict_get_set_ne.
Qed.

(** X13. In the dict [EuropeanDCATAP2Profile.parse_dataset] makes for an
    access service, the lists [endpoint_url] and [serves_dataset] are
    stored under the test [if value:], and [value] is by then the
    [dct:description] of the service, the last of the simple values read:
    the two lists are present exactly when the service has a description,
    whether or not the service has an endpoint.  The URI and the internal
    reference are always present. *)
Theorem access_service_lists_follow_description (E : environment) (g : graph)
    (access_service : node) (value : string) :
  let d := fst (parse_access_service E g access_service value) in
  let description := _object_value E g access_service (DCT "description") in
  dict_get d "endpoint_url"
  = (if Str.truthy description
     then Some (VList (VStr <$> _object_value_list g access_service (DCAT "endpointURL")))
     else None)
  ∧ dict_get d "serves_dataset"
    = (if Str.truthy description
       then Some (VList (VStr <$> _object_value_list g access_service
                                    (DCAT "servesDataset")))
       else None)
  ∧ dict_get d "uri" = Some (VStr (uri_or_empty access_service))
  ∧ dict_get d "access_service_ref" = Some (VStr (node_str access_service)).
Proof.
  intros d description. unfold d, parse_access_service. cbn [fst].
  change (last_value E g access_service access_service_simple_values value)
    with description.
  set (simple := copy_values E g [] access_service access_service_simple_values).
  assert (∀ key, key ≠ "availability" → key ≠ "title" → key ≠ "endpoint_description" →
                 key ≠ "license" → key ≠ "accessRights" → key ≠ "description" →
                 dict_get simple key = None) as Hsimple.
  { intros key H1 H2 H3 H4 H5 H6. unfold simple, copy_values.
    cbn [fold_left access_service_simple_values].
    by rewrite !dict_get_set_if_truthy by done. }
  unfold access_service_list_values. cbn [fold_left].
  destruct (Str.truthy description).
  - repeat split.
    + rewrite !dict_get_set_ne by done. by rewrite dict_get_set_eq.
    + rewrite !dict_get_set_ne by done. by rewrite dict_get_set_eq.
    + rewrite dict_get_set_ne by done. by rewrite dict_get_set_eq.
    + by rewrite dict_get_set_eq.
  - repeat split.
    + rewrite !dict_get_set_ne by done. by apply Hsimple.
    + rewrite !dict_get_set_ne by done. by apply Hsimple.
    + rewrite dict_get_set_ne by done. by rewrite dict_get_set_eq.
    + by rewrite dict_get_set_eq.
Qed.

Lemma parse_access_services_outcome (E : environment) (g : graph)
    (services : list node) (done_ : list pyval) (value : string) :
  fst (fold_left
         (λ '(access_service_list, value) access_service,
            let '(access_service_dict, value) :=
              parse_access_service E g access_service value in
            (access_service_list ++ [VDict access_service_dict], value))
         services (done_, value))
  = done_ ++ ((λ s, VDict (fst (parse_access_service E g s EmptyString))) <$> services).
Proof.
  revert done_ value. induction services as [|s services IH]; intros done_ value.
  - cbn. by rewrite app_nil_r.
  - cbn [fold_left fmap list_fmap].
    destruct (parse_access_service E g s value) as [d v] eqn:Hd.
    rewrite IH, <- app_assoc. cbn [app]. do 3 f_equal.
    change d with (fst (d, v)). by rewrite <- Hd.
Qed.

(** X14. The access services of a distribution are stored in its resource
    dict as the JSON text of the list of their dicts, in the order of the
    graph; reading them once for each of the three simple values, as the
    loop does, gives what reading them once gives.  A distribution without
    access services leaves the key [access_services] of the resource dict
    as it was. *)
Theorem access_services_of_distribution (E : environment) (g : graph)
    (distribution : node) (resource_dict : pydict) :
  dict_get (parse_distribution_v2 E g distribution resource_dict) "access_services"
  = match objects g distribution (DCAT "accessService") with
    | [] => dict_get resource_dict "access_services"
    | services =>
        Some (VStr (json_dumps E
                      (VList ((λ s, VDict (fst (parse_access_service E g s EmptyString)))
                              <$> services))))
    end.
Proof.
  unfold parse_distribution_v2, resource_simple_values_v2, parse_access_services.
  cbn [fold_left].
  repeat match goal with
         | |- context [fold_left ?f ?l (?a, ?v)] =>
             let H := fresh in
             pose proof (parse_access_services_outcome E g l a v) as H;
             cbv beta in H;
             destruct (fold_left f l (a, v)) as [? ?];
             cbn [fst app] in H; subst
         end.
  destruct (objects g distribution (DCAT "accessService")) as [|service services].
  - cbn [fmap list_fmap]. by rewrite !dict_get_set_if_truthy by done.
  - cbn [fmap list_fmap]. by rewrite dict_get_set_eq.
Qed.

(** ** The catalog *)

Lemma add_date_triple_objects_other (E : environment) (g g' : graph)
    (subject predicate : node) (value : pyval) (_type : term_type) (s p : node) :
  _add_date_triple E g subject predicate value _type = Ok g' →
  predicate ≠ p →
  objects g' s p = objects g s p.
Proof.
  unfold _add_date_triple. intros H Hne.
  steps; try done; by apply objects_graph_add_other; left.
Qed.

(** One pass of the loop of [graph_from_catalog] over its items. *)
Lemma catalog_item_outcome (E : environment) (g g' : graph) (catalog_dict : pyval)
    (catalog_ref predicate : node) (key : string) (fallback : pyval)
    (_type : term_type) :
  (value ← (if truthy catalog_dict then py_get catalog_dict key fallback
            else Ok fallback);
   if truthy value then
     object ← make_term E _type value None;
     Ok (graph_add g (catalog_ref, predicate, object))
   else Ok g) = Ok g' →
  ∃ value,
    (if truthy catalog_dict then py_get catalog_dict key fallback else Ok fallback)
    = Ok value
    ∧ if truthy value
      then ∃ object, make_term E _type value None = Ok object
                     ∧ g' = graph_add g (catalog_ref, predicate, object)
      else g' = g.
Proof.
  intros H. apply bind_Ok in H as (value & Hvalue & H). exists value.
  split; [done |]. destruct (truthy value).
  - apply bind_Ok in H as (object & Hobject & [= <-]). by exists object.
  - by injection H.
Qed.

Lemma catalog_item_extends (E : environment) (g g' : graph)
    (catalog_ref predicate : node) (value : pyval) (_type : term_type) :
  (if truthy value
   then ∃ object, make_term E _type value None = Ok object
                  ∧ g' = graph_add g (catalog_ref, predicate, object)
   else g' = g) →
  extends g g'
  ∧ ∀ s p, predicate ≠ p → objects g' s p = objects g s p.
Proof.
  destruct (truthy value).
  - intros (object & _ & ->). split; [apply graph_add_extends |].
    intros s p Hne. apply objects_graph_add_other. by left.
  - intros ->. split; [apply extends_refl | done].
Qed.

(** X15. [graph_from_catalog] only adds to the graph and types the catalog
    [dcat:Catalog].  A catalog dict that is [None] or empty takes every
    field from the site configuration, so the site title becomes the
    [dct:title].  A catalog dict that holds a key takes the field from the
    dict even when the value there is empty: an empty [title] in the dict
    means that no title is written, the site title notwithstanding. *)
Theorem graph_from_catalog_outcome (E : environment) (conf : site) (g g' : graph)
    (catalog_dict : pyval) (catalog_ref : node) :
  graph_from_catalog E conf g catalog_dict catalog_ref = Ok g' →
  extends g g'
  ∧ (catalog_ref, RDF "type", DCAT "Catalog") ∈ g'
  ∧ (truthy catalog_dict = false → truthy (site_title conf) = true →
     Literal_new E (site_title conf) None ∈ objects g' catalog_ref (DCT "title"))
  ∧ (∀ d value,
       catalog_dict = VDict d → dict_get d "title" = Some value →
       truthy value = false →
       objects g' catalog_ref (DCT "title") = objects g catalog_ref (DCT "title")).
Proof.
  unfold graph_from_catalog, catalog_items. intros H.
  apply bind_Ok in H as (g4 & Hitems & H). cbn [for_each] in Hitems.
  apply bind_Ok in Hitems as (g1 & H1 & Hitems).
  apply bind_Ok in Hitems as (g2 & H2 & Hitems).
  apply bind_Ok in Hitems as (g3 & H3 & Hitems).
  apply bind_Ok in Hitems as (g4' & H4 & [= ->]).
  apply catalog_item_outcome in H1 as (v1 & Hv1 & H1).
  apply catalog_item_outcome in H2 as (v2 & _ & H2).
  apply catalog_item_outcome in H3 as (v3 & _ & H3).
  apply catalog_item_outcome in H4 as (v4 & _ & H4).
  pose proof (catalog_item_extends _ _ _ _ _ _ _ H1) as [He1 _].
  apply catalog_item_extends in H2 as [He2 Ho2].
  apply catalog_item_extends in H3 as [He3 Ho3].
  apply catalog_item_extends in H4 as [He4 Ho4].
  apply bind_Ok in H as (modified & _ & H).
  assert (extends g4 g' ∧ ∀ s p, DCT "modified" ≠ p → objects g' s p = objects g4 s p)
    as [He5 Ho5].
  { destruct (truthy modified).
    - split; [by eapply add_date_triple_extends |].
      intros s p Hne. by eapply add_date_triple_objects_other.
    - injection H as <-. split; [apply extends_refl | done]. }
  set (g0 := graph_add g (catalog_ref, RDF "type", DCAT "Catalog")) in *.
  assert (extends g0 g') as Hg0.
  { repeat (eapply extends_trans; [|eassumption]). apply extends_refl. }
  assert (objects g' catalog_ref (DCT "title") = objects g1 catalog_ref (DCT "title"))
    as Htitle.
  { rewrite Ho5, Ho4, Ho3, Ho2; [done | | | |];
      intros Heq; vm_compute in Heq; congruence. }
  split; [|split; [|split]].
  - eapply extends_trans; [apply graph_add_extends | exact Hg0].
  - apply Hg0, elem_of_graph_add.
  - intros Hnone Hsite. rewrite Hnone in Hv1. injection Hv1 as <-.
    rewrite Hsite in H1. destruct H1 as (object & [= <-] & ->).
    rewrite Htitle. apply elem_of_objects, elem_of_graph_add.
  - intros d value -> Hd Hempty. cbn [py_get] in Hv1.
    assert (truthy (VDict d) = true) as Hd' by (by destruct d).
    rewrite Hd', Hd in Hv1. injection Hv1 as <-.
    rewrite Hempty in H1. subst g1. rewrite Htitle.
    apply objects_graph_add_other. distinct.
Qed.

(** A site with a title and a URL, whose search finds nothing. *)
Definition sample_site : site :=
  {| site_title := VStr "Open data";
     site_description := VNone;
     site_url := VStr "http://example.org";
     package_search := Ok (VDict [("results", VList [])]) |}.

Lemma graph_from_catalog_on_samples :
  ∃ g1 g2,
    graph_from_catalog Sample.env sample_site [] VNone (Sample.catalog "1") = Ok g1
    ∧ plain "Open data" ∈ objects g1 (Sample.catalog "1") (DCT "title")
    ∧ graph_from_catalog Sample.env sample_site []
        (VDict [("title", VStr "")]) (Sample.catalog "1") = Ok g2
    ∧ objects g2 (Sample.catalog "1") (DCT "title") = [].
Proof.
  eexists _, _.
  split; [vm_compute; reflexivity |].
  split.
  - exact (proj1 (proj2 (proj2
             (graph_from_catalog_outcome Sample.env sample_site [] _ VNone
                (Sample.catalog "1") ltac:(vm_compute; reflexivity))))
             eq_refl eq_refl).
  - split; [vm_compute; reflexivity |].
    exact (proj2 (proj2 (proj2
             (graph_from_catalog_outcome Sample.env sample_site [] _
                (VDict [("title", VStr "")]) (Sample.catalog "1")
                ltac:(vm_compute; reflexivity))))
             [("title", VStr "")] (VStr "") eq_refl eq_refl eq_refl).
Defined.

(** ** The contact point of a dataset, written and read back *)

Lemma add_mailto_bare (E : environment) (m : string) :
  Str.truthy m = true → Str.contains PREFIX_MAILTO m = false →
  _add_mailto E (VStr m) = VStr (PREFIX_MAILTO +:+ m).
Proof.
  intros Hm Habsent. unfold _add_mailto, _without_mailto_value.
  cbn [truthy]. rewrite Hm. cbn [py_str].
  assert (Str.replace PREFIX_MAILTO EmptyString m = m) as ->; [|done].
  by apply (ReplaceFacts.replace_from_absent PREFIX_MAILTO).
Qed.

Lemma without_mailto_prefixed (m : string) :
  Str.contains PREFIX_MAILTO m = false →
  _without_mailto (PREFIX_MAILTO +:+ m) = m.
Proof.
  intros Habsent. unfold _without_mailto.
  replace (Str.truthy (PREFIX_MAILTO +:+ m)) with true by reflexivity.
  unfold Str.replace, PREFIX_MAILTO.
  rewrite (ReplaceFacts.replace_from_prefix "mailto:" EmptyString m) by done.
  rewrite CleaningFacts.app_nil. by apply ReplaceFacts.replace_from_absent.
Qed.

Lemma object_value_single_reference (E : environment) (g : graph) (s p : node)
    (iri : string) :
  objects g s p = [URIRef iri] → _object_value E g s p = iri.
Proof. intros H. unfold _object_value. by rewrite H. Qed.

(** X16. A contact written by [graph_from_dataset] is read back by
    [_contact_details]: for a dataset dict with a contact name and a
    contact address that holds no [mailto:] and needs no cleaning, the
    graph gets one [vcard:Organization] node, the cleaned [contact_uri] or
    a fresh blank node, with the name as [vcard:fn] and the address as a
    [mailto:] reference, and reading the dataset's [dcat:contactPoint]
    returns the URI of the node (empty for a blank node), the name, and the
    address without the prefix. *)
Theorem contact_round_trip (E : environment) (w : writer) (dataset_dict : pydict)
    (dataset_ref : node) (lookup : string → pyval) (name address : string) :
  let contact :=
    if truthy (lookup "contact_uri") then CleanedURIRef_new E (lookup "contact_uri")
    else BNode (bnode_id E (blank_nodes w)) in
  (∀ key, _get_dataset_value dataset_dict key = Ok (lookup key)) →
  lookup "contact_name" = VStr name → Str.truthy name = true →
  lookup "contact_email" = VStr address → Str.truthy address = true →
  Str.contains PREFIX_MAILTO address = false →
  CleanedURIRef.new (PREFIX_MAILTO +:+ address) = URIRef (PREFIX_MAILTO +:+ address) →
  objects (written w) dataset_ref (DCAT "contactPoint") = [] →
  (∀ p, objects (written w) contact p = []) →
  ∃ w',
    write_contact E w dataset_dict dataset_ref = Ok w'
    ∧ objects (written w') dataset_ref (DCAT "contactPoint") = [contact]
    ∧ _contact_details E (written w') dataset_ref (DCAT "contactPoint")
      = [("uri", VStr (uri_or_empty contact)); ("name", VStr name);
         ("email", VStr address)].
Proof.
  intros contact Hlookup Hname Hn Hmail Hm Habsent Hclean Hnone Hfresh.
  set (g1 := graph_add (written w) (contact, RDF "type", VCARD "Organization")).
  set (g2 := graph_add g1 (dataset_ref, DCAT "contactPoint", contact)).
  set (g3 := graph_add g2 (contact, VCARD "fn", plain name)).
  set (g4 := graph_add g3 (contact, VCARD "hasEmail", URIRef (PREFIX_MAILTO +:+ address))).
  assert (∀ p, p ≠ RDF "type" → p ≠ DCAT "contactPoint" → p ≠ VCARD "fn" →
               p ≠ VCARD "hasEmail" → objects g4 contact p = []) as Hother.
  { intros p H1 H2 H3 H4. unfold g4, g3, g2, g1.
    rewrite !objects_graph_add_other by (left; congruence). apply Hfresh. }
  assert (objects g4 dataset_ref (DCAT "contactPoint") = [contact]) as Hpoint.
  { unfold g4, g3. rewrite !objects_graph_add_other by distinct.
    unfold g2. rewrite objects_graph_add_same.
    unfold g1. rewrite objects_graph_add_other by distinct.
    rewrite Hnone. by rewrite decide_False by apply not_elem_of_nil. }
  assert (objects g4 contact (VCARD "fn") = [plain name]) as Hfn.
  { unfold g4. rewrite objects_graph_add_other by distinct.
    unfold g3. rewrite objects_graph_add_same.
    unfold g2, g1. rewrite !objects_graph_add_other by distinct.
    rewrite Hfresh. by rewrite decide_False by apply not_elem_of_nil. }
  assert (objects g4 contact (VCARD "hasEmail") = [URIRef (PREFIX_MAILTO +:+ address)])
    as Hemail.
  { unfold g4. rewrite objects_graph_add_same.
    unfold g3, g2, g1. rewrite !objects_graph_add_other by distinct.
    rewrite Hfresh. by rewrite decide_False by apply not_elem_of_nil. }
  assert (∀ g, _add_triple_from_dict E g dataset_dict contact (VCARD "fn")
                 "contact_name" ["maintainer"; "author"] false false TLiteral None None
               = Ok (graph_add g (contact, VCARD "fn", plain name))) as Hadd_name.
  { intros g. unfold _add_triple_from_dict.
    pose proof (Hlookup "contact_name") as Hl. unfold _get_dataset_value in Hl.
    rewrite Hl, Hname. cbn [mbind result_bind bind truthy]. rewrite Hn.
    cbn [negb andb mbind result_bind bind truthy]. by rewrite Hn. }
  assert (∀ g, _add_triple_from_dict E g dataset_dict contact (VCARD "hasEmail")
                 "contact_email" ["maintainer_email"; "author_email"] false false
                 TURIRef None (Some (_add_mailto E))
               = Ok (graph_add g (contact, VCARD "hasEmail",
                                  URIRef (PREFIX_MAILTO +:+ address)))) as Hadd_mail.
  { intros g. unfold _add_triple_from_dict.
    pose proof (Hlookup "contact_email") as Hl. unfold _get_dataset_value in Hl.
    rewrite Hl, Hmail. cbn [mbind result_bind bind truthy]. rewrite Hm.
    cbn [negb andb mbind result_bind bind truthy].
    rewrite add_mailto_bare by done. rewrite ?Hm. cbn [truthy].
    replace (Str.truthy (PREFIX_MAILTO +:+ address)) with true by reflexivity.
    cbn [andb cleaned make_object opt_truthy make_term CleanedURIRef_new
         mbind result_bind bind].
    by rewrite Hclean. }
  exists {| written := g4;
            blank_nodes := if truthy (lookup "contact_uri") then blank_nodes w
                           else S (blank_nodes w) |}.
  split; [|split; [exact Hpoint |]].
  - unfold write_contact. cbn [map_result]. rewrite !Hlookup.
    cbn [mbind result_bind bind existsb]. rewrite Hname. cbn [truthy]. rewrite Hn.
    rewrite orb_true_r. fold contact.
    unfold contact, g4, g3, g2, g1.
    destruct (truthy (lookup "contact_uri"));
      unfold new_bnode, on_graph; cbn [add written blank_nodes];
      rewrite Hadd_name; cbn [mbind result_bind bind written blank_nodes];
      by rewrite Hadd_mail.
  - unfold _contact_details. cbn [written]. rewrite Hpoint.
    cbn [fold_left]. unfold _contact_step, _get_vcard_property_value.
    replace (Str.truthy (node_str (VCARD "fn"))) with true by reflexivity.
    rewrite (object_value_single_literal E g4 contact (VCARD "fn") name None Hfn).
    rewrite Hn. unfold _object. rewrite Hemail. cbn [head].
    rewrite (object_value_single_reference E g4 contact (VCARD "hasEmail") _ Hemail).
    cbn [Str.truthy Str.is_empty negb].
    by rewrite without_mailto_prefixed.
Qed.

(** A dataset dict with a contact name and address. *)
Definition contact_record : pydict :=
  [("contact_name", VStr "Ada"); ("contact_email", VStr "ada@example.org")].

Lemma contact_round_trip_on_sample :
  ∃ w',
    write_contact Sample.env {| written := []; blank_nodes := 0 |}
      contact_record Sample.dataset = Ok w'
    ∧ objects (written w') Sample.dataset (DCAT "contactPoint") = [BNode "N0000"]
    ∧ _contact_details Sample.env (written w') Sample.dataset (DCAT "contactPoint")
      = [("uri", VStr ""); ("name", VStr "Ada"); ("email", VStr "ada@example.org")].
Proof.
  refine (contact_round_trip Sample.env {| written := []; blank_nodes := 0 |}
            contact_record Sample.dataset (dict_get_value contact_record)
            "Ada" "ada@example.org" _
            eq_refl eq_refl eq_refl eq_refl eq_refl eq_refl eq_refl (λ p, eq_refl)).
  intros key. unfold _get_dataset_value, _get_dict_value, dict_get_value.
  destruct (dict_get contact_record key) eqn:Hkey; [done |].
  reflexivity.
Defined.

(** ** Geometries *)

(** A literal that [_parse_geodata] reads as GeoJSON: typed with the
    GeoJSON media type or not typed at all, and accepted by [json.loads]. *)
Definition geojson_literal (E : environment) (text : string) (o : node) : Prop :=
  ∃ language datatype value,
    o = Literal text language datatype
    ∧ (datatype = Some GEOJSON_IMT ∨ opt_truthy datatype = false)
    ∧ json_loads E text = Ok value.

(** A literal of another type, a WKT literal for one. *)
Definition other_typed_literal (o : node) : Prop :=
  ∃ text language datatype,
    o = Literal text language (Some datatype)
    ∧ datatype ≠ GEOJSON_IMT ∧ Str.truthy datatype = true.

Lemma parse_geodata_step_geojson (E : environment) (cur : option string)
    (text : string) (o : node) :
  geojson_literal E text o → _parse_geodata_step E cur o = Ok (Some text).
Proof.
  intros (language & datatype & value & -> & Hdt & Hjson).
  unfold _parse_geodata_step. cbn [literal_datatype mbind result_bind bind node_str].
  rewrite Hjson. cbn [mbind result_bind bind try_except].
  destruct Hdt as [-> | Hdt].
  - rewrite (bool_decide_eq_true_2 (Some GEOJSON_IMT = Some GEOJSON_IMT)) by done.
    cbn [orb mbind result_bind bind].
    rewrite (bool_decide_eq_false_2 (Some GEOJSON_IMT = _)), andb_false_r; [done |].
    intros Heq. vm_compute in Heq. congruence.
  - rewrite Hdt. cbn [negb]. rewrite orb_true_r. cbn [mbind result_bind bind].
    rewrite (bool_decide_eq_false_2 (datatype = _)), andb_false_r; [done |].
    intros ->. vm_compute in Hdt. congruence.
Qed.

Lemma parse_geodata_step_other (E : environment) (cur : option string) (o : node) :
  other_typed_literal o → opt_truthy cur = true →
  _parse_geodata_step E cur o = Ok cur.
Proof.
  intros (text & language & datatype & -> & Hne & Hdt) Hcur.
  unfold _parse_geodata_step. cbn [literal_datatype mbind result_bind bind].
  rewrite (bool_decide_eq_false_2 (Some datatype = Some GEOJSON_IMT)) by congruence.
  cbn [opt_truthy]. rewrite Hdt. cbn [negb orb mbind result_bind bind].
  by rewrite Hcur.
Qed.

Lemma parse_geodata_others (E : environment) (cur : option string) (os : list node) :
  Forall other_typed_literal os → opt_truthy cur = true →
  for_each (_parse_geodata_step E) os cur = Ok cur.
Proof.
  induction 1 as [|o os Ho _ IH]; intros Hcur; [done |].
  cbn [for_each]. rewrite parse_geodata_step_other by done. by apply IH.
Qed.

(** X17. [_parse_geodata] prefers GeoJSON: the text of the last geometry
    that reads as GeoJSON is the result, whatever WKT or other typed
    literals follow it and whatever the literals before it gave.  A WKT
    literal is converted only while no value has been found.  A geometry
    that is not a literal has no [datatype] and aborts the call with
    [AttributeError]. *)
Theorem parse_geodata_prefers_geojson (E : environment) (g : graph)
    (spatial datatype : node) (cur_value : option string) :
  (∀ pre o post text before,
     objects g spatial datatype = pre ++ o :: post →
     for_each (_parse_geodata_step E) pre cur_value = Ok before →
     geojson_literal E text o → Str.truthy text = true →
     Forall other_typed_literal post →
     _parse_geodata E g spatial datatype cur_value = Ok (Some text))
  ∧ (∀ wkt language converted,
       objects g spatial datatype
       = [Literal wkt language (Some (node_str (GSP "wktLiteral")))] →
       wkt_to_geojson E wkt = Ok converted →
       _parse_geodata E g spatial datatype cur_value
       = Ok (if opt_truthy cur_value then cur_value else Some converted))
  ∧ (∀ o rest,
       objects g spatial datatype = o :: rest → is_Literal o = false →
       _parse_geodata E g spatial datatype cur_value = Raise AttributeError).
Proof.
  unfold _parse_geodata. split; [|split].
  - intros pre o post text before -> Hpre Hgeo Htext Hpost.
    rewrite for_each_app, Hpre. cbn [mbind result_bind bind for_each].
    rewrite (parse_geodata_step_geojson E before text o Hgeo).
    cbn [mbind result_bind bind]. by apply parse_geodata_others.
  - intros wkt language converted -> Hwkt. cbn [for_each].
    unfold _parse_geodata_step. cbn [literal_datatype mbind result_bind bind node_str].
    rewrite (bool_decide_eq_false_2 (_ = Some GEOJSON_IMT))
      by (intros Heq; vm_compute in Heq; congruence).
    replace (opt_truthy (Some (node_str (GSP "wktLiteral")))) with true by reflexivity.
    cbn [negb orb mbind result_bind bind node_str].
    rewrite (bool_decide_eq_true_2 (Some (node_str (GSP "wktLiteral")) = _)) by done.
    rewrite andb_true_r, Hwkt.
    by destruct (opt_truthy cur_value).
  - intros o rest -> Ho. cbn [for_each]. unfold _parse_geodata_step.
    by destruct o.
Qed.

(** The sample site with a [json.loads] that knows the empty object, [null]
    and the JSON text of [en], and a WKT reader that knows one point. *)
Definition env_readers : environment := {|
  locale_default := locale_default Sample.env;
  expose_subcatalogs := expose_subcatalogs Sample.env;
  clean_tags := clean_tags Sample.env;
  normalize_ckan_format := normalize_ckan_format Sample.env;
  resource_inherit_license := resource_inherit_license Sample.env;
  license_register := license_register Sample.env;
  resource_formats := resource_formats Sample.env;
  munge_tag := munge_tag Sample.env;
  py_float := py_float Sample.env;
  json_dumps := json_dumps Sample.env;
  json_loads := λ text, if bool_decide (text = "{}") then Ok (VDict [])
                        else if bool_decide (text = "null") then Ok VNone
                        else if bool_decide (text = Sample.quoted "en")
                             then Ok (VStr "en")
                        else Raise ValueError;
  wkt_to_geojson := λ text, if bool_decide (text = "POINT (1 2)") then Ok "{point}"
                            else Raise ValueError;
  parse_date := parse_date Sample.env;
  typed_literal_truthy := typed_literal_truthy Sample.env;
  typed_literal_text := typed_literal_text Sample.env;
  Literal_of_object := Literal_of_object Sample.env;
  URIRef_of_object := URIRef_of_object Sample.env;
  str_of_object := str_of_object Sample.env;
  float_of_object := float_of_object Sample.env;
  decimal_literal := decimal_literal Sample.env;
  bnode_id := bnode_id Sample.env;
  resource_uri := resource_uri Sample.env;
  publisher_uri_organization_fallback := publisher_uri_organization_fallback Sample.env;
  geojson_to_wkt := geojson_to_wkt Sample.env
|}.

Definition wkt_point : node :=
  Literal "POINT (1 2)" None (Some (node_str (GSP "wktLiteral"))).

(** A place with a WKT point, an empty GeoJSON object and another WKT
    point, in this order. *)
Definition three_geometries : graph :=
  [(BNode "place", LOCN "geometry", wkt_point);
   (BNode "place", LOCN "geometry", Literal "{}" None (Some GEOJSON_IMT));
   (BNode "place", LOCN "geometry",
    Literal "POINT (3 4)" None (Some (node_str (GSP "wktLiteral"))))].

Lemma parse_geodata_prefers_geojson_on_samples :
  _parse_geodata env_readers three_geometries (BNode "place") (LOCN "geometry") None
  = Ok (Some "{}")
  ∧ _parse_geodata env_readers [(BNode "place", LOCN "geometry", wkt_point)]
      (BNode "place") (LOCN "geometry") None = Ok (Some "{point}")
  ∧ _parse_geodata env_readers [(BNode "place", LOCN "geometry", BNode "shape")]
      (BNode "place") (LOCN "geometry") None = Raise AttributeError.
Proof.
  split; [|split].
  - refine (proj1 (parse_geodata_prefers_geojson env_readers three_geometries
                     (BNode "place") (LOCN "geometry") None)
              [wkt_point] (Literal "{}" None (Some GEOJSON_IMT))
              [Literal "POINT (3 4)" None (Some (node_str (GSP "wktLiteral")))]
              "{}" (Some "{point}") eq_refl eq_refl _ eq_refl _).
    + eexists _, _, _. split; [reflexivity |]. split; [by left | reflexivity].
    + repeat constructor. eexists _, _, _. split; [reflexivity |].
      split; [|reflexivity]. intros Heq. vm_compute in Heq. congruence.
  - exact (proj1 (proj2 (parse_geodata_prefers_geojson env_readers
                           [(BNode "place", LOCN "geometry", wkt_point)]
                           (BNode "place") (LOCN "geometry") None))
             "POINT (1 2)" None "{point}" eq_refl eq_refl).
  - exact (proj2 (proj2 (parse_geodata_prefers_geojson env_readers
                           [(BNode "place", LOCN "geometry", BNode "shape")]
                           (BNode "place") (LOCN "geometry") None))
             (BNode "shape") [] eq_refl eq_refl).
Defined.

(** ** The license tables *)

Lemma license_maps_other_url (url : string) (post : list (string * (string * string)))
    (maps : license_maps) :
  Forall (λ item, fst (snd item) ≠ url) post →
  fst (fold_left
         (λ (maps : license_maps) (item : string * (string * string)),
            let '(license_id, (url, title)) := item in
            (<[url := license_id]> (fst maps), <[title := license_id]> (snd maps)))
         post maps) !! url
  = fst maps !! url.
Proof.
  intros H. revert maps.
  induction H as [|[i [u t]] post Hne _ IH]; intros maps; [done |].
  cbn [fold_left]. rewrite IH. cbn [fst snd] in *. by apply lookup_insert_ne.
Qed.

Lemma license_maps_other_title (title : string)
    (post : list (string * (string * string))) (maps : license_maps) :
  Forall (λ item, snd (snd item) ≠ title) post →
  snd (fold_left
         (λ (maps : license_maps) (item : string * (string * string)),
            let '(license_id, (url, title)) := item in
            (<[url := license_id]> (fst maps), <[title := license_id]> (snd maps)))
         post maps) !! title
  = snd maps !! title.
Proof.
  intros H. revert maps.
  induction H as [|[i [u t]] post Hne _ IH]; intros maps; [done |].
  cbn [fold_left]. rewrite IH. cbn [fst snd] in *. by apply lookup_insert_ne.
Qed.

(** X18. The two tables [_license] builds from the license register map
    a URL, and a title, to the identifier of the last license of the
    register that has it: of two licenses with the same URL the later one
    is what a distribution with that license resolves to.  A URL or title
    of no license has no entry. *)
Theorem license_tables_last_wins (register : list (string * (string * string))) :
  (∀ pre post license_id url title,
     register = pre ++ (license_id, (url, title)) :: post →
     (Forall (λ item, fst (snd item) ≠ url) post →
      fst (build_license_maps register) !! url = Some license_id)
     ∧ (Forall (λ item, snd (snd item) ≠ title) post →
        snd (build_license_maps register) !! title = Some license_id))
  ∧ (∀ url, Forall (λ item, fst (snd item) ≠ url) register →
            fst (build_license_maps register) !! url = None)
  ∧ (∀ title, Forall (λ item, snd (snd item) ≠ title) register →
              snd (build_license_maps register) !! title = None).
Proof.
  unfold build_license_maps. split; [|split].
  - intros pre post license_id url title ->.
    rewrite fold_left_app. cbn [fold_left]. split; intros Hpost.
    + rewrite license_maps_other_url by done. cbn [fst]. apply lookup_insert_eq.
    + rewrite license_maps_other_title by done. cbn [snd]. apply lookup_insert_eq.
  - intros url H. by rewrite license_maps_other_url.
  - intros title H. by rewrite license_maps_other_title.
Qed.

(** A register in which two licenses share a URL. *)
Definition register_with_duplicate : list (string * (string * string)) :=
  [("cc-by", ("http://example.org/license", "Attribution"));
   ("cc-by-4", ("http://example.org/license", "Attribution 4.0"))].

Lemma license_tables_last_wins_on_sample :
  fst (build_license_maps register_with_duplicate) !! "http://example.org/license"
  = Some "cc-by-4"
  ∧ snd (build_license_maps register_with_duplicate) !! "Attribution" = Some "cc-by"
  ∧ fst (build_license_maps register_with_duplicate) !! "http://example.org/other"
    = None.
Proof.
  split; [|split].
  - refine (proj1 (proj1 (license_tables_last_wins register_with_duplicate)
              [("cc-by", ("http://example.org/license", "Attribution"))] []
              "cc-by-4" "http://example.org/license" "Attribution 4.0" eq_refl) _).
    constructor.
  - refine (proj2 (proj1 (license_tables_last_wins register_with_duplicate)
              [] [("cc-by-4", ("http://example.org/license", "Attribution 4.0"))]
              "cc-by" "http://example.org/license" "Attribution" eq_refl) _).
    by repeat constructor.
  - refine (proj1 (proj2 (license_tables_last_wins register_with_duplicate))
              "http://example.org/other" _).
    by repeat constructor.
Defined.

(** ** Values of list fields *)

(** The one-character texts a [for] loop over a text visits. *)
Definition characters (text : string) : list pyval :=
  (λ c, VStr (String c EmptyString)) <$> String.list_ascii_of_string text.

(** X19. How [_add_list_triple] reads the value of a list field that is
    not a list.  A text that is not JSON is split at its commas, the parts
    taken as they stand, or taken whole when it has none.  A text that is
    JSON is replaced by what it denotes: [null] cannot be iterated and
    aborts the call with [TypeError], and a JSON string is iterated
    character by character.  A value that is neither a text nor a list
    adds nothing. *)
Theorem list_value_readings (E : environment) (g : graph) (subject predicate : node)
    (_type : term_type) (_datatype : option string) :
  (∀ text,
     json_loads E text = Raise ValueError →
     _add_list_triple E g subject predicate (VStr text) _type _datatype
     = _add_list_triple E g subject predicate
         (VList (if Str.contains "," text then VStr <$> Str.split "," text
                 else [VStr text]))
         _type _datatype)
  ∧ (∀ text,
       json_loads E text = Ok VNone →
       _add_list_triple E g subject predicate (VStr text) _type _datatype
       = Raise TypeError)
  ∧ (∀ text denoted,
       json_loads E text = Ok (VStr denoted) →
       _add_list_triple E g subject predicate (VStr text) _type _datatype
       = _add_list_triple E g subject predicate (VList (characters denoted))
           _type _datatype)
  ∧ (∀ value,
       match value with VStr _ | VList _ => False | _ => True end →
       _add_list_triple E g subject predicate value _type _datatype = Ok g).
Proof.
  unfold _add_list_triple. split; [|split; [|split]].
  - intros text H. cbn [_read_list_value]. rewrite H.
    cbn [mbind result_bind bind try_except].
    rewrite bool_decide_eq_true_2 by (by left).
    by destruct (Str.contains "," text).
  - intros text H. cbn [_read_list_value]. by rewrite H.
  - intros text denoted H. cbn [_read_list_value]. by rewrite H.
  - intros value H. by destruct value.
Qed.

Lemma list_value_readings_on_samples :
  _add_list_triple env_readers [] Sample.dataset (DCT "language") (VStr "en, de")
    TLiteral None
  = Ok [(Sample.dataset, DCT "language", plain "en");
        (Sample.dataset, DCT "language", plain " de")]
  ∧ _add_list_triple env_readers [] Sample.dataset (DCT "language") (VStr "null")
      TLiteral None = Raise TypeError
  ∧ _add_list_triple env_readers [] Sample.dataset (DCT "language")
      (VStr (Sample.quoted "en")) TLiteral None
    = Ok [(Sample.dataset, DCT "language", plain "e");
          (Sample.dataset, DCT "language", plain "n")]
  ∧ _add_list_triple env_readers [] Sample.dataset (DCT "language") (VInt 5)
      TLiteral None = Ok [].
Proof.
  split; [|split; [|split]].
  - exact (eq_trans
             (proj1 (list_value_readings env_readers [] Sample.dataset (DCT "language")
                       TLiteral None) "en, de" eq_refl)
             eq_refl).
  - exact (proj1 (proj2 (list_value_readings env_readers [] Sample.dataset
                           (DCT "language") TLiteral None)) "null" eq_refl).
  - exact (eq_trans
             (proj1 (proj2 (proj2 (list_value_readings env_readers [] Sample.dataset
                                     (DCT "language") TLiteral None)))
                (Sample.quoted "en") "en" eq_refl)
             eq_refl).
  - exact (proj2 (proj2 (proj2 (list_value_readings env_readers [] Sample.dataset
                                  (DCT "language") TLiteral None)))
             (VInt 5) I).
Defined.

(** ** Fallback keys *)

(** The first truthy value of a list, if any. *)
Definition first_true (values : list pyval) : option pyval :=
  head (filter (λ v, truthy v = true) values).

Lemma first_truthy_outcome (d : pydict) (lookup : string → pyval) (value : pyval)
    (fallbacks : list string) :
  (∀ key, _get_dict_value d key VNone = Ok (lookup key)) →
  truthy value = false →
  ∃ found,
    first_truthy d value fallbacks = Ok found
    ∧ match first_true (lookup <$> fallbacks) with
      | Some v => found = v ∧ truthy v = true
      | None => truthy found = false
      end.
Proof.
  intros Hlookup. revert value.
  induction fallbacks as [|key fallbacks IH]; intros value Hvalue.
  - by exists value.
  - cbn [first_truthy]. rewrite Hlookup. cbn [mbind result_bind bind fmap list_fmap].
    unfold first_true. destruct (truthy (lookup key)) eqn:Hkey.
    + rewrite filter_cons_True by done. by exists (lookup key).
    + rewrite filter_cons_False by congruence. by apply IH.
Qed.

(** X20. [_add_triple_from_dict] takes the value of the key if it is
    truthy, else that of the first fallback key whose value is truthy, in
    the order of the list, and adds one triple for it; when neither the key
    nor any fallback has a truthy value, it adds nothing.  Each lookup is
    the one of [_get_dict_value], root first, then extras. *)
Theorem add_triple_fallback_order (E : environment) (g : graph) (d : pydict)
    (subject predicate : node) (key : string) (fallbacks : list string)
    (_type : term_type) (lookup : string → pyval) :
  (∀ key, _get_dict_value d key VNone = Ok (lookup key)) →
  _add_triple_from_dict E g d subject predicate key fallbacks false false
    _type None None
  = match first_true (lookup <$> key :: fallbacks) with
    | Some value =>
        object ← make_term E (cleaned _type) value None;
        Ok (graph_add g (subject, predicate, object))
    | None => Ok g
    end.
Proof.
  intros Hlookup. unfold _add_triple_from_dict. rewrite Hlookup.
  cbn [mbind result_bind bind fmap list_fmap]. unfold first_true.
  destruct (truthy (lookup key)) eqn:Hkey.
  - rewrite filter_cons_True by done. cbn [negb head mbind result_bind bind].
    rewrite Hkey. done.
  - rewrite filter_cons_False by congruence. cbn [negb].
    destruct (first_truthy_outcome d lookup (lookup key) fallbacks Hlookup Hkey)
      as (found & -> & Hfound).
    cbn [mbind result_bind bind]. unfold first_true in Hfound.
    destruct (head (filter _ (lookup <$> fallbacks))) as [v|].
    + destruct Hfound as [-> Hv]. by rewrite Hv.
    + by rewrite Hfound.
Qed.

(** A dataset dict without a version, with a legacy version in its
    extras. *)
Definition legacy_version_record : pydict :=
  [("version", VStr ""); ("extras", VList [extra "dcat_version" (VStr "2.0")])].

Lemma add_triple_fallback_order_on_sample :
  _add_triple_from_dict Sample.env [] legacy_version_record Sample.dataset
    (OWL "versionInfo") "version" ["dcat_version"] false false TLiteral None None
  = Ok [(Sample.dataset, OWL "versionInfo", plain "2.0")].
Proof.
  refine (eq_trans
            (add_triple_fallback_order Sample.env [] legacy_version_record
               Sample.dataset (OWL "versionInfo") "version" ["dcat_version"] TLiteral
               (λ key, match _get_dict_value legacy_version_record key VNone with
                       | Ok v => v
                       | Raise _ => VNone
                       end) _)
            eq_refl).
  intros key. unfold _get_dict_value.
  destruct (dict_get legacy_version_record key) eqn:Hkey; [done |].
  cbn [legacy_version_record dict_get] in *.
  repeat case_decide; try done.
  cbn. unfold dict_item. cbn [dict_get].
  repeat (case_decide || cbn [mbind result_bind bind is_text orb dict_get]); try done.
  all: unfold dict_item; cbn; done.
Defined.

(** ** The publisher of a dataset, written and read back *)

Lemma add_triple_without_fallback (E : environment) (g : graph) (d : pydict)
    (subject predicate : node) (key : string) (_type : term_type)
    (lookup : string → pyval) :
  (∀ key, _get_dataset_value d key = Ok (lookup key)) →
  _add_triple_from_dict E g d subject predicate key [] false false _type None None
  = if truthy (lookup key)
    then object ← make_term E (cleaned _type) (lookup key) None;
         Ok (graph_add g (subject, predicate, object))
    else Ok g.
Proof.
  intros Hlookup. unfold _add_triple_from_dict.
  pose proof (Hlookup key) as Hl. unfold _get_dataset_value in Hl. rewrite Hl.
  cbn [mbind result_bind bind first_truthy].
  destruct (truthy (lookup key)) eqn:Hkey; cbn [negb mbind result_bind bind];
    by rewrite Hkey.
Qed.

(** A text, or a value that counts as absent. *)
Definition text_or_absent (v : pyval) : Prop :=
  match v with VStr _ => True | _ => truthy v = false end.

Lemma objects_add_if (c : bool) (g : graph) (s p s' p' o' : node) :
  p' ≠ p ∨ s' ≠ s →
  objects (if c then graph_add g (s', p', o') else g) s p = objects g s p.
Proof. intros H. destruct c; [by apply objects_graph_add_other | done]. Qed.

(** A term without a language tag: [_object_value] reads it as it is. *)
Definition untagged (o : node) : Prop :=
  match o with Literal _ (Some _) _ => False | _ => True end.

Lemma uriref_or_literal_untagged (E : environment) (text : string) :
  untagged (URIRefOrLiteral_new E (VStr text)).
Proof.
  unfold URIRefOrLiteral_new. destruct (_ || _); [|done].
  by destruct (n3_ok _).
Qed.

Lemma object_value_written_field (E : environment) (g : graph) (s p : node)
    (v : pyval) (make : pyval → node) :
  text_or_absent v → objects g s p = [] →
  (∀ text, untagged (make (VStr text))) →
  node_str (make (VStr EmptyString)) = EmptyString →
  _object_value E (if truthy v then graph_add g (s, p, make v) else g) s p
  = node_str (make (VStr (text_of v))).
Proof.
  intros Hv Hnone Hmake Hempty. unfold _object_value.
  destruct (truthy v) eqn:Ht.
  - rewrite objects_graph_add_same, Hnone.
    rewrite decide_False by apply not_elem_of_nil. cbn [app].
    destruct v as [| | | |text| |]; try (unfold text_or_absent in Hv; congruence).
    cbn [text_of]. specialize (Hmake text).
    by destruct (make (VStr text)) as [| |? [] ?].
  - rewrite Hnone. cbn [_object_value_loop].
    destruct v as [| | | |text| |]; try done.
    cbn in Ht. by destruct text.
Qed.

(** X21. A publisher written by [graph_from_dataset] is read back by
    [_publisher]: for a dataset dict with a publisher name, the graph gets
    one [foaf:Organization] node, the cleaned [publisher_uri] or a fresh
    blank node, and reading the dataset's [dct:publisher] returns the URI
    of the node (empty for a blank node), the name, the address as it was,
    the home page after cleaning, and the type as [URIRefOrLiteral] made
    it; a field that was missing or empty comes back as the empty text. *)
Theorem publisher_round_trip (E : environment) (w : writer) (dataset_dict : pydict)
    (dataset_ref : node) (lookup : string → pyval) (name : string)
    (fallback : pyval) :
  let publisher :=
    if truthy (lookup "publisher_uri") then CleanedURIRef_new E (lookup "publisher_uri")
    else BNode (bnode_id E (blank_nodes w)) in
  (∀ key, _get_dataset_value dataset_dict key = Ok (lookup key)) →
  publisher_uri_organization_fallback E dataset_dict = Ok fallback →
  lookup "publisher_name" = VStr name → Str.truthy name = true →
  text_or_absent (lookup "publisher_email") →
  text_or_absent (lookup "publisher_url") →
  text_or_absent (lookup "publisher_type") →
  objects (written w) dataset_ref (DCT "publisher") = [] →
  (∀ p, objects (written w) publisher p = []) →
  ∃ w',
    write_publisher E w dataset_dict dataset_ref = Ok w'
    ∧ objects (written w') dataset_ref (DCT "publisher") = [publisher]
    ∧ _publisher E (written w') dataset_ref (DCT "publisher")
      = [("uri", VStr (uri_or_empty publisher));
         ("name", VStr name);
         ("email", VStr (text_of (lookup "publisher_email")));
         ("url", VStr (node_str (CleanedURIRef.new (text_of (lookup "publisher_url")))));
         ("type", VStr (node_str (URIRefOrLiteral_new E
                                    (VStr (text_of (lookup "publisher_type"))))))].
Proof.
  intros publisher Hlookup Hfallback Hname Hn Hemail Hurl Htype Hnone Hfresh.
  set (email := lookup "publisher_email") in *.
  set (url := lookup "publisher_url") in *.
  set (type := lookup "publisher_type") in *.
  set (g1 := graph_add (written w) (publisher, RDF "type", FOAF "Organization")).
  set (g2 := graph_add g1 (dataset_ref, DCT "publisher", publisher)).
  set (g3 := graph_add g2 (publisher, FOAF "name", plain name)).
  set (g4 := if truthy email
             then graph_add g3 (publisher, FOAF "mbox", Literal_new E email None)
             else g3).
  set (g5 := if truthy url
             then graph_add g4 (publisher, FOAF "homepage", CleanedURIRef_new E url)
             else g4).
  set (g6 := if truthy type
             then graph_add g5 (publisher, DCT "type", URIRefOrLiteral_new E type)
             else g5).
  assert (objects g6 dataset_ref (DCT "publisher") = [publisher]) as Hpub.
  { unfold g6, g5, g4. rewrite !objects_add_if by distinct.
    unfold g3. rewrite objects_graph_add_other by distinct.
    unfold g2. rewrite objects_graph_add_same.
    unfold g1. rewrite objects_graph_add_other by distinct.
    rewrite Hnone. by rewrite decide_False by apply not_elem_of_nil. }
  assert (_object_value E g6 publisher (FOAF "name") = name) as Hread_name.
  { apply (object_value_single_literal _ _ _ _ _ None).
    unfold g6, g5, g4. rewrite !objects_add_if by distinct.
    unfold g3. rewrite objects_graph_add_same.
    unfold g2, g1. rewrite !objects_graph_add_other by distinct.
    rewrite Hfresh. by rewrite decide_False by apply not_elem_of_nil. }
  assert (objects g3 publisher (FOAF "mbox") = []
          ∧ objects g3 publisher (FOAF "homepage") = []
          ∧ objects g3 publisher (DCT "type") = []) as (Hmbox & Hhome & Hty).
  { unfold g3, g2, g1. rewrite !objects_graph_add_other by distinct.
    by rewrite !Hfresh. }
  assert (_object_value E g6 publisher (FOAF "mbox") = text_of email) as Hread_email.
  { unfold _object_value, g6, g5. rewrite !objects_add_if by distinct.
    by apply (object_value_written_field E g3 publisher (FOAF "mbox") email
                (λ v, Literal_new E v None)). }
  assert (_object_value E g6 publisher (FOAF "homepage")
          = node_str (CleanedURIRef.new (text_of url))) as Hread_url.
  { unfold _object_value, g6. rewrite objects_add_if by distinct.
    apply (object_value_written_field E g4 publisher (FOAF "homepage") url
             (CleanedURIRef_new E)); try done.
    unfold g4. by rewrite objects_add_if by distinct. }
  assert (_object_value E g6 publisher (DCT "type")
          = node_str (URIRefOrLiteral_new E (VStr (text_of type)))) as Hread_type.
  { apply (object_value_written_field E g5 publisher (DCT "type") type
             (URIRefOrLiteral_new E)); try done.
    - unfold g5, g4. by rewrite !objects_add_if by distinct.
    - apply uriref_or_literal_untagged. }
  assert (∀ g key predicate _type,
            _add_triple_from_dict E g dataset_dict publisher predicate key []
              false false _type None None
            = if truthy (lookup key)
              then object ← make_term E (cleaned _type) (lookup key) None;
                   Ok (graph_add g (publisher, predicate, object))
              else Ok g) as Hadd.
  { intros. by apply add_triple_without_fallback. }
  exists {| written := g6;
            blank_nodes := if truthy (lookup "publisher_uri") then blank_nodes w
                           else S (blank_nodes w) |}.
  split; [|split; [exact Hpub |]].
  - unfold write_publisher. rewrite !Hlookup, Hfallback.
    cbn [mbind result_bind bind]. rewrite Hname. cbn [truthy]. rewrite Hn.
    rewrite orb_true_r. cbn [orb negb andb mbind result_bind bind].
    assert (on_graph
              {| written := g3;
                 blank_nodes := if truthy (lookup "publisher_uri") then blank_nodes w
                                else S (blank_nodes w) |}
              (λ g, _add_triples_from_dict E g dataset_dict publisher publisher_items
                      false false)
            = Ok {| written := g6;
                    blank_nodes := if truthy (lookup "publisher_uri")
                                   then blank_nodes w else S (blank_nodes w) |}) as Hitems.
    { unfold on_graph, _add_triples_from_dict, publisher_items.
      cbn [written blank_nodes for_each]. rewrite Hadd. fold email.
      unfold g6, g5, g4.
      destruct (truthy email); cbn [cleaned make_term mbind result_bind bind];
        rewrite Hadd; fold url;
        destruct (truthy url); cbn [cleaned make_term mbind result_bind bind];
        rewrite Hadd; fold type;
        by destruct (truthy type). }
    rewrite <- Hitems. unfold g3, g2, g1, publisher.
    destruct (truthy (lookup "publisher_uri"));
      unfold new_bnode; cbn [add written blank_nodes Literal_new]; done.
  - unfold _publisher. cbn [written]. rewrite Hpub. cbn [fold_left].
    unfold _publisher_step. rewrite Hread_name, Hread_email, Hread_url, Hread_type.
    reflexivity.
Qed.

(** A dataset dict with a publisher: a name, an address, a home page with
    a space to encode, and no type. *)
Definition publisher_record : pydict :=
  [("publisher_name", VStr "Office");
   ("publisher_email", VStr "office@example.org");
   ("publisher_url", VStr "http://example.org/the office")].

Lemma publisher_round_trip_on_sample :
  ∃ w',
    write_publisher Sample.env {| written := []; blank_nodes := 0 |}
      publisher_record Sample.dataset = Ok w'
    ∧ objects (written w') Sample.dataset (DCT "publisher") = [BNode "N0000"]
    ∧ _publisher Sample.env (written w') Sample.dataset (DCT "publisher")
      = [("uri", VStr "");
         ("name", VStr "Office");
         ("email", VStr "office@example.org");
         ("url", VStr "http://example.org/the%20office");
         ("type", VStr "")].
Proof.
  refine (publisher_round_trip Sample.env {| written := []; blank_nodes := 0 |}
            publisher_record Sample.dataset (dict_get_value publisher_record)
            "Office" VNone _ eq_refl eq_refl eq_refl I I eq_refl eq_refl (λ p, eq_refl)).
  intros key. unfold _get_dataset_value, _get_dict_value, dict_get_value.
  destruct (dict_get publisher_record key) eqn:Hkey; [done |].
  reflexivity.
Defined.

(** ** A resource, written and read back *)

Lemma add_triple_nothing (E : environment) (g : graph) (d : pydict)
    (subject predicate : node) (key : string) (fallbacks : list string)
    (list_value date_value : bool) (_type : term_type) (_datatype : option string)
    (lookup : string → pyval) :
  (∀ key, _get_dataset_value d key = Ok (lookup key)) →
  Forall (λ k, truthy (lookup k) = false) (key :: fallbacks) →
  _add_triple_from_dict E g d subject predicate key fallbacks list_value date_value
    _type _datatype None
  = Ok g.
Proof.
  intros Hlookup Hall. inversion_clear Hall as [|? ? Hkey Hfallbacks].
  unfold _add_triple_from_dict.
  pose proof (Hlookup key) as Hl. unfold _get_dataset_value in Hl. rewrite Hl.
  cbn [mbind result_bind bind]. rewrite Hkey. cbn [negb].
  destruct (first_truthy_outcome d lookup (lookup key) fallbacks Hlookup Hkey)
    as (found & -> & Hfound).
  cbn [mbind result_bind bind].
  assert (truthy found = false) as ->; [|done].
  unfold first_true in Hfound.
  destruct (head (filter _ (lookup <$> fallbacks))) as [v|] eqn:Hhead; [|done].
  apply head_Some_elem_of, list_elem_of_filter in Hhead as [Hv Hin].
  apply list_elem_of_fmap in Hin as (k & -> & Hk).
  rewrite Forall_forall in Hfallbacks. rewrite (Hfallbacks k Hk) in Hv. done.
Qed.

(** A resource dict with its URI, a name and a URL. *)
Definition named_resource (uri name url : string) : pydict :=
  [("uri", VStr uri); ("name", VStr name); ("url", VStr url)].

Lemma named_resource_lookup (uri name url key : string) :
  _get_dataset_value (named_resource uri name url) key
  = Ok (dict_get_value (named_resource uri name url) key).
Proof.
  unfold _get_dataset_value, _get_dict_value, dict_get_value.
  destruct (dict_get (named_resource uri name url) key) eqn:Hkey; [done |].
  reflexivity.
Qed.

(** X22. A resource with a name and a URL that needs no cleaning, written
    by the resources loop of [graph_from_dataset] under the URI that
    [resource_uri] gives it and read by the resources loop of
    [parse_dataset], comes back with its name, with the URL both as
    [access_url] and as [url], and with the cleaned URI as [uri] and as
    [distribution_ref]; nothing else is in the dict.  The graph must not
    hold a triple of the distribution yet, and no license is inherited. *)
Theorem resource_round_trip (E : environment) (w : writer) (dataset_ref : node)
    (name url uri : string) (fallback : pyval) :
  let distribution := CleanedURIRef.new uri in
  resource_uri E (VDict (named_resource uri name url)) = Ok (VStr uri) →
  Str.truthy name = true → Str.truthy url = true →
  CleanedURIRef.new url = URIRef url →
  truthy fallback = false →
  (∀ p, objects (written w) distribution p = []) →
  ∃ w',
    write_resource E fallback dataset_ref w (VDict (named_resource uri name url)) = Ok w'
    ∧ distribution ∈ _distributions (written w') dataset_ref
    ∧ parse_distribution E (written w') distribution
      = Ok [("name", VStr name);
            ("access_url", VStr url);
            ("url", VStr url);
            ("uri", VStr (node_str distribution));
            ("distribution_ref", VStr (node_str distribution))].
Proof.
  intros distribution Huri Hn Hu Hclean Hfallback Hfresh.
  set (rd := named_resource uri name url) in *.
  set (lookup := dict_get_value rd).
  assert (∀ key, _get_dataset_value rd key = Ok (lookup key)) as Hlookup.
  { intros key. apply named_resource_lookup. }
  set (g1 := graph_add (written w) (dataset_ref, DCAT "distribution", distribution)).
  set (g2 := graph_add g1 (distribution, RDF "type", DCAT "Distribution")).
  set (g3 := graph_add g2 (distribution, DCT "title", plain name)).
  set (g4 := graph_add g3 (distribution, DCAT "accessURL", URIRef url)).
  assert (∀ g key predicate fallbacks list_value date_value _type,
            Forall (λ k, truthy (lookup k) = false) (key :: fallbacks) →
            _add_triple_from_dict E g rd distribution predicate key fallbacks
              list_value date_value _type None None = Ok g) as Hnothing.
  { intros. by apply (add_triple_nothing _ _ _ _ _ _ _ _ _ _ _ lookup). }
  assert (write_resource E fallback dataset_ref w (VDict rd)
          = Ok {| written := g4; blank_nodes := blank_nodes w |}) as Hwrite.
  { unfold write_resource. rewrite Huri.
    cbn [mbind result_bind bind CleanedURIRef_new]. fold distribution.
    unfold on_graph, _add_list_triples_from_dict, _add_date_triples_from_dict,
      _add_triples_from_dict, resource_simple_items, resource_list_items,
      resource_date_items.
    cbn [add written blank_nodes for_each]. fold g1. fold g2.
    rewrite (add_triple_without_fallback E g2 rd distribution (DCT "title") "name"
               TLiteral lookup Hlookup).
    change (lookup "name") with (VStr name). cbn [truthy]. rewrite Hn.
    cbn [cleaned make_term Literal_new mbind result_bind bind]. fold g3.
    repeat (rewrite Hnothing by (repeat constructor);
            cbn [mbind result_bind bind written blank_nodes]).
    rewrite Hfallback. cbn [andb].
    change (dict_get_value rd "mimetype") with VNone.
    change (dict_get_value rd "format") with VNone.
    change (dict_get_value rd "url") with (VStr url).
    change (dict_get_value rd "download_url") with VNone.
    change (dict_get_value rd "access_url") with VNone.
    change (dict_get_value rd "size") with VNone.
    change (dict_get_value rd "hash") with VNone.
    cbn [split_format truthy andb negb orb mbind result_bind bind]. rewrite Hu.
    cbn [andb negb orb written blank_nodes].
    rewrite (add_triple_without_fallback E _ rd distribution (DCAT "accessURL") "url"
               TURIRef lookup Hlookup).
    change (lookup "url") with (VStr url). cbn [truthy]. rewrite Hu.
    cbn [cleaned make_term CleanedURIRef_new mbind result_bind bind written
         blank_nodes].
    rewrite Hclean.
    repeat (rewrite Hnothing by (repeat constructor);
            cbn [mbind result_bind bind written blank_nodes]).
    done. }
  assert (∀ p, p ≠ DCAT "distribution" → p ≠ RDF "type" → p ≠ DCT "title" →
               p ≠ DCAT "accessURL" → objects g4 distribution p = []) as Hother.
  { intros p H1 H2 H3 H4. unfold g4, g3, g2, g1.
    rewrite !objects_graph_add_other by (left; congruence). apply Hfresh. }
  assert (objects g4 distribution (DCT "title") = [plain name]) as Htitle.
  { unfold g4. rewrite objects_graph_add_other by distinct.
    unfold g3. rewrite objects_graph_add_same.
    unfold g2, g1. rewrite !objects_graph_add_other by distinct.
    rewrite Hfresh. by rewrite decide_False by apply not_elem_of_nil. }
  assert (objects g4 distribution (DCAT "accessURL") = [URIRef url]) as Haccess.
  { unfold g4. rewrite objects_graph_add_same.
    unfold g3, g2, g1. rewrite !objects_graph_add_other by distinct.
    rewrite Hfresh. by rewrite decide_False by apply not_elem_of_nil. }
  assert (∀ p, p ≠ DCAT "distribution" → p ≠ RDF "type" → p ≠ DCT "title" →
               p ≠ DCAT "accessURL" →
               _object_value E g4 distribution p = EmptyString) as Hvalue.
  { intros. by apply object_value_no_object, Hother. }
  exists {| written := g4; blank_nodes := blank_nodes w |}.
  split; [exact Hwrite |]. split.
  - cbn [written]. unfold _distributions. apply elem_of_objects.
    unfold g4, g3, g2. do 3 apply graph_add_extends. apply elem_of_graph_add.
  - cbn [written]. unfold parse_distribution.
    unfold copy_values, copy_list_values, resource_simple_values, resource_list_values,
      _object_value_list, _access_rights, _distribution_format, _object_value_int,
      _object.
    cbn [fold_left].
    rewrite (object_value_single_literal E g4 distribution (DCT "title") name None Htitle).
    rewrite (object_value_single_reference E g4 distribution (DCAT "accessURL") url
               Haccess).
    rewrite !Hvalue by (intros Heq; vm_compute in Heq; congruence).
    rewrite !Hother by (intros Heq; vm_compute in Heq; congruence).
    unfold set_if_truthy, set_list_value. rewrite Hn, Hu.
    cbn [Str.truthy Str.is_empty negb fmap list_fmap head opt_truthy andb orb
         fold_left mbind result_bind bind].
    reflexivity.
Qed.

Lemma resource_round_trip_on_sample :
  ∃ w',
    write_resource Sample.env VNone Sample.dataset {| written := []; blank_nodes := 0 |}
      (VDict (named_resource "http://example.org/dataset/1/resource/1 " "Data"
                "http://example.org/data.csv")) = Ok w'
    ∧ Sample.distribution "1" ∈ _distributions (written w') Sample.dataset
    ∧ parse_distribution Sample.env (written w') (Sample.distribution "1")
      = Ok [("name", VStr "Data");
            ("access_url", VStr "http://example.org/data.csv");
            ("url", VStr "http://example.org/data.csv");
            ("uri", VStr "http://example.org/dataset/1/resource/1");
            ("distribution_ref", VStr "http://example.org/dataset/1/resource/1")].
Proof.
  exact (resource_round_trip Sample.env {| written := []; blank_nodes := 0 |}
           Sample.dataset "Data" "http://example.org/data.csv"
           "http://example.org/dataset/1/resource/1 " VNone
           eq_refl eq_refl eq_refl eq_refl eq_refl (λ p, eq_refl)).
Defined.

(** ** A media type, read and written back *)

(** The resource dict [parse_dataset] makes of a distribution that has a
    media type and nothing else. *)
Definition media_type_resource (distribution : node) (media_type : string) : pydict :=
  [("url", VStr EmptyString);
   ("mimetype", VStr media_type);
   ("format", VStr media_type);
   ("uri", VStr (uri_or_empty distribution));
   ("distribution_ref", VStr (node_str distribution))].

Lemma media_type_resource_lookup (distribution : node) (media_type key : string) :
  _get_dataset_value (media_type_resource distribution media_type) key
  = Ok (dict_get_value (media_type_resource distribution media_type) key).
Proof.
  unfold _get_dataset_value, _get_dict_value, dict_get_value.
  destruct (dict_get (media_type_resource distribution media_type) key) eqn:Hkey;
    [done |].
  reflexivity.
Qed.

(** X23. A distribution with a [dcat:mediaType] and no [dct:format] is
    parsed into a resource dict whose [mimetype] and [format] both hold the
    media type; the serializer undoes the doubling: for a media type with
    a slash that is no [http] reference, it writes the [dcat:mediaType]
    alone, and no [dct:format].  The media type must be unknown to the
    register of formats, which would replace the label. *)
Theorem media_type_round_trip (E : environment) (g : graph) (distribution : node)
    (media_type : string) :
  objects g distribution (DCAT "mediaType") = [plain media_type] →
  (∀ p, p ≠ DCAT "mediaType" → objects g distribution p = []) →
  Str.truthy media_type = true →
  resource_formats E !! media_type = None →
  parse_distribution E g distribution
  = Ok (media_type_resource distribution media_type)
  ∧ (∀ w dataset_ref fallback uri,
       Str.contains "/" media_type = true →
       Str.startswith "http" media_type = false →
       resource_uri E (VDict (media_type_resource distribution media_type))
       = Ok (VStr uri) →
       truthy fallback = false →
       write_resource E fallback dataset_ref w
         (VDict (media_type_resource distribution media_type))
       = Ok {| written :=
                 graph_add
                   (graph_add
                      (graph_add (written w)
                         (dataset_ref, DCAT "distribution", CleanedURIRef.new uri))
                      (CleanedURIRef.new uri, RDF "type", DCAT "Distribution"))
                   (CleanedURIRef.new uri, DCAT "mediaType",
                    URIRefOrLiteral_new E (VStr media_type));
               blank_nodes := blank_nodes w |}).
Proof.
  intros Hmedia Hother Hm Hunknown. split.
  - assert (∀ p, p ≠ DCAT "mediaType" →
                 _object_value E g distribution p = EmptyString) as Hvalue.
    { intros. by apply object_value_no_object, Hother. }
    unfold parse_distribution.
    unfold copy_values, copy_list_values, resource_simple_values, resource_list_values,
      _object_value_list, _access_rights, _distribution_format, _object_value_int,
      _object.
    cbn [fold_left].
    rewrite (object_value_single_literal E g distribution (DCAT "mediaType")
               media_type None Hmedia).
    rewrite !Hvalue by (intros Heq; vm_compute in Heq; congruence).
    rewrite !Hother by (intros Heq; vm_compute in Heq; congruence).
    cbn [head opt_truthy option_bind mbind option_bind]. rewrite Hm.
    cbn [orb andb]. rewrite Hunknown.
    destruct (normalize_ckan_format E);
      unfold set_if_truthy, set_list_value;
      cbn [Str.truthy Str.is_empty negb fmap list_fmap head opt_truthy andb orb
           fold_left mbind result_bind bind option_bind]; rewrite ?Hunknown, ?Hm;
      reflexivity.
  - intros w dataset_ref fallback uri Hslash Hhttp Huri Hfallback.
    set (rd := media_type_resource distribution media_type) in *.
    set (lookup := dict_get_value rd).
    assert (∀ key, _get_dataset_value rd key = Ok (lookup key)) as Hlookup.
    { intros key. apply media_type_resource_lookup. }
    assert (∀ g subject key predicate fallbacks list_value date_value _type,
              Forall (λ k, truthy (lookup k) = false) (key :: fallbacks) →
              _add_triple_from_dict E g rd subject predicate key fallbacks
                list_value date_value _type None None = Ok g) as Hnothing.
    { intros. by apply (add_triple_nothing _ _ _ _ _ _ _ _ _ _ _ lookup). }
    unfold write_resource. rewrite Huri.
    cbn [mbind result_bind bind CleanedURIRef_new].
    unfold on_graph, _add_list_triples_from_dict, _add_date_triples_from_dict,
      _add_triples_from_dict, resource_simple_items, resource_list_items,
      resource_date_items.
    cbn [add written blank_nodes for_each].
    repeat (rewrite Hnothing by (repeat constructor);
            cbn [mbind result_bind bind written blank_nodes]).
    rewrite Hfallback. cbn [andb].
    change (dict_get_value rd "mimetype") with (VStr media_type).
    change (dict_get_value rd "format") with (VStr media_type).
    change (dict_get_value rd "url") with (VStr EmptyString).
    change (dict_get_value rd "download_url") with VNone.
    change (dict_get_value rd "access_url") with VNone.
    change (dict_get_value rd "size") with VNone.
    change (dict_get_value rd "hash") with VNone.
    unfold split_format. cbn [truthy py_eq]. rewrite Hm.
    rewrite bool_decide_eq_true_2 by done. rewrite orb_true_r.
    cbn [andb py_contains py_startswith mbind result_bind bind].
    rewrite Hhttp, Hslash.
    destruct (Str.contains "iana.org/assignments/media-types" media_type);
      cbn [negb mbind result_bind bind truthy]; rewrite Hm;
      cbn [Str.truthy Str.is_empty negb andb orb written blank_nodes
           mbind result_bind bind];
      repeat (rewrite Hnothing by (repeat constructor);
              cbn [mbind result_bind bind written blank_nodes]);
      reflexivity.
Qed.

(** A distribution whose only statement is its media type. *)
Definition json_distribution : graph :=
  [(Sample.distribution "1", DCAT "mediaType", plain "application/json")].

Lemma media_type_round_trip_on_sample :
  parse_distribution Sample.env json_distribution (Sample.distribution "1")
  = Ok (media_type_resource (Sample.distribution "1") "application/json")
  ∧ write_resource Sample.env VNone Sample.dataset {| written := []; blank_nodes := 0 |}
      (VDict (media_type_resource (Sample.distribution "1") "application/json"))
    = Ok {| written :=
              [(Sample.dataset, DCAT "distribution", Sample.distribution "1");
               (Sample.distribution "1", RDF "type", DCAT "Distribution");
               (Sample.distribution "1", DCAT "mediaType", plain "application/json")];
            blank_nodes := 0 |}.
Proof.
  assert (∀ p, p ≠ DCAT "mediaType" →
               objects json_distribution (Sample.distribution "1") p = []) as Hother.
  { intros p Hp. unfold objects, json_distribution. cbn [omap list_omap].
    case_decide as H; [destruct H as [_ H]; congruence | done]. }
  pose proof (media_type_round_trip Sample.env json_distribution
                (Sample.distribution "1") "application/json"
                eq_refl Hother eq_refl eq_refl) as [Hparse Hwrite].
  split; [exact Hparse |].
  exact (Hwrite {| written := []; blank_nodes := 0 |} Sample.dataset VNone
           "http://example.org/dataset/1/resource/1"
           eq_refl eq_refl eq_refl eq_refl).
Defined.

(** ** The license a distribution inherits *)

(** A resource dict with its URI and a license, possibly empty. *)
Definition licensed_resource (uri license : string) : pydict :=
  [("uri", VStr uri); ("license", VStr license)].

Lemma licensed_resource_lookup (uri license key : string) :
  _get_dataset_value (licensed_resource uri license) key
  = Ok (dict_get_value (licensed_resource uri license) key).
Proof.
  unfold _get_dataset_value, _get_dict_value, dict_get_value.
  destruct (dict_get (licensed_resource uri license) key) eqn:Hkey; [done |].
  reflexivity.
Qed.

(** X24. The license of the dataset is handed down to a distribution only
    as a reference and only where the resource has none of its own.  The
    fallback is off unless the site asks for it; it is the [license_id] of
    the dataset if that is an [http] reference, else its [license_url]
    under the same condition, else nothing.  A resource with a license
    keeps that license alone; a resource without one gets the fallback as
    its only [dct:license]. *)
Theorem license_inheritance (E : environment) (dataset_dict : pydict) :
  (resource_inherit_license E = false → license_fallback E dataset_dict = VNone)
  ∧ (license_fallback E dataset_dict = VNone
     ∨ is_URIRef (URIRefOrLiteral_new E (license_fallback E dataset_dict)) = true)
  ∧ (∀ license_id,
       resource_inherit_license E = true →
       dict_get dataset_dict "license_id" = Some license_id →
       is_URIRef (URIRefOrLiteral_new E license_id) = true →
       license_fallback E dataset_dict = license_id)
  ∧ (∀ w dataset_ref fallback uri license,
       let distribution := CleanedURIRef.new uri in
       resource_uri E (VDict (licensed_resource uri license)) = Ok (VStr uri) →
       truthy fallback = true →
       (∀ p, objects (written w) distribution p = []) →
       ∃ w',
         write_resource E fallback dataset_ref w (VDict (licensed_resource uri license))
         = Ok w'
         ∧ objects (written w') distribution (DCT "license")
           = [if Str.truthy license then URIRefOrLiteral_new E (VStr license)
              else URIRefOrLiteral_new E fallback]).
Proof.
  split; [|split; [|split]].
  - intros H. unfold license_fallback. by rewrite H.
  - unfold license_fallback.
    destruct (resource_inherit_license E); [|by left].
    destruct (dict_get dataset_dict "license_id") as [v|];
      [destruct (is_URIRef (URIRefOrLiteral_new E v)) eqn:Hv; [by right |] |];
      (destruct (dict_get dataset_dict "license_url") as [u|]; [|by left];
       destruct (is_URIRef (URIRefOrLiteral_new E u)) eqn:Hu; [by right | by left]).
  - intros license_id Hon Hid Href. unfold license_fallback.
    by rewrite Hon, Hid, Href.
  - intros w dataset_ref fallback uri license distribution Huri Hfallback Hfresh.
    set (rd := licensed_resource uri license) in *.
    set (lookup := dict_get_value rd).
    assert (∀ key, _get_dataset_value rd key = Ok (lookup key)) as Hlookup.
    { intros key. apply licensed_resource_lookup. }
    assert (∀ g subject key predicate fallbacks list_value date_value _type,
              Forall (λ k, truthy (lookup k) = false) (key :: fallbacks) →
              _add_triple_from_dict E g rd subject predicate key fallbacks
                list_value date_value _type None None = Ok g) as Hnothing.
    { intros. by apply (add_triple_nothing _ _ _ _ _ _ _ _ _ _ _ lookup). }
    set (g1 := graph_add (written w) (dataset_ref, DCAT "distribution", distribution)).
    set (g2 := graph_add g1 (distribution, RDF "type", DCAT "Distribution")).
    set (licensed :=
           if Str.truthy license then URIRefOrLiteral_new E (VStr license)
           else URIRefOrLiteral_new E fallback).
    set (g3 := graph_add g2 (distribution, DCT "license", licensed)).
    assert (objects g2 distribution (DCT "license") = []) as Hnone.
    { unfold g2, g1. rewrite !objects_graph_add_other by distinct. apply Hfresh. }
    assert (objects g3 distribution (DCT "license") = [licensed]) as Hone.
    { unfold g3. rewrite objects_graph_add_same, Hnone.
      by rewrite decide_False by apply not_elem_of_nil. }
    exists {| written := g3; blank_nodes := blank_nodes w |}.
    split; [|exact Hone].
    unfold write_resource. rewrite Huri.
    cbn [mbind result_bind bind CleanedURIRef_new]. fold distribution.
    unfold on_graph, _add_list_triples_from_dict, _add_date_triples_from_dict,
      _add_triples_from_dict, resource_simple_items, resource_list_items,
      resource_date_items.
    cbn [add written blank_nodes for_each]. fold g1. fold g2.
    repeat (rewrite Hnothing by (repeat constructor);
            cbn [mbind result_bind bind written blank_nodes]).
    rewrite (add_triple_without_fallback E g2 rd distribution (DCT "license") "license"
               TURIRefOrLiteral lookup Hlookup).
    change (lookup "license") with (VStr license). cbn [truthy].
    change (dict_get_value rd "mimetype") with VNone.
    change (dict_get_value rd "format") with VNone.
    change (dict_get_value rd "url") with VNone.
    change (dict_get_value rd "download_url") with VNone.
    change (dict_get_value rd "access_url") with VNone.
    change (dict_get_value rd "size") with VNone.
    change (dict_get_value rd "hash") with VNone.
    unfold g3, licensed.
    destruct (Str.truthy license) eqn:Hl.
    + cbn [cleaned make_term mbind result_bind bind written blank_nodes].
      repeat (rewrite Hnothing by (repeat constructor);
              cbn [mbind result_bind bind written blank_nodes]).
      rewrite Hfallback.
      rewrite bool_decide_eq_false_2.
      2:{ rewrite objects_graph_add_same, Hnone.
          by rewrite decide_False by apply not_elem_of_nil. }
      cbn [andb split_format truthy negb orb mbind result_bind bind
           written blank_nodes].
      repeat (rewrite Hnothing by (repeat constructor);
              cbn [mbind result_bind bind written blank_nodes]).
      reflexivity.
    + cbn [mbind result_bind bind written blank_nodes].
      repeat (rewrite Hnothing by (repeat constructor);
              cbn [mbind result_bind bind written blank_nodes]).
      rewrite Hfallback, Hnone.
      rewrite bool_decide_eq_true_2 by done.
      cbn [andb split_format truthy negb orb mbind result_bind bind add
           written blank_nodes].
      repeat (rewrite Hnothing by (repeat constructor);
              cbn [mbind result_bind bind written blank_nodes]).
      reflexivity.
Qed.

(** The sample site with license inheritance switched on. *)
Definition env_inherit : environment := {|
  locale_default := locale_default Sample.env;
  expose_subcatalogs := expose_subcatalogs Sample.env;
  clean_tags := clean_tags Sample.env;
  normalize_ckan_format := normalize_ckan_format Sample.env;
  resource_inherit_license := true;
  license_register := license_register Sample.env;
  resource_formats := resource_formats Sample.env;
  munge_tag := munge_tag Sample.env;
  py_float := py_float Sample.env;
  json_dumps := json_dumps Sample.env;
  json_loads := json_loads Sample.env;
  wkt_to_geojson := wkt_to_geojson Sample.env;
  parse_date := parse_date Sample.env;
  typed_literal_truthy := typed_literal_truthy Sample.env;
  typed_literal_text := typed_literal_text Sample.env;
  Literal_of_object := Literal_of_object Sample.env;
  URIRef_of_object := URIRef_of_object Sample.env;
  str_of_object := str_of_object Sample.env;
  float_of_object := float_of_object Sample.env;
  decimal_literal := decimal_literal Sample.env;
  bnode_id := bnode_id Sample.env;
  resource_uri := resource_uri Sample.env;
  publisher_uri_organization_fallback := publisher_uri_organization_fallback Sample.env;
  geojson_to_wkt := geojson_to_wkt Sample.env
|}.

(** A dataset whose license identifier is a reference. *)
Definition licensed_dataset : pydict :=
  [("license_id", VStr "http://example.org/license/by");
   ("license_url", VStr "http://example.org/license/other")].

Lemma license_inheritance_on_samples :
  license_fallback Sample.env licensed_dataset = VNone
  ∧ license_fallback env_inherit licensed_dataset = VStr "http://example.org/license/by"
  ∧ ∃ w1 w2,
      write_resource env_inherit (license_fallback env_inherit licensed_dataset)
        Sample.dataset {| written := []; blank_nodes := 0 |}
        (VDict (licensed_resource "http://example.org/dataset/1/resource/1" "")) = Ok w1
      ∧ objects (written w1) (Sample.distribution "1") (DCT "license")
        = [URIRef "http://example.org/license/by"]
      ∧ write_resource env_inherit (license_fallback env_inherit licensed_dataset)
          Sample.dataset {| written := []; blank_nodes := 0 |}
          (VDict (licensed_resource "http://example.org/dataset/1/resource/1"
                    "http://example.org/license/own")) = Ok w2
      ∧ objects (written w2) (Sample.distribution "1") (DCT "license")
        = [URIRef "http://example.org/license/own"].
Proof.
  split; [|split].
  - exact (proj1 (license_inheritance Sample.env licensed_dataset) eq_refl).
  - exact (proj1 (proj2 (proj2 (license_inheritance env_inherit licensed_dataset)))
             (VStr "http://example.org/license/by") eq_refl eq_refl eq_refl).
  - destruct (proj2 (proj2 (proj2 (license_inheritance env_inherit licensed_dataset)))
                {| written := []; blank_nodes := 0 |} Sample.dataset
                (VStr "http://example.org/license/by")
                "http://example.org/dataset/1/resource/1" ""
                eq_refl eq_refl (λ p, eq_refl)) as (w1 & Hw1 & Ho1).
    destruct (proj2 (proj2 (proj2 (license_inheritance env_inherit licensed_dataset)))
                {| written := []; blank_nodes := 0 |} Sample.dataset
                (VStr "http://example.org/license/by")
                "http://example.org/dataset/1/resource/1"
                "http://example.org/license/own"
                eq_refl eq_refl (λ p, eq_refl)) as (w2 & Hw2 & Ho2).
    exists w1, w2. done.
Defined.

(** * The round trip, where it breaks

    The record of the round trip with access rights besides, and the
    record as it is on a site that exposes sub-catalogs: in both cases
    [graph_from_dataset] writes the graph and [parse_dataset] does not
    return from it. *)

(** ** A record with access rights *)

(** The record of the round trip with access rights besides: what
    [graph_from_dataset] reads under the key [accessRights], once as
    [dct:accessRights] and once, as a list, as [dcat:accessRights]. *)
Definition round_trip_record_with_rights (rights : string) : pydict :=
  round_trip_record ++ [("accessRights", VStr rights)].

Lemma round_trip_record_with_rights_lookup (rights key : string) :
  _get_dataset_value (round_trip_record_with_rights rights) key
  = Ok (dict_get_value (round_trip_record_with_rights rights) key).
Proof.
  unfold _get_dataset_value, _get_dict_value, dict_get_value.
  destruct (dict_get (round_trip_record_with_rights rights) key) eqn:Hkey; [done |].
  reflexivity.
Qed.

(** The items [_read_list_value] makes of a text that is no JSON. *)
Definition list_items (text : string) : list string :=
  if Str.contains "," text then Str.split "," text else [text].

Lemma read_list_value_no_json (E : environment) (text : string) :
  json_loads E text = Raise ValueError →
  _read_list_value E (VStr text) = Ok (VList (VStr <$> list_items text)).
Proof.
  intros Hjson. unfold _read_list_value, list_items. rewrite Hjson.
  cbn [mbind result_bind bind try_except].
  rewrite bool_decide_eq_true_2 by apply list_elem_of_singleton, eq_refl.
  by destruct (Str.contains "," text).
Qed.

(** [_add_list_triple] for references, on a value read as a list of
    texts. *)
Lemma add_list_triple_references (E : environment) (g : graph) (s p : node)
    (value : pyval) (items : list string) :
  _read_list_value E value = Ok (VList (VStr <$> items)) →
  _add_list_triple E g s p value TURIRef None
  = Ok (fold_left (λ g item, graph_add g (s, p, CleanedURIRef.new item)) items g).
Proof.
  intros Hread. unfold _add_list_triple. rewrite Hread.
  cbn [mbind result_bind bind py_iter]. clear Hread.
  revert g. induction items as [|item items IH]; intros g; [done |].
  cbn [fmap list_fmap for_each fold_left]. 
  change (make_object E (cleaned TURIRef) (VStr item) None)
    with (Ok (CleanedURIRef.new item) : result node).
  cbn [mbind result_bind bind]. apply IH.
Qed.

Lemma objects_fold_add_other (make : string → node) (items : list string) (g : graph)
    (s p s' p' : node) :
  p' ≠ p ∨ s' ≠ s →
  objects (fold_left (λ g item, graph_add g (s', p', make item)) items g) s p
  = objects g s p.
Proof.
  intros H. revert g. induction items as [|item items IH]; intros g; [done |].
  cbn [fold_left]. rewrite IH. by apply objects_graph_add_other.
Qed.

(** [parse_dataset] on a graph whose access rights give a text: the
    steps before the rights go through, and the entry for the rights names
    [accessRights]. *)
Lemma parse_dataset_raises_on_rights
    (E : environment) (g : graph) (compatibility_mode : bool)
    (cache : option license_maps) (dataset_dict : pydict) (dataset_ref : node)
    (spatial : spatial_info) :
  Str.truthy (_access_rights E g dataset_ref (DCT "accessRights")) = true →
  _spatial E g dataset_ref (DCT "spatial") = Ok spatial →
  parse_dataset E g compatibility_mode cache dataset_dict dataset_ref = Raise NameError.
Proof.
  intros Hrights Hspatial. unfold parse_dataset.
  destruct (keywords_total g dataset_ref) as [keywords ->].
  cbn [mbind result_bind bind].
  unfold _time_interval. cbn [Z.eqb Pos.eqb].
  rewrite Hrights, Hspatial.
  by destruct (interval_found _);
    [destruct (_read_time_interval_schema_org _ _ _ _) as [start end_]
    |destruct (_read_time_interval_time _ _ _ _) as [start end_]].
Qed.

(** Quoting leaves a text that is not empty not empty. *)
Lemma replace_char_truthy (c : ascii) (new s : string) :
  Str.truthy new = true → Str.truthy s = true →
  Str.truthy (Str.replace (String c EmptyString) new s) = true.
Proof.
  intros Hnew Hs. destruct s as [|a s]; [done |].
  cbn [Str.replace Str.replace_from].
  destruct (Str.startswith _ _); [|done].
  by destruct new.
Qed.

Lemma careful_quote_truthy (s : string) :
  Str.truthy s = true → Str.truthy (CleanedURIRef._careful_quote s) = true.
Proof.
  unfold CleanedURIRef._careful_quote.
  assert (forallb (λ c, Str.truthy (Quote.quote c)) CleanedURIRef.quotechars = true)
    as Hquote by (vm_compute; reflexivity).
  revert s Hquote. induction CleanedURIRef.quotechars as [|c cs IH]; [done |].
  cbn [forallb fold_left]. intros s [Hc Hcs]%andb_true_iff Hs.
  apply IH; [done |]. by apply replace_char_truthy.
Qed.

(** What [URIRefOrLiteral] makes of a text that is not empty is a term
    that counts as true, no blank node, with a text that is not empty. *)
Lemma uriref_or_literal_of_text (E : environment) (text : string) :
  Str.truthy text = true →
  let o := URIRefOrLiteral_new E (VStr text) in
  node_truthy E o = true ∧ is_BNode o = false
  ∧ is_Literal o || is_URIRef o = true ∧ Str.truthy (node_str o) = true.
Proof.
  intros Ht. cbn zeta. unfold URIRefOrLiteral_new.
  destruct (_ || _) eqn:Hhttp; [|done].
  destruct (n3_ok _); [|done].
  assert (Str.truthy (Str.strip text) = true) as Hstrip.
  { destruct (Str.strip text); [|done].
    by apply orb_true_iff in Hhttp as [H | H]. }
  unfold CleanedURIRef.new.
  cbn [node_truthy is_BNode is_Literal is_URIRef orb node_str].
  by rewrite careful_quote_truthy.
Qed.

(** The graph [graph_from_dataset] writes for that record. *)
Definition written_with_rights (E : environment) (ref : node) (rights : string) : graph :=
  let g := graph_add [] (ref, RDF "type", DCAT "Dataset") in
  let g := graph_add g (ref, DCT "title", plain "T") in
  let g := graph_add g (ref, DCT "description", plain "N") in
  let g := graph_add g (ref, DCT "accessRights", URIRefOrLiteral_new E (VStr rights)) in
  let g := graph_add g (ref, DCAT "keyword", plain "a") in
  let g := graph_add g (ref, DCAT "keyword", plain "b,c") in
  fold_left (λ g item, graph_add g (ref, DCAT "accessRights", CleanedURIRef.new item))
    (list_items rights) g.

Lemma round_trip_with_rights_serialized (E : environment) (n : nat) (ref : node)
    (rights : string) :
  Str.truthy rights = true →
  json_loads E rights = Raise ValueError →
  graph_from_dataset E {| written := []; blank_nodes := n |}
    (round_trip_record_with_rights rights) ref
  = Ok {| written := written_with_rights E ref rights; blank_nodes := n |}.
Proof.
  intros Hrights Hjson.
  set (rd := round_trip_record_with_rights rights).
  set (lookup := dict_get_value rd).
  assert (∀ key, _get_dataset_value rd key = Ok (lookup key)) as Hlookup.
  { intros key. apply round_trip_record_with_rights_lookup. }
  assert (∀ g key predicate fallbacks list_value date_value _type,
            Forall (λ k, truthy (lookup k) = false) (key :: fallbacks) →
            _add_triple_from_dict E g rd ref predicate key fallbacks
              list_value date_value _type None None = Ok g) as Hnothing.
  { intros. by apply (add_triple_nothing _ _ _ _ _ _ _ _ _ _ _ lookup). }
  assert (∀ g predicate _type,
            _add_triple_from_dict E g rd ref predicate "accessRights" [] true false
              _type None None
            = _add_list_triple E g ref predicate (VStr rights) _type None) as Hlist.
  { intros. unfold _add_triple_from_dict.
    pose proof (Hlookup "accessRights") as Hl. unfold _get_dataset_value in Hl.
    rewrite Hl. change (lookup "accessRights") with (VStr rights).
    cbn [truthy mbind result_bind bind]. rewrite Hrights.
    cbn [negb mbind result_bind bind truthy]. by rewrite Hrights. }
  unfold graph_from_dataset.
  unfold on_graph, _add_list_triples_from_dict, _add_date_triples_from_dict,
    _add_triples_from_dict, dataset_basic_items, dataset_date_items, dataset_list_items.
  cbn [add written blank_nodes for_each].
  rewrite (add_triple_without_fallback E _ rd ref (DCT "title") "title"
             TLiteral lookup Hlookup).
  change (lookup "title") with (VStr "T").
  cbn [truthy Str.truthy Str.is_empty negb cleaned make_term Literal_new
       mbind result_bind bind].
  rewrite (add_triple_without_fallback E _ rd ref (DCT "description") "notes"
             TLiteral lookup Hlookup).
  change (lookup "notes") with (VStr "N").
  cbn [truthy Str.truthy Str.is_empty negb cleaned make_term Literal_new
       mbind result_bind bind].
  repeat (rewrite Hnothing by (repeat constructor);
          cbn [mbind result_bind bind written blank_nodes]).
  rewrite (add_triple_without_fallback E _ rd ref (DCT "accessRights") "accessRights"
             TURIRefOrLiteral lookup Hlookup).
  change (lookup "accessRights") with (VStr rights).
  cbn [truthy]. rewrite Hrights.
  cbn [cleaned make_term mbind result_bind bind].
  repeat (rewrite Hnothing by (repeat constructor);
          cbn [mbind result_bind bind written blank_nodes]).
  assert (∀ w, write_tags E w rd ref
               = Ok (add (add w (ref, DCAT "keyword", plain "a"))
                       (ref, DCAT "keyword", plain "b,c"))) as -> by done.
  cbn [mbind result_bind bind written blank_nodes add].
  repeat (rewrite Hnothing by (repeat constructor);
          cbn [mbind result_bind bind written blank_nodes]).
  rewrite Hlist.
  rewrite (add_list_triple_references E _ ref (DCAT "accessRights") (VStr rights)
             (list_items rights) (read_list_value_no_json E rights Hjson)).
  cbn [mbind result_bind bind written blank_nodes].
  repeat (rewrite Hnothing by (repeat constructor);
          cbn [mbind result_bind bind written blank_nodes]).
  assert (∀ w, write_contact E w rd ref = Ok w) as -> by done.
  cbn [mbind result_bind bind].
  assert (∀ w, write_publisher E w rd ref = Ok w) as -> by done.
  cbn [mbind result_bind bind].
  assert (∀ w, write_temporal E w rd ref = Ok w) as -> by done.
  cbn [mbind result_bind bind].
  assert (∀ w, write_spatial E w rd ref = Ok w) as -> by done.
  cbn [mbind result_bind bind].
  reflexivity.
Qed.

(** ** A site that exposes sub-catalogs *)

(** [parse_dataset] on a graph without a catalog, on a site that exposes
    sub-catalogs: [_get_root_catalog_ref] takes the first of no roots. *)
Lemma parse_dataset_raises_without_catalog
    (E : environment) (g : graph) (compatibility_mode : bool)
    (cache : option license_maps) (dataset_dict : pydict) (dataset_ref : node)
    (spatial : spatial_info) :
  _spatial E g dataset_ref (DCT "spatial") = Ok spatial →
  _access_rights E g dataset_ref (DCT "accessRights") = EmptyString →
  expose_subcatalogs E = true →
  subjects_of g (DCT "hasPart") = [] →
  subjects g (RDF "type") (DCAT "Catalog") = [] →
  parse_dataset E g compatibility_mode cache dataset_dict dataset_ref = Raise IndexError.
Proof.
  intros Hspatial Hrights Hexp Hparts Hcatalogs. unfold parse_dataset.
  destruct (keywords_total g dataset_ref) as [keywords ->].
  cbn [mbind result_bind bind].
  unfold _time_interval. cbn [Z.eqb Pos.eqb].
  rewrite Hrights, Hspatial, Hexp.
  unfold _get_source_catalog, _get_root_catalog_ref. rewrite Hexp, Hparts, Hcatalogs.
  destruct (interval_found _);
    [destruct (_read_time_interval_schema_org _ _ _ _) as [start end_]
    |destruct (_read_time_interval_time _ _ _ _) as [start end_]];
    cbn [mbind result_bind bind Str.truthy Str.is_empty negb];
    (destruct (negb (dict_has _ _)); [destruct (_license _ _ _ _) |]; reflexivity).
Qed.

Lemma access_rights_no_object (E : environment) (g : graph) (s p : node) :
  objects g s p = [] → _access_rights E g s p = EmptyString.
Proof. intros H. unfold _access_rights, _object. by rewrite H. Qed.

Lemma spatial_no_object (E : environment) (g : graph) (s p : node) :
  objects g s p = [] →
  _spatial E g s p
  = Ok {| spatial_uri := None; spatial_text := None; spatial_geom := None;
          spatial_bbox := None; spatial_centroid := None |}.
Proof. intros H. unfold _spatial. by rewrite H. Qed.

(** ** Both together *)

Lemma objects_permutation (g g' : graph) (s p : node) :
  g ≡ₚ g' → objects g s p ≡ₚ objects g' s p.
Proof. intros H. unfold objects. by rewrite H. Qed.

Lemma subjects_permutation (g g' : graph) (p o : node) :
  g ≡ₚ g' → subjects g p o ≡ₚ subjects g' p o.
Proof. intros H. unfold subjects. by rewrite H. Qed.

Lemma subjects_of_permutation (g g' : graph) (p : node) :
  g ≡ₚ g' → subjects_of g p ≡ₚ subjects_of g' p.
Proof. intros H. unfold subjects_of. by rewrite H. Qed.

Lemma written_with_rights_objects (E : environment) (ref : node) (rights : string) :
  objects (written_with_rights E ref rights) ref (DCT "accessRights")
  = [URIRefOrLiteral_new E (VStr rights)]
  ∧ objects (written_with_rights E ref rights) ref (DCT "spatial") = [].
Proof.
  unfold written_with_rights. cbv zeta. split.
  - rewrite objects_fold_add_other by distinct.
    rewrite !objects_graph_add_other by distinct.
    rewrite objects_graph_add_same.
    rewrite !objects_graph_add_other by distinct.
    by rewrite decide_False by apply not_elem_of_nil.
  - rewrite objects_fold_add_other by distinct.
    by rewrite !objects_graph_add_other by distinct.
Qed.

(** C1 on the code.  The round trip of the record with title [T], notes [N]
    and the tags [a] and [b,c] does not come back for every such record,
    nor on every site.  When the record also carries access rights, a text
    that is not empty and no JSON, [graph_from_dataset] on an empty graph
    succeeds and writes the rights as [dct:accessRights], and
    [parse_dataset] on the graph it wrote, in whatever order that graph
    yields its triples, ends in [NameError]: the entry it is about to
    append names [accessRights], which nothing binds.  And on a site that
    exposes sub-catalogs, [parse_dataset] on the graph written for the
    record as it is ends in [IndexError]: the graph holds no catalog for
    [_get_root_catalog_ref] to return. *)
Theorem round_trip_failures
    (E : environment) (compatibility_mode : bool) (cache : option license_maps)
    (n : nat) (dataset_ref : node) :
  (∀ rights,
     rights ≠ EmptyString →
     json_loads E rights = Raise ValueError →
     ∃ w,
       graph_from_dataset E {| written := []; blank_nodes := n |}
         (round_trip_record_with_rights rights) dataset_ref = Ok w
       ∧ ∀ g, g ≡ₚ written w →
           parse_dataset E g compatibility_mode cache [] dataset_ref = Raise NameError)
  ∧ (expose_subcatalogs E = true →
     ∃ w,
       graph_from_dataset E {| written := []; blank_nodes := n |}
         round_trip_record dataset_ref = Ok w
       ∧ ∀ g, g ≡ₚ written w →
           parse_dataset E g compatibility_mode cache [] dataset_ref
           = Raise IndexError).
Proof.
  split.
  - intros rights Hne Hjson.
    assert (Str.truthy rights = true) as Hrights by (by destruct rights).
    eexists. split; [by apply round_trip_with_rights_serialized |].
    intros g Hg. cbn [written] in Hg.
    destruct (written_with_rights_objects E dataset_ref rights) as [Hr Hs].
    eapply parse_dataset_raises_on_rights.
    + assert (objects g dataset_ref (DCT "accessRights")
              = [URIRefOrLiteral_new E (VStr rights)]) as Hobjects.
      { apply Permutation_singleton_r.
        by rewrite (objects_permutation _ _ dataset_ref (DCT "accessRights") Hg), Hr. }
      unfold _access_rights, _object. rewrite Hobjects.
      cbn [head].
      destruct (uriref_or_literal_of_text E rights Hrights) as (Ht & Hb & Hl & Hn).
      rewrite Ht, Hb. cbn [andb]. by rewrite Hl.
    + apply spatial_no_object, Permutation_nil_r.
      by rewrite (objects_permutation _ _ dataset_ref (DCT "spatial") Hg), Hs.
  - intros Hexp. eexists. split; [apply round_trip_serialized |].
    intros g Hg. cbn [written] in Hg.
    eapply parse_dataset_raises_without_catalog; [| |done| |].
    + apply spatial_no_object, Permutation_nil_r.
      rewrite (objects_permutation _ _ dataset_ref (DCT "spatial") Hg).
      by rewrite objects_about.
    + apply access_rights_no_object, Permutation_nil_r.
      rewrite (objects_permutation _ _ dataset_ref (DCT "accessRights") Hg).
      by rewrite objects_about.
    + apply Permutation_nil_r.
      by rewrite (subjects_of_permutation _ _ (DCT "hasPart") Hg).
    + apply Permutation_nil_r.
      by rewrite (subjects_permutation _ _ (RDF "type") (DCAT "Catalog") Hg).
Qed.

(** [round_trip_failures] on the sample site with the rights [public], and
    on the sample site with sub-catalogs exposed. *)
Lemma round_trip_failures_on_samples :
  (∃ w,
     graph_from_dataset Sample.env {| written := []; blank_nodes := 0 |}
       (round_trip_record_with_rights "public") Sample.dataset = Ok w
     ∧ ∀ g, g ≡ₚ written w →
         parse_dataset Sample.env g false None [] Sample.dataset = Raise NameError)
  ∧ (∃ w,
       graph_from_dataset Sample.env_subcatalogs {| written := []; blank_nodes := 0 |}
         round_trip_record Sample.dataset = Ok w
       ∧ ∀ g, g ≡ₚ written w →
           parse_dataset Sample.env_subcatalogs g false None [] Sample.dataset
           = Raise IndexError).
Proof.
  split.
  - refine (proj1 (round_trip_failures Sample.env false None 0 Sample.dataset)
              "public" _ eq_refl).
    discriminate.
  - exact (proj2 (round_trip_failures Sample.env_subcatalogs false None 0 Sample.dataset)
             eq_refl).
Defined.
